(** * TravIS python-backend: turn orchestration, caching caller, rate limiter

    A shallow embedding of [config.py], [optimized_agents.py],
    [simple_agents.py], [api.py] and [simple_api.py].

    Conventions of the embedding.
    - A Python [str] is a Rocq [string] read as a sequence of code points
      below 256.
    - A Python [dict] with string keys is a [gmap string _]; a transcript
      entry is such a dict with string values.
    - Timestamps and delays are rationals ([Q], in seconds); rounding of
      floating-point numbers is not modelled.
    - Module-level singletons ([rate_limiter], [response_cache],
      [conversation_store], [context_manager]) are fields of one [World]
      record that every operation threads through a state monad.
    - State dictionaries live in a heap of objects; the conversation store
      maps ids to heap locations, so that aliasing between the store and a
      turn's local [state] variable is explicit.
    - [Runner.run], [uuid4], [create_initial_context] and [json.loads]
      belong to external libraries or to files that are not part of the
      modelled sources; they are parameters of the development. *)

From Stdlib Require Import ZArith QArith Lqa Ascii String List.
From stdpp Require Import gmap strings list.
Import ListNotations.

Local Open Scope string_scope.
Local Open Scope list_scope.
Local Open Scope nat_scope.

(** ** Python strings *)

Module Py.

(** [str.isspace] on one code point below 256. *)
Definition is_space (c : ascii) : bool :=
  let n := nat_of_ascii c in
  ((9 <=? n) && (n <=? 13)) || ((28 <=? n) && (n <=? 32))
  || (n =? 133) || (n =? 160).

Fixpoint lstrip (s : string) : string :=
  match s with
  | EmptyString => EmptyString
  | String c s' => if is_space c then lstrip s' else s
  end.

Definition rev_string (s : string) : string :=
  string_of_list_ascii (rev (list_ascii_of_string s)).

Definition rstrip (s : string) : string := rev_string (lstrip (rev_string s)).

(** [s.strip()] *)
Definition strip (s : string) : string := rstrip (lstrip s).

(** [s[:n]] *)
Definition prefix (n : nat) (s : string) : string := substring 0 n s.

(** [l[-k:]] for [k >= 0]: the last [k] elements, and the whole list when
    [k = 0] (since [-0 = 0]) or when the list is shorter than [k]. *)
Definition last_slice {A} (k : nat) (l : list A) : list A :=
  match k with
  | O => l
  | _ => skipn (length l - k) l
  end.

Definition hex_digit (n : nat) : ascii :=
  nth n (list_ascii_of_string "0123456789abcdef") "0"%char.

(** Two lower-case hexadecimal digits of a byte. *)
Definition hex_byte (n : nat) : string :=
  String (hex_digit (n / 16)) (String (hex_digit (n mod 16)) EmptyString).

(** [json.dumps] of one character of a string, with the default
    [ensure_ascii=True]: everything outside [' '..'~'] is escaped. *)
Definition json_escape_char (c : ascii) : string :=
  let n := nat_of_ascii c in
  if n =? 34 then "\" ++ String c EmptyString
  else if n =? 92 then "\\"
  else if n =? 10 then "\n"
  else if n =? 13 then "\r"
  else if n =? 9 then "\t"
  else if n =? 8 then "\b"
  else if n =? 12 then "\f"
  else if (32 <=? n) && (n <=? 126) then String c EmptyString
  else "\u00" ++ hex_byte n.

Fixpoint json_escape (s : string) : string :=
  match s with
  | EmptyString => EmptyString
  | String c s' => json_escape_char c ++ json_escape s'
  end.

Definition dquote : string := String (ascii_of_nat 34) EmptyString.

(** [json.dumps(s)] for a [str]. *)
Definition json_dumps_str (s : string) : string :=
  dquote ++ json_escape s ++ dquote.

(** [json.dumps(v)] for an [Optional[str]]. *)
Definition json_dumps_opt (v : option string) : string :=
  match v with
  | None => "null"
  | Some s => json_dumps_str s
  end.

(** [s * n] *)
Fixpoint repeat_string (s : string) (n : nat) : string :=
  match n with
  | O => EmptyString
  | S n' => s ++ repeat_string s n'
  end.

(** [sep.join(parts)] *)
Fixpoint join (sep : string) (parts : list string) : string :=
  match parts with
  | [] => EmptyString
  | [p] => p
  | p :: rest => p ++ sep ++ join sep rest
  end.

End Py.

(** ** MD5 ([hashlib.md5(...).hexdigest()], RFC 1321)

    32-bit words are integers in [0, 2^32); every addition is reduced
    modulo [2^32]. *)

Module MD5.
Local Open Scope Z_scope.

Definition w32 (x : Z) : Z := Z.land x 4294967295.

Definition rotl32 (x : Z) (c : Z) : Z :=
  w32 (Z.lor (Z.shiftl x c) (Z.shiftr x (32 - c))).

Definition not32 (x : Z) : Z := Z.lxor x 4294967295.

(** Per-round shift amounts. *)
Definition S_table : list Z :=
  [7; 12; 17; 22; 7; 12; 17; 22; 7; 12; 17; 22; 7; 12; 17; 22;
   5; 9; 14; 20; 5; 9; 14; 20; 5; 9; 14; 20; 5; 9; 14; 20;
   4; 11; 16; 23; 4; 11; 16; 23; 4; 11; 16; 23; 4; 11; 16; 23;
   6; 10; 15; 21; 6; 10; 15; 21; 6; 10; 15; 21; 6; 10; 15; 21].

(** [floor (2^32 * abs (sin (i + 1)))] for [i] in [0, 64). *)
Definition K_table : list Z :=
  [3614090360; 3905402710; 606105819; 3250441966; 4118548399; 1200080426;
   2821735955; 4249261313; 1770035416; 2336552879; 4294925233; 2304563134;
   1804603682; 4254626195; 2792965006; 1236535329; 4129170786; 3225465664;
   643717713; 3921069994; 3593408605; 38016083; 3634488961; 3889429448;
   568446438; 3275163606; 4107603335; 1163531501; 2850285829; 4243563512;
   1735328473; 2368359562; 4294588738; 2272392833; 1839030562; 4259657740;
   2763975236; 1272893353; 4139469664; 3200236656; 681279174; 3936430074;
   3572445317; 76029189; 3654602809; 3873151461; 530742520; 3299628645;
   4096336452; 1126891415; 2878612391; 4237533241; 1700485571; 2399980690;
   4293915773; 2240044497; 1873313359; 4264355552; 2734768916; 1309151649;
   4149444226; 3174756917; 718787259; 3951481745].

Record Digest := { dA : Z; dB : Z; dC : Z; dD : Z }.

Definition init : Digest :=
  {| dA := 1732584193; dB := 4023233417; dC := 2562383102; dD := 271733878 |}.

(** Little-endian 32-bit words of a byte list. *)
Fixpoint words_of_bytes (bs : list Z) : list Z :=
  match bs with
  | b0 :: b1 :: b2 :: b3 :: rest =>
      (b0 + 256 * b1 + 65536 * b2 + 16777216 * b3) :: words_of_bytes rest
  | _ => []
  end.

Definition bytes_of_word (w : Z) : list Z :=
  [Z.land w 255; Z.land (Z.shiftr w 8) 255;
   Z.land (Z.shiftr w 16) 255; Z.land (Z.shiftr w 24) 255].

(** The message followed by [0x80], zeros up to 56 modulo 64, and the bit
    length as a 64-bit little-endian integer. *)
Definition pad (msg : list Z) : list Z :=
  let len := Z.of_nat (length msg) in
  let zeros := Z.to_nat ((55 - len) mod 64) in
  let bits := 8 * len in
  msg ++ 128 :: repeat 0 zeros
      ++ bytes_of_word (w32 bits) ++ bytes_of_word (w32 (Z.shiftr bits 32)).

Definition step (M : list Z) (st : Digest) (i : nat) : Digest :=
  let '(Build_Digest A B C D) := st in
  let iz := Z.of_nat i in
  let '(F, g) :=
    if iz <? 16 then (Z.lor (Z.land B C) (Z.land (not32 B) D), iz)
    else if iz <? 32 then
      (Z.lor (Z.land D B) (Z.land (not32 D) C), (5 * iz + 1) mod 16)
    else if iz <? 48 then (Z.lxor B (Z.lxor C D), (3 * iz + 5) mod 16)
    else (Z.lxor C (Z.lor B (not32 D)), (7 * iz) mod 16) in
  let F' := w32 (F + A + nth i K_table 0 + nth (Z.to_nat g) M 0) in
  {| dA := D; dB := w32 (B + rotl32 F' (nth i S_table 0)); dC := B; dD := C |}.

Definition process_chunk (st : Digest) (M : list Z) : Digest :=
  let st' := fold_left (step M) (seq 0 64) st in
  {| dA := w32 (dA st + dA st'); dB := w32 (dB st + dB st');
     dC := w32 (dC st + dC st'); dD := w32 (dD st + dD st') |}.

Fixpoint chunks (fuel : nat) (ws : list Z) : list (list Z) :=
  match fuel, ws with
  | S fuel', _ :: _ => firstn 16 ws :: chunks fuel' (skipn 16 ws)
  | _, _ => []
  end.

Definition digest (msg : list Z) : Digest :=
  let ws := words_of_bytes (pad msg) in
  fold_left process_chunk (chunks (length ws) ws) init.

Definition hex_of_bytes (bs : list Z) : string :=
  fold_right (fun b acc => (Py.hex_byte (Z.to_nat b) ++ acc)%string)
             EmptyString bs.

Definition bytes_of_string (s : string) : list Z :=
  map (fun c => Z.of_nat (nat_of_ascii c)) (list_ascii_of_string s).

(** [hashlib.md5(s.encode()).hexdigest()] for a string of ASCII
    characters (which its UTF-8 encoding leaves unchanged). *)
Definition hexdigest (s : string) : string :=
  let d := digest (bytes_of_string s) in
  hex_of_bytes (bytes_of_word (dA d) ++ bytes_of_word (dB d)
                ++ bytes_of_word (dC d) ++ bytes_of_word (dD d)).

End MD5.

(** ** config.py: constants *)

Definition RATE_LIMIT_DELAY : Q := 1.
Definition MAX_RETRIES : nat := 3.
Definition RETRY_DELAY : Q := 2.

Definition FAST_MODEL : string := "gpt-3.5-turbo".
Definition PREMIUM_MODEL : string := "gpt-4".

Definition MAX_CONTEXT_LENGTH : nat := 4000.
Definition MAX_CONVERSATION_HISTORY : nat := 10.
Definition CACHE_RESPONSES : bool := true.
Definition CACHE_TTL : Q := 300.

(** [x < y] on timestamps. *)
Definition Qlt_bool (x y : Q) : bool := negb (Qle_bool y x).

(** ** Data model *)

(** A transcript entry: a dict such as [{"content": ..., "role": "user"}]. *)
Abbreviation Entry := (gmap string string).

(** The fields of a context object ([model_dump()]): each holds [None] or
    a string. *)
Abbreviation AgentContext := (gmap string (option string)).

(** [Union[str, List[Dict[str, Any]]]] *)
Inductive InputData :=
| InStr (s : string)
| InList (items : list Entry).

(** What an agent's [handoffs] list may hold: another agent, a function
    tool (as [simple_triage_agent] lists), or an [agents.Handoff] object,
    whose [on_invoke_handoff] closure may capture an [on_handoff] callback
    (kept here by the callback's [__name__]). *)
Inductive HandoffRef :=
| HAgent (agent_name : string)
| HTool (tool_name : string)
| HHandoff (agent_name : string) (on_handoff : option string).

Record Agent := {
  name : string;
  model : string;
  handoff_description : string;
  tools : list string;
  handoffs : list HandoffRef;
}.

(** The items of [RunResult.new_items]. [text] is
    [ItemHelpers.text_message_output(item)]; [raw_name] and [raw_arguments]
    are [getattr(item.raw_item, "name", None)] and
    [getattr(item.raw_item, "arguments", None)]. [OtherItem] stands for the
    item classes that no branch of the endpoint handles. *)
Inductive RunItem :=
| MessageOutputItem (agent : Agent) (text : string)
| HandoffOutputItem (source_agent target_agent : Agent)
| ToolCallItem (agent : Agent) (raw_name raw_arguments : option string)
| ToolCallOutputItem (agent : Agent) (output : string)
| OtherItem.

(** The object [Runner.run] returns; [to_input_list] is the value of the
    method of that name. *)
Record RunResult := {
  final_output : string;
  new_items : list RunItem;
  to_input_list : list Entry;
}.

(** What [Runner.run] does when called: it returns a result or raises. In
    both cases tools may have mutated the context object it was given;
    [ctx_after = None] says that the object was left as it was. *)
Inductive RunOutcome :=
| Returns (result : RunResult) (ctx_after : option AgentContext)
| Raises (error : string) (ctx_after : option AgentContext).

Definition outcome_ctx (o : RunOutcome) : option AgentContext :=
  match o with
  | Returns _ c => c
  | Raises _ c => c
  end.

(** Values of [json.loads]. *)
#[local] Set Warnings "-register-all".
Inductive JsonValue :=
| JNull
| JBool (b : bool)
| JNumber (q : Q)
| JString (s : string)
| JArray (l : list JsonValue)
| JObject (l : list (string * JsonValue)).

(** [tool_args]: the raw payload, or what [json.loads] made of it. *)
Inductive ToolArgs :=
| ArgsNone
| ArgsRaw (raw : string)
| ArgsParsed (v : JsonValue).

(** The [metadata] dicts the endpoints build. *)
Inductive Metadata :=
| MetaHandoff (source_agent target_agent : string)
| MetaToolArgs (tool_args : ToolArgs)
| MetaToolResult (tool_result : string)
| MetaChanges (changes : AgentContext).

Record MessageResponse := {
  msg_content : string;
  msg_agent : string;
}.

Record AgentEvent := {
  ev_id : string;
  ev_type : string;
  ev_agent : string;
  ev_content : string;
  ev_metadata : option Metadata;
  ev_timestamp : option Q;
}.

(** An entry of [_build_agents_list()]. *)
Record AgentInfo := {
  info_name : string;
  info_description : string;
  info_handoffs : list string;
  info_tools : list string;
}.

Record ChatRequest := {
  req_conversation_id : option string;
  req_message : string;
}.

Record ChatResponse := {
  conversation_id : string;
  current_agent : string;
  messages : list MessageResponse;
  events : list AgentEvent;
  context : AgentContext;
  agents : list AgentInfo;
}.

(** The per-conversation [state] dict, with keys ["input_items"],
    ["context"] and ["current_agent"]. *)
Record StateDict := {
  st_input_items : list Entry;
  st_context : AgentContext;
  st_current_agent : string;
}.

(** Heap locations of state dicts. *)
Abbreviation loc := nat.

(** An entry of [response_cache]: [{'response': ..., 'timestamp': ...}]. *)
Record CacheEntry := {
  ce_response : RunResult;
  ce_timestamp : Q;
}.

(** An entry of [ContextManager.conversation_history]. *)
Record HistoryMessage := {
  hm_role : string;
  hm_content : string;
  hm_agent : option string;
  hm_timestamp : Q;
}.

(** Observable actions, in the order they happen. *)
Inductive Effect :=
| EvRateWait
| EvSleep (delay : Q)
| EvRun (agent : Agent) (input : InputData) (ctx : option AgentContext)
| EvSave (conversation_id : string).

(** ** The world: clocks, singletons and the object heap *)

Record World := {
  loop_time : Q;        (* asyncio.get_event_loop().time() *)
  wall_time : Q;        (* time.time() *)
  last_request : Q;     (* config.rate_limiter.last_request *)
  response_cache : gmap string CacheEntry;    (* config.response_cache *)
  conversations : gmap string loc;  (* conversation_store._conversations *)
  heap : gmap loc StateDict;
  conversation_history : list HistoryMessage; (* context_manager *)
  draws : nat;          (* calls of uuid4 / create_initial_context so far *)
  runs : nat;           (* calls of Runner.run so far *)
  trace : list Effect;
}.

Definition set_clocks (f : Q -> Q) (w : World) : World :=
  {| loop_time := f (loop_time w); wall_time := f (wall_time w);
     last_request := last_request w; response_cache := response_cache w;
     conversations := conversations w; heap := heap w;
     conversation_history := conversation_history w;
     draws := draws w; runs := runs w; trace := trace w |}.

Definition set_last_request (t : Q) (w : World) : World :=
  {| loop_time := loop_time w; wall_time := wall_time w;
     last_request := t; response_cache := response_cache w;
     conversations := conversations w; heap := heap w;
     conversation_history := conversation_history w;
     draws := draws w; runs := runs w; trace := trace w |}.

Definition set_response_cache (c : gmap string CacheEntry) (w : World) : World :=
  {| loop_time := loop_time w; wall_time := wall_time w;
     last_request := last_request w; response_cache := c;
     conversations := conversations w; heap := heap w;
     conversation_history := conversation_history w;
     draws := draws w; runs := runs w; trace := trace w |}.

Definition set_conversations (c : gmap string loc) (w : World) : World :=
  {| loop_time := loop_time w; wall_time := wall_time w;
     last_request := last_request w; response_cache := response_cache w;
     conversations := c; heap := heap w;
     conversation_history := conversation_history w;
     draws := draws w; runs := runs w; trace := trace w |}.

Definition set_heap (h : gmap loc StateDict) (w : World) : World :=
  {| loop_time := loop_time w; wall_time := wall_time w;
     last_request := last_request w; response_cache := response_cache w;
     conversations := conversations w; heap := h;
     conversation_history := conversation_history w;
     draws := draws w; runs := runs w; trace := trace w |}.

Definition set_conversation_history (h : list HistoryMessage) (w : World) : World :=
  {| loop_time := loop_time w; wall_time := wall_time w;
     last_request := last_request w; response_cache := response_cache w;
     conversations := conversations w; heap := heap w;
     conversation_history := h;
     draws := draws w; runs := runs w; trace := trace w |}.

Definition set_draws (n : nat) (w : World) : World :=
  {| loop_time := loop_time w; wall_time := wall_time w;
     last_request := last_request w; response_cache := response_cache w;
     conversations := conversations w; heap := heap w;
     conversation_history := conversation_history w;
     draws := n; runs := runs w; trace := trace w |}.

Definition set_runs (n : nat) (w : World) : World :=
  {| loop_time := loop_time w; wall_time := wall_time w;
     last_request := last_request w; response_cache := response_cache w;
     conversations := conversations w; heap := heap w;
     conversation_history := conversation_history w;
     draws := draws w; runs := n; trace := trace w |}.

Definition set_trace (t : list Effect) (w : World) : World :=
  {| loop_time := loop_time w; wall_time := wall_time w;
     last_request := last_request w; response_cache := response_cache w;
     conversations := conversations w; heap := heap w;
     conversation_history := conversation_history w;
     draws := draws w; runs := runs w; trace := t |}.

(** ** A state monad over the world *)

Definition M (A : Type) : Type := World -> A * World.

#[global] Instance M_ret : MRet M := fun A (x : A) (w : World) => (x, w).

#[global] Instance M_bind : MBind M :=
  fun A B (f : A -> M B) (m : M A) (w : World) =>
    let (a, w') := m w in f a w'.

Definition gets {A} (f : World -> A) : M A := fun w => (f w, w).
Definition modify (f : World -> World) : M unit := fun w => (tt, f w).

Definition log (e : Effect) : M unit :=
  modify (fun w => set_trace (trace w ++ [e]) w).

(** [await asyncio.sleep(d)]: both clocks advance by [d]. *)
Definition asyncio_sleep (d : Q) : M unit :=
  modify (set_clocks (fun t => t + d)%Q);; log (EvSleep d).

(** ** config.py: the rate limiter and the response cache *)

(** [RateLimiter.wait], on the global instance (whose [delay] is
    [RATE_LIMIT_DELAY]). *)
Definition rate_limiter_wait : M unit :=
  log EvRateWait;;
  now ← gets loop_time;
  last ← gets last_request;
  let time_since_last := (now - last)%Q in
  (if Qlt_bool time_since_last RATE_LIMIT_DELAY
   then asyncio_sleep (RATE_LIMIT_DELAY - time_since_last)%Q
   else mret tt);;
  now' ← gets loop_time;
  modify (set_last_request now').

Definition get_cached_response (key : string) : M (option RunResult) :=
  if negb CACHE_RESPONSES then mret None
  else
    cache ← gets response_cache;
    match cache !! key with
    | Some cached_data =>
        now ← gets wall_time;
        if Qlt_bool (now - ce_timestamp cached_data)%Q CACHE_TTL
        then mret (Some (ce_response cached_data))
        else modify (fun w => set_response_cache (delete key (response_cache w)) w);;
             mret None
    | None => mret None
    end.

Definition cache_response (key : string) (response : RunResult) : M unit :=
  if negb CACHE_RESPONSES then mret tt
  else
    now ← gets wall_time;
    modify (fun w =>
      set_response_cache
        (<[key := {| ce_response := response; ce_timestamp := now |}]>
           (response_cache w)) w).

(** ** External collaborators

    [Runner.run] (the [agents] SDK) is indexed by the number of earlier
    calls, so that successive calls with equal arguments may differ.
    [uuid4().hex] and [create_initial_context()] (from [main.py]) are
    indexed by the number of earlier draws. [str_items] is [str] of a list
    of dicts and [str_context] is [str] of a context object;
    [context_defaults] holds the field defaults of the context class
    ([AirlineAgentContext] in [main.py]), which its constructor uses for
    every field it is not given. *)

Record External := {
  Runner_run : nat -> Agent -> InputData -> option AgentContext -> RunOutcome;
  uuid4_hex : nat -> string;
  create_initial_context : nat -> AgentContext;
  json_loads : string -> option JsonValue;
  str_items : list Entry -> string;
  str_context : AgentContext -> string;
  context_defaults : AgentContext;
}.

(** ** simple_agents.py: the three agents *)

Definition simple_faq_agent : Agent :=
  {| name := "FAQ Agent";
     model := FAST_MODEL;
     handoff_description :=
       "A helpful agent that can answer questions about the airline.";
     tools := ["faq_lookup_tool"; "current_date_tool"; "current_time_tool"];
     handoffs := [HAgent "Triage Agent"] |}.

Definition simple_trip_agent : Agent :=
  {| name := "Trip Management Agent";
     model := FAST_MODEL;
     handoff_description :=
       "An agent that can help with trip data lookup and management like CRUD operations.";
     tools := ["lookup_trip_data"; "get_trip_statistics"; "search_trips";
               "current_date_tool"; "current_time_tool";
               "cancel_upcoming_trip_or_booking"];
     handoffs := [HAgent "Triage Agent"] |}.

Definition simple_triage_agent : Agent :=
  {| name := "Triage Agent";
     model := FAST_MODEL;
     handoff_description :=
       "A triage agent that can help with various airline services.";
     tools := ["lookup_trip_data"; "get_trip_statistics"; "search_trips";
               "faq_lookup_tool"];
     handoffs := [HAgent "FAQ Agent"; HAgent "Trip Management Agent";
                  HTool "current_date_tool"; HTool "current_time_tool"] |}.

(** ** optimized_agents.py *)

Record OptimizedAgent := {
  oa_agent : Agent;
  use_fast_model : bool;
  oa_model : string;
}.

Definition set_model (m : string) (a : Agent) : Agent :=
  {| name := name a; model := m; handoff_description := handoff_description a;
     tools := tools a; handoffs := handoffs a |}.

(** [OptimizedAgent.__init__] *)
Definition create_optimized_agent (agent : Agent) (fast : bool) : OptimizedAgent :=
  {| oa_agent := if fast then set_model FAST_MODEL agent else agent;
     use_fast_model := fast;
     oa_model := if fast then FAST_MODEL else PREMIUM_MODEL |}.

(** What [run_with_optimization] returns: the runner's result object or an
    instance of the local class [FallbackResponse]. *)
Inductive Response :=
| RunResultObj (r : RunResult)
| FallbackResponse (message : string).

Definition response_final_output (r : Response) : string :=
  match r with
  | RunResultObj r => final_output r
  | FallbackResponse message => message
  end.

Definition response_new_items (r : Response) : list RunItem :=
  match r with
  | RunResultObj r => new_items r
  | FallbackResponse _ => []
  end.

Definition response_to_input_list (r : Response) : list Entry :=
  match r with
  | RunResultObj r => to_input_list r
  | FallbackResponse _ => []
  end.

Definition fallback_message : string :=
  "I apologize, but I'm experiencing high demand right now. "
  ++ "Please try again in a moment. For immediate assistance, you can: "
  ++ "1. Check your booking reference directly, "
  ++ "2. Contact our support line, or "
  ++ "3. Try again in a few minutes.".

Definition _create_fallback_response (input_data : InputData) (error : string)
  : Response :=
  FallbackResponse fallback_message.

Definition truncate (content : string) : string :=
  (Py.prefix MAX_CONTEXT_LENGTH content ++ "...")%string.

Definition optimize_item (item : Entry) : Entry :=
  match item !! "content" with
  | Some content =>
      if MAX_CONTEXT_LENGTH <? String.length content
      then <["content" := truncate content]> item
      else item
  | None => item
  end.

Definition _optimize_input (input_data : InputData) : InputData :=
  match input_data with
  | InStr s =>
      if MAX_CONTEXT_LENGTH <? String.length s then InStr (truncate s)
      else InStr s
  | InList l =>
      if MAX_CONVERSATION_HISTORY <? length l
      then InList (firstn 1 l ++ Py.last_slice (MAX_CONVERSATION_HISTORY - 1) l)
      else InList (map optimize_item l)
  end.

Definition essential_fields : list string :=
  ["passenger_name"; "confirmation_number"; "flight_number";
   "booking_reference"].

Definition is_essential (kv : string * option string) : Prop :=
  kv.1 ∈ essential_fields.

#[global] Instance is_essential_dec kv : Decision (is_essential kv).
Proof. unfold is_essential. apply _. Defined.

Section Backend.
Variable ext : External.

(** [str(input_data)] *)
Definition str_input (input_data : InputData) : string :=
  match input_data with
  | InStr s => s
  | InList l => str_items ext l
  end.

(** [json.dumps(key_data, sort_keys=True)] *)
Definition key_string (input context : option string) (agent model : string)
  : string :=
  ("{" ++ Py.json_dumps_str "agent" ++ ": " ++ Py.json_dumps_str agent
   ++ ", " ++ Py.json_dumps_str "context" ++ ": " ++ Py.json_dumps_opt context
   ++ ", " ++ Py.json_dumps_str "input" ++ ": " ++ Py.json_dumps_opt input
   ++ ", " ++ Py.json_dumps_str "model" ++ ": " ++ Py.json_dumps_str model
   ++ "}")%string.

Definition _create_cache_key (self : OptimizedAgent) (input_data : InputData)
    (context : option AgentContext) : string :=
  MD5.hexdigest
    (key_string (Some (str_input input_data))
                (str_context ext <$> context)
                (name (oa_agent self)) (oa_model self)).

(** The context class is instantiated with [optimized_dict] as keyword
    arguments: the essential fields keep their values, every other field
    gets its default. *)
Definition _optimize_context (context : option AgentContext)
  : option AgentContext :=
  match context with
  | None => None
  | Some c => Some (filter is_essential c ∪ context_defaults ext)
  end.

(** [await Runner.run(agent, input, context=ctx)] *)
Definition run (agent : Agent) (input : InputData) (ctx : option AgentContext)
  : M RunOutcome :=
  n ← gets runs;
  modify (set_runs (S n));;
  log (EvRun agent input ctx);;
  mret (Runner_run ext n agent input ctx).

(** The context object after a call of the runner. *)
Definition mutated (ctx : option AgentContext) (o : RunOutcome)
  : option AgentContext :=
  (fun c => default c (outcome_ctx o)) <$> ctx.

(** The loop [for attempt in range(max_retries)] of
    [run_with_optimization] and the statement after it. *)
Fixpoint attempts (self : OptimizedAgent) (cache_key : string)
    (input_data optimized_input : InputData) (max_retries : nat)
    (range : list nat) (optimized_context : option AgentContext)
    (last_exception : option string) : M Response :=
  match range with
  | [] =>
      mret (_create_fallback_response input_data
              (default "None" last_exception))
  | attempt :: range' =>
      o ← run (oa_agent self) optimized_input optimized_context;
      match o with
      | Returns result _ =>
          cache_response cache_key result;;
          mret (RunResultObj result)
      | Raises e _ =>
          if attempt <? max_retries - 1 then
            asyncio_sleep (RETRY_DELAY * inject_Z (2 ^ Z.of_nat attempt))%Q;;
            attempts self cache_key input_data optimized_input max_retries
                     range' (mutated optimized_context o) (Some e)
          else mret (_create_fallback_response input_data e)
      end
  end.

Definition run_with_optimization (self : OptimizedAgent)
    (input_data : InputData) (context : option AgentContext)
    (max_retries : nat) : M Response :=
  let cache_key := _create_cache_key self input_data context in
  cached_response ← get_cached_response cache_key;
  match cached_response with
  | Some r => mret (RunResultObj r)
  | None =>
      rate_limiter_wait;;
      let optimized_input := _optimize_input input_data in
      let optimized_context := _optimize_context context in
      attempts self cache_key input_data optimized_input max_retries
               (seq 0 max_retries) optimized_context None
  end.

(** [ContextManager.add_message] on the global [context_manager]. *)
Definition context_manager_add_message (role content : string)
    (agent : option string) : M unit :=
  now ← gets loop_time;
  let message := {| hm_role := role; hm_content := content;
                    hm_agent := agent; hm_timestamp := now |} in
  modify (fun w =>
    let h := conversation_history w ++ [message] in
    set_conversation_history
      (if MAX_CONVERSATION_HISTORY <? length h
       then Py.last_slice MAX_CONVERSATION_HISTORY h else h) w).

(** [ContextManager.get_optimized_history]: a copy of the history. *)
Definition context_manager_get_optimized_history : M (list HistoryMessage) :=
  gets conversation_history.

(** [ContextManager.clear_history] *)
Definition context_manager_clear_history : M unit :=
  modify (set_conversation_history []).

(** The part of the summary a message contributes: only user and assistant
    messages are summarised. *)
Definition summary_part (msg : HistoryMessage) : list string :=
  if String.eqb (hm_role msg) "user"
  then [("User: " ++ Py.prefix 100 (hm_content msg) ++ "...")%string]
  else if String.eqb (hm_role msg) "assistant"
  then [("Assistant: " ++ Py.prefix 100 (hm_content msg) ++ "...")%string]
  else [].

(** [ContextManager.get_summary], as a function of the history. *)
Definition summary_of (history : list HistoryMessage) : string :=
  match history with
  | [] => "New conversation"
  | _ => Py.join " | " (flat_map summary_part (Py.last_slice 3 history))
  end.

Definition context_manager_get_summary : M string :=
  gets (fun w => summary_of (conversation_history w)).

(** ** api.py *)

(** [InMemoryConversationStore.get] and [save]: the store keeps the state
    object it is given, not a copy. *)
Definition conversation_store_get (conversation_id : string)
  : M (option loc) :=
  gets (fun w => conversations w !! conversation_id).

Definition conversation_store_save (conversation_id : string) (state : loc)
  : M unit :=
  log (EvSave conversation_id);;
  modify (fun w =>
    set_conversations (<[conversation_id := state]> (conversations w)) w).

(** Allocation of a new dict object. *)
Definition new_dict (st : StateDict) : M loc :=
  fun w =>
    let l := fresh (dom (heap w)) in
    (l, set_heap (<[l := st]> (heap w)) w).

Definition empty_state : StateDict :=
  {| st_input_items := []; st_context := ∅; st_current_agent := EmptyString |}.

(** Reading and updating a state object. A location is dereferenced only
    after it was allocated or fetched from the store; [empty_state] makes
    the two operations total on a store that points outside the heap. *)
Definition deref (w : World) (state : loc) : StateDict :=
  default empty_state (heap w !! state).

Definition read (state : loc) : M StateDict :=
  gets (fun w => deref w state).

Definition update (state : loc) (f : StateDict -> StateDict) : M unit :=
  modify (fun w => set_heap (<[state := f (deref w state)]> (heap w)) w).

Definition set_input_items (items : list Entry) (st : StateDict) : StateDict :=
  {| st_input_items := items; st_context := st_context st;
     st_current_agent := st_current_agent st |}.

Definition set_context (c : AgentContext) (st : StateDict) : StateDict :=
  {| st_input_items := st_input_items st; st_context := c;
     st_current_agent := st_current_agent st |}.

Definition set_current_agent (a : string) (st : StateDict) : StateDict :=
  {| st_input_items := st_input_items st; st_context := st_context st;
     st_current_agent := a |}.

(** [state["input_items"].append(entry)] *)
Definition append_input_item (state : loc) (entry : Entry) : M unit :=
  update state (fun st => set_input_items (st_input_items st ++ [entry]) st).

(** [Runner.run(agent, input, context=state["context"])]: the runner works
    on the context object of the state dict itself. *)
Definition run_on_state (agent : Agent) (input : list Entry) (state : loc)
  : M RunOutcome :=
  st ← read state;
  o ← run agent (InList input) (Some (st_context st));
  update state (set_context (default (st_context st) (outcome_ctx o)));;
  mret o.

Definition agents_by_name : gmap string Agent :=
  <[name simple_trip_agent := simple_trip_agent]>
    (<[name simple_faq_agent := simple_faq_agent]>
       (<[name simple_triage_agent := simple_triage_agent]> ∅)).

Definition _get_agent_by_name (n : string) : Agent :=
  default simple_triage_agent (agents_by_name !! n).

Definition handoff_ref_name (h : HandoffRef) : string :=
  match h with
  | HAgent n => n
  | HTool n => n
  | HHandoff n _ => n
  end.

Definition make_agent_dict (agent : Agent) : AgentInfo :=
  {| info_name := name agent;
     info_description := handoff_description agent;
     info_handoffs := map handoff_ref_name (handoffs agent);
     info_tools := tools agent |}.

Definition _build_agents_list : list AgentInfo :=
  [make_agent_dict simple_triage_agent; make_agent_dict simple_faq_agent;
   make_agent_dict simple_trip_agent].

(** [uuid4().hex] *)
Definition uuid4 : M string :=
  n ← gets draws;
  modify (set_draws (S n));;
  mret (uuid4_hex ext n).

(** [AgentEvent(id=uuid4().hex, type=..., agent=..., content=...,
    metadata=...)], without a timestamp as in api.py. *)
Definition new_event (type agent content : string) (metadata : option Metadata)
  : M AgentEvent :=
  id ← uuid4;
  mret {| ev_id := id; ev_type := type; ev_agent := agent;
          ev_content := content; ev_metadata := metadata;
          ev_timestamp := None |}.

(** The local variables the item loops update. *)
Record Locals := {
  l_messages : list MessageResponse;
  l_events : list AgentEvent;
  l_current_agent : Agent;
  l_handed_off : bool;
}.

Definition add_message (m : MessageResponse) (v : Locals) : Locals :=
  {| l_messages := l_messages v ++ [m]; l_events := l_events v;
     l_current_agent := l_current_agent v; l_handed_off := l_handed_off v |}.

Definition add_event (e : AgentEvent) (v : Locals) : Locals :=
  {| l_messages := l_messages v; l_events := l_events v ++ [e];
     l_current_agent := l_current_agent v; l_handed_off := l_handed_off v |}.

Definition hand_off (target : Agent) (v : Locals) : Locals :=
  {| l_messages := l_messages v; l_events := l_events v;
     l_current_agent := target; l_handed_off := true |}.

Definition parse_tool_args (raw_args : option string) : ToolArgs :=
  match raw_args with
  | None => ArgsNone
  | Some s =>
      match json_loads ext s with
      | Some v => ArgsParsed v
      | None => ArgsRaw s
      end
  end.

Definition seat_map_message (tool_name : option string) (agent : Agent)
    (v : Locals) : Locals :=
  if decide (tool_name = Some "display_seat_map")
  then add_message {| msg_content := "DISPLAY_SEAT_MAP";
                      msg_agent := name agent |} v
  else v.

(** The [Handoff] object on the source agent that matches the target,
    if any: [next((h for h in handoffs if isinstance(h, Handoff) and
    h.agent_name == to_agent.name), None)]. *)
Definition find_handoff (from_agent to_agent : Agent) : option HandoffRef :=
  find (fun h => match h with
                 | HHandoff n _ => String.eqb n (name to_agent)
                 | _ => false
                 end) (handoffs from_agent).

Definition on_message (agent : Agent) (text : string) (v : Locals) : M Locals :=
  e ← new_event "message" (name agent) text None;
  mret (add_event e (add_message {| msg_content := text;
                                    msg_agent := name agent |} v)).

Definition on_tool_call (agent : Agent) (tool_name raw_args : option string)
    (v : Locals) : M Locals :=
  e ← new_event "tool_call" (name agent) (default EmptyString tool_name)
                (Some (MetaToolArgs (parse_tool_args raw_args)));
  mret (seat_map_message tool_name agent (add_event e v)).

Definition on_tool_output (agent : Agent) (output : string) (v : Locals)
  : M Locals :=
  e ← new_event "tool_output" (name agent) output
                (Some (MetaToolResult output));
  mret (add_event e v).

Definition on_handoff_item (source target : Agent) (v : Locals) : M Locals :=
  e ← new_event "handoff" (name source)
                (name source ++ " -> " ++ name target)%string
                (Some (MetaHandoff (name source) (name target)));
  let v := add_event e v in
  v ← match find_handoff source target with
      | Some (HHandoff _ (Some cb_name)) =>
          e' ← new_event "tool_call" (name target) cb_name None;
          mret (add_event e' v)
      | _ => mret v
      end;
  mret (hand_off target v).

(** The body of [for item in result.new_items]. *)
Definition process_item (v : Locals) (item : RunItem) : M Locals :=
  match item with
  | MessageOutputItem agent text => on_message agent text v
  | HandoffOutputItem source target => on_handoff_item source target v
  | ToolCallItem agent tool_name raw_args =>
      on_tool_call agent tool_name raw_args v
  | ToolCallOutputItem agent output => on_tool_output agent output v
  | OtherItem => mret v
  end.

(** The body of [for item in followup_result.new_items], which has no
    branch for handoff items. *)
Definition process_followup_item (v : Locals) (item : RunItem) : M Locals :=
  match item with
  | MessageOutputItem agent text => on_message agent text v
  | ToolCallItem agent tool_name raw_args =>
      on_tool_call agent tool_name raw_args v
  | ToolCallOutputItem agent output => on_tool_output agent output v
  | HandoffOutputItem _ _ | OtherItem => mret v
  end.

Fixpoint for_each {A B} (body : B -> A -> M B) (l : list A) (v : B) : M B :=
  match l with
  | [] => mret v
  | x :: l' => v' ← body v x; for_each body l' v'
  end.

Definition api_fallback_message : string :=
  "I apologize, but I'm experiencing technical difficulties. Please try again in a moment.".

Definition user_entry (message : string) : Entry :=
  <["content" := message]> (<["role" := "user"]> ∅).

Definition assistant_entry (message : string) : Entry :=
  <["role" := "assistant"]> (<["content" := message]> ∅).

(** [{k: new_context[k] for k in new_context
      if old_context.get(k) != new_context[k]}] *)
Definition changed (old_context : AgentContext) (kv : string * option string)
  : Prop :=
  default None (old_context !! kv.1) ≠ kv.2.

#[local] Instance changed_dec old kv : Decision (changed old kv).
Proof. unfold changed. apply _. Defined.

Definition context_changes (old_context new_context : AgentContext)
  : AgentContext :=
  filter (changed old_context) new_context.

(** [state["input_items"][-N:] if len(state["input_items"]) > N else
    state["input_items"]] with [N = MAX_CONVERSATION_HISTORY]. *)
Definition limit_history (items : list Entry) : list Entry :=
  if MAX_CONVERSATION_HISTORY <? length items
  then Py.last_slice MAX_CONVERSATION_HISTORY items
  else items.

(** The follow-up run after a handoff ([if handed_off: try: ... except
    Exception]). *)
Definition followup (state : loc) (v : Locals) : M Locals :=
  if l_handed_off v then
    rate_limiter_wait;;
    st ← read state;
    o ← run_on_state (l_current_agent v) (st_input_items st) state;
    match o with
    | Returns followup_result _ =>
        for_each process_followup_item (new_items followup_result) v
    | Raises _ _ => mret v
    end
  else mret v.

(** The context diff and the final persist, from [new_context = ...] to
    the last [return]. *)
Definition finish (conversation_id : string) (state : loc)
    (old_context : AgentContext) (result : RunResult) (v : Locals)
  : M ChatResponse :=
  st ← read state;
  let new_context := st_context st in
  let changes := context_changes old_context new_context in
  v ← (if decide (changes = ∅) then mret v
       else e ← new_event "context_update" (name (l_current_agent v))
                          EmptyString (Some (MetaChanges changes));
            mret (add_event e v));
  update state (set_input_items (to_input_list result));;
  update state (set_current_agent (name (l_current_agent v)));;
  conversation_store_save conversation_id state;;
  st ← read state;
  mret {| conversation_id := conversation_id;
          current_agent := name (l_current_agent v);
          messages := l_messages v;
          events := l_events v;
          context := st_context st;
          agents := _build_agents_list |}.

(** [chat_endpoint] from [current_agent = _get_agent_by_name(...)] on. *)
Definition turn (conversation_id : string) (state : loc) (message : string)
  : M ChatResponse :=
  st ← read state;
  let current_agent := _get_agent_by_name (st_current_agent st) in
  append_input_item state (user_entry message);;
  st ← read state;
  let old_context := st_context st in
  context_manager_add_message "user" message None;;
  let optimized_input := limit_history (st_input_items st) in
  rate_limiter_wait;;
  o ← run_on_state current_agent optimized_input state;
  match o with
  | Raises _ _ =>
      append_input_item state (assistant_entry api_fallback_message);;
      st ← read state;
      mret {| conversation_id := conversation_id;
              current_agent := name current_agent;
              messages := [{| msg_content := api_fallback_message;
                              msg_agent := name current_agent |}];
              events := [];
              context := st_context st;
              agents := _build_agents_list |}
  | Returns result _ =>
      context_manager_add_message "assistant" (final_output result)
                                  (Some (name current_agent));;
      v ← for_each process_item (new_items result)
            {| l_messages := []; l_events := [];
               l_current_agent := current_agent; l_handed_off := false |};
      v ← followup state v;
      finish conversation_id state old_context result v
  end.

(** [not req.conversation_id or
     conversation_store.get(req.conversation_id) is None], together with
    the stored state when the conversation exists. *)
Definition lookup_conversation (req : ChatRequest) : M (option (string * loc)) :=
  match req_conversation_id req with
  | None => mret None
  | Some cid =>
      if decide (cid = EmptyString) then mret None
      else state ← conversation_store_get cid;
           mret (pair cid <$> state)
  end.

Definition chat_endpoint (req : ChatRequest) : M ChatResponse :=
  existing ← lookup_conversation req;
  match existing with
  | None =>
      conversation_id ← uuid4;
      n ← gets draws;
      modify (set_draws (S n));;
      let ctx := create_initial_context ext n in
      let current_agent_name := name simple_triage_agent in
      state ← new_dict {| st_input_items := []; st_context := ctx;
                          st_current_agent := current_agent_name |};
      if decide (Py.strip (req_message req) = EmptyString) then
        conversation_store_save conversation_id state;;
        mret {| conversation_id := conversation_id;
                current_agent := current_agent_name;
                messages := [];
                events := [];
                context := ctx;
                agents := _build_agents_list |}
      else turn conversation_id state (req_message req)
  | Some (conversation_id, state) =>
      turn conversation_id state (req_message req)
  end.

End Backend.

#[global] Existing Instance changed_dec.

(** ** simple_api.py

    The endpoint of the simplified API shares its first half with api.py;
    its events carry timestamps, tool calls carry no metadata, and there is
    no follow-up run after a handoff. *)

Module SimpleApi.
Section Endpoint.
Variable ext : External.

(** [AgentEvent(id=uuid4().hex, ..., timestamp=time.time() * 1000)] *)
Definition new_event (type agent content : string) (metadata : option Metadata)
  : M AgentEvent :=
  id ← uuid4 ext;
  now ← gets wall_time;
  mret {| ev_id := id; ev_type := type; ev_agent := agent;
          ev_content := content; ev_metadata := metadata;
          ev_timestamp := Some (now * 1000)%Q |}.

Definition switch_agent (target : Agent) (v : Locals) : Locals :=
  {| l_messages := l_messages v; l_events := l_events v;
     l_current_agent := target; l_handed_off := l_handed_off v |}.

(** The body of [for item in result.new_items]. *)
Definition process_item (v : Locals) (item : RunItem) : M Locals :=
  match item with
  | MessageOutputItem agent text =>
      e ← new_event "message" (name agent) text None;
      mret (add_event e (add_message {| msg_content := text;
                                        msg_agent := name agent |} v))
  | HandoffOutputItem source target =>
      e ← new_event "handoff" (name source)
                    (name source ++ " -> " ++ name target)%string
                    (Some (MetaHandoff (name source) (name target)));
      mret (switch_agent target (add_event e v))
  | ToolCallItem agent tool_name _ =>
      e ← new_event "tool_call" (name agent) (default EmptyString tool_name)
                    None;
      mret (add_event e v)
  | ToolCallOutputItem agent output =>
      e ← new_event "tool_output" (name agent) output
                    (Some (MetaToolResult output));
      mret (add_event e v)
  | OtherItem => mret v
  end.

Definition finish (conversation_id : string) (state : loc)
    (old_context : AgentContext) (result : RunResult) (v : Locals)
  : M ChatResponse :=
  st ← read state;
  let new_context := st_context st in
  let changes := context_changes old_context new_context in
  v ← (if decide (changes = ∅) then mret v
       else e ← new_event "context_update" (name (l_current_agent v))
                          EmptyString (Some (MetaChanges changes));
            mret (add_event e v));
  update state (set_input_items (to_input_list result));;
  update state (set_current_agent (name (l_current_agent v)));;
  conversation_store_save conversation_id state;;
  st ← read state;
  mret {| conversation_id := conversation_id;
          current_agent := name (l_current_agent v);
          messages := l_messages v;
          events := l_events v;
          context := st_context st;
          agents := _build_agents_list |}.

Definition turn (conversation_id : string) (state : loc) (message : string)
  : M ChatResponse :=
  st ← read state;
  let current_agent := _get_agent_by_name (st_current_agent st) in
  append_input_item state (user_entry message);;
  st ← read state;
  let old_context := st_context st in
  context_manager_add_message "user" message None;;
  let optimized_input := limit_history (st_input_items st) in
  rate_limiter_wait;;
  o ← run_on_state ext current_agent optimized_input state;
  match o with
  | Raises _ _ =>
      append_input_item state (assistant_entry api_fallback_message);;
      st ← read state;
      mret {| conversation_id := conversation_id;
              current_agent := name current_agent;
              messages := [{| msg_content := api_fallback_message;
                              msg_agent := name current_agent |}];
              events := [];
              context := st_context st;
              agents := _build_agents_list |}
  | Returns result _ =>
      context_manager_add_message "assistant" (final_output result)
                                  (Some (name current_agent));;
      v ← for_each process_item (new_items result)
            {| l_messages := []; l_events := [];
               l_current_agent := current_agent; l_handed_off := false |};
      finish conversation_id state old_context result v
  end.

Definition chat_endpoint (req : ChatRequest) : M ChatResponse :=
  existing ← lookup_conversation req;
  match existing with
  | None =>
      conversation_id ← uuid4 ext;
      n ← gets draws;
      modify (set_draws (S n));;
      let ctx := create_initial_context ext n in
      let current_agent_name := name simple_triage_agent in
      state ← new_dict {| st_input_items := []; st_context := ctx;
                          st_current_agent := current_agent_name |};
      if decide (Py.strip (req_message req) = EmptyString) then
        conversation_store_save conversation_id state;;
        mret {| conversation_id := conversation_id;
                current_agent := current_agent_name;
                messages := [];
                events := [];
                context := ctx;
                agents := _build_agents_list |}
      else turn conversation_id state (req_message req)
  | Some (conversation_id, state) =>
      turn conversation_id state (req_message req)
  end.

End Endpoint.
End SimpleApi.

(** ** Notions used to state the results *)

Definition is_run (e : Effect) : bool :=
  match e with EvRun _ _ _ => true | _ => false end.

Definition is_wait (e : Effect) : bool :=
  match e with EvRateWait => true | _ => false end.

Definition is_save (e : Effect) : bool :=
  match e with EvSave _ => true | _ => false end.

(** The [asyncio.sleep] a call of [RateLimiter.wait] performs in world [w]. *)
Definition rate_sleep (w : World) : list Effect :=
  let time_since_last := (loop_time w - last_request w)%Q in
  if Qlt_bool time_since_last RATE_LIMIT_DELAY
  then [EvSleep (RATE_LIMIT_DELAY - time_since_last)%Q]
  else [].

(** [is_new] as [chat_endpoint] computes it. *)
Definition is_new (req : ChatRequest) (w : World) : bool :=
  match req_conversation_id req with
  | None => true
  | Some cid =>
      bool_decide (cid = EmptyString)
      || bool_decide (conversations w !! cid = None)
  end.

(** The target of the last handoff item of a list of produced items. *)
Fixpoint last_handoff_target (items : list RunItem) : option Agent :=
  match items with
  | [] => None
  | item :: rest =>
      match last_handoff_target rest, item with
      | Some t, _ => Some t
      | None, HandoffOutputItem _ t => Some t
      | None, _ => None
      end
  end.

Definition is_context_update (e : AgentEvent) : bool :=
  String.eqb (ev_type e) "context_update".

(** The message is empty or consists of whitespace only. *)
Definition is_blank (s : string) : bool :=
  forallb Py.is_space (list_ascii_of_string s).

(** [w'] is [w] up to the number of draws. *)
Definition draws_only (w w' : World) : Prop := w' = set_draws (draws w') w.

(** What an item loop does to the list of events: events are appended,
    and none of them is a context update. *)
Definition appends_events (v v' : Locals) : Prop :=
  exists es, l_events v' = l_events v ++ es /\
             existsb is_context_update es = false.

(** The event of the context diff, if there is a change. *)
Definition context_update_events (old new : AgentContext) (agent : string)
    (id : string) : list AgentEvent :=
  if decide (context_changes old new = ∅) then []
  else [{| ev_id := id; ev_type := "context_update"; ev_agent := agent;
           ev_content := EmptyString;
           ev_metadata := Some (MetaChanges (context_changes old new));
           ev_timestamp := None |}].

(** The response of the exception handler. *)
Definition fallback_response (cid : string) (agent : Agent)
    (ctx : AgentContext) : ChatResponse :=
  {| conversation_id := cid;
     current_agent := name agent;
     messages := [{| msg_content := api_fallback_message;
                     msg_agent := name agent |}];
     events := [];
     context := ctx;
     agents := _build_agents_list |}.

(** The world in which the primary invocation is made. *)
Definition before_run (l : loc) (message : string) (w : World) : World :=
  (rate_limiter_wait
     (context_manager_add_message "user" message None
        (append_input_item l (user_entry message) w).2).2).2.

(** Effects up to their arguments. *)
Inductive Step :=
| StepWait
| StepSleep (delay : Q)
| StepAttempt
| StepSave.

Definition step_of (e : Effect) : Step :=
  match e with
  | EvRateWait => StepWait
  | EvSleep d => StepSleep d
  | EvRun _ _ _ => StepAttempt
  | EvSave _ => StepSave
  end.

(** [base * 2 ** attempt] *)
Definition backoff (attempt : nat) : Q :=
  (RETRY_DELAY * inject_Z (2 ^ Z.of_nat attempt))%Q.

(** Attempts [k, k + len) of a caller that fails every time: each attempt
    but the last of [max_retries] is followed by a backoff sleep. *)
Definition failing_schedule (max_retries : nat) (range : list nat) : list Step :=
  flat_map (fun attempt =>
              StepAttempt :: if attempt <? max_retries - 1
                             then [StepSleep (backoff attempt)] else [])
           range.

Section Notions.
Variable ext : External.

(** The conversation id, the state object and the world with which
    [chat_endpoint] reaches [current_agent = _get_agent_by_name(...)]
    when it does not return early. *)
Definition turn_start (req : ChatRequest) (w : World) : string * loc * World :=
  match (lookup_conversation req w).1 with
  | Some (cid, l) => (cid, l, w)
  | None =>
      let l := fresh (dom (heap w)) in
      (uuid4_hex ext (draws w), l,
       set_heap (<[l := {| st_input_items := [];
                           st_context := create_initial_context ext (S (draws w));
                           st_current_agent := name simple_triage_agent |}]>
                   (heap w))
                (set_draws (S (S (draws w))) w))
  end.

(** The primary invocation of a turn that starts in world [w] on state
    object [l]: the agent, the input and the outcome of [Runner.run]. *)
Definition primary_agent (w : World) (l : loc) : Agent :=
  _get_agent_by_name (st_current_agent (deref w l)).

Definition primary_input (w : World) (l : loc) (message : string) : list Entry :=
  limit_history (st_input_items (deref w l) ++ [user_entry message]).

Definition primary_outcome (w : World) (l : loc) (message : string) : RunOutcome :=
  Runner_run ext (runs w) (primary_agent w l)
             (InList (primary_input w l message))
             (Some (st_context (deref w l))).

(** The context object after the primary invocation. *)
Definition primary_context (w : World) (l : loc) (message : string) : AgentContext :=
  default (st_context (deref w l)) (outcome_ctx (primary_outcome w l message)).

(** The follow-up invocation against [target]: it is the next call of the
    runner, on the transcript with the user message appended. *)
Definition followup_input (w : World) (l : loc) (message : string) : list Entry :=
  st_input_items (deref w l) ++ [user_entry message].

Definition followup_outcome (w : World) (l : loc) (message : string)
    (target : Agent) : RunOutcome :=
  Runner_run ext (S (runs w)) target
             (InList (followup_input w l message))
             (Some (primary_context w l message)).

(** The world right after the primary invocation. *)
Definition after_primary (l : loc) (message : string) (w : World) : World :=
  (run_on_state ext (primary_agent w l) (primary_input w l message) l
                (before_run l message w)).2.

(** The world in which the items of the primary result are processed. *)
Definition after_bookkeeping (l : loc) (message : string) (result : RunResult)
    (w : World) : World :=
  (context_manager_add_message "assistant" (final_output result)
     (Some (name (primary_agent w l))) (after_primary l message w)).2.

Definition initial_locals (w : World) (l : loc) : Locals :=
  {| l_messages := []; l_events := [];
     l_current_agent := primary_agent w l; l_handed_off := false |}.

(** The agent that is current when a successful turn ends. *)
Definition final_agent (w : World) (l : loc) (result : RunResult) : Agent :=
  default (primary_agent w l) (last_handoff_target (new_items result)).

(** The context object when a successful turn ends. *)
Definition final_context (w : World) (l : loc) (m : string)
    (result : RunResult) : AgentContext :=
  match last_handoff_target (new_items result) with
  | None => primary_context w l m
  | Some t => default (primary_context w l m)
                      (outcome_ctx (followup_outcome w l m t))
  end.

(** The calls of the runner a successful turn makes. *)
Definition turn_runs (w : World) (l : loc) (m : string) (result : RunResult)
  : list Effect :=
  EvRun (primary_agent w l) (InList (primary_input w l m))
        (Some (st_context (deref w l)))
  :: match last_handoff_target (new_items result) with
     | None => []
     | Some t => [EvRun t (InList (followup_input w l m))
                        (Some (primary_context w l m))]
     end.

(** The state object of a conversation that has just been created. *)
Definition fresh_state (w : World) : StateDict :=
  {| st_input_items := [];
     st_context := create_initial_context ext (S (draws w));
     st_current_agent := name simple_triage_agent |}.

(** The runner raises whatever it is called with. *)
Definition always_fails : Prop :=
  forall n agent input ctx,
    exists e c, Runner_run ext n agent input ctx = Raises e c.

End Notions.

(** The transcript the store holds for a conversation. *)
Definition stored_transcript (w : World) (cid : string) : option (list Entry) :=
  (fun l => st_input_items (deref w l)) <$> conversations w !! cid.


(** The conversation id, the state object and the world with which the
    turn of a request starts. *)
Definition start_id (ext : External) (req : ChatRequest) (w : World) : string :=
  (turn_start ext req w).1.1.

Definition start_state (ext : External) (req : ChatRequest) (w : World) : loc :=
  (turn_start ext req w).1.2.

Definition start_world (ext : External) (req : ChatRequest) (w : World) : World :=
  (turn_start ext req w).2.

(** The outcome of the primary invocation of the turn of a request. *)
Definition request_outcome (ext : External) (req : ChatRequest) (w : World)
  : RunOutcome :=
  primary_outcome ext (start_world ext req w) (start_state ext req w)
                  (req_message req).

(** The request is not answered by the short-circuit for blank messages on
    new conversations. *)
Definition runs_turn (req : ChatRequest) (w : World) : Prop :=
  is_new req w = false \/ is_blank (req_message req) = false.

(** Every state object the store refers to exists. *)
Definition store_wf (w : World) : Prop :=
  forall cid l, conversations w !! cid = Some l -> is_Some (heap w !! l).

(** ** Sample data *)

Definition sample_context (account : option string) : AgentContext :=
  <["passenger_name" := None]>
    (<["confirmation_number" := None]>
       (<["flight_number" := None]>
          (<["account_number" := account]> ∅))).

(** External collaborators whose runner answers its [n]-th call with the
    [n]-th outcome of a script and raises once the script is exhausted. The
    two [str] functions are stand-ins. *)
Definition scripted (script : list RunOutcome) : External :=
  {| Runner_run := fun n _ _ _ => nth n script (Raises "connection error" None);
     uuid4_hex := fun n => ("uuid-" ++ Py.hex_byte n)%string;
     create_initial_context := fun _ => sample_context (Some "12345678");
     json_loads := fun _ => None;
     str_items := fun l => Py.repeat_string "{...}" (length l);
     str_context := fun c =>
       fold_right (fun kv acc => (kv.1 ++ "=" ++ default "None" kv.2 ++ " " ++ acc)%string)
                  EmptyString (map_to_list c);
     context_defaults := sample_context None |}.

Definition world0 : World :=
  {| loop_time := 5; wall_time := 1700000000; last_request := 0;
     response_cache := ∅; conversations := ∅; heap := ∅;
     conversation_history := []; draws := 0; runs := 0; trace := [] |}.

(** A world with one stored conversation, ["c1"]. *)
Definition world1 : World :=
  {| loop_time := 5; wall_time := 1700000000; last_request := 0;
     response_cache := ∅;
     conversations := <["c1" := 0]> ∅;
     heap := <[0 := {| st_input_items :=
                         [user_entry "hi"; assistant_entry "Hello, how can I help?"];
                       st_context := sample_context (Some "12345678");
                       st_current_agent := "Triage Agent" |}]> ∅;
     conversation_history := []; draws := 0; runs := 0; trace := [] |}.

Definition req_hello : ChatRequest :=
  {| req_conversation_id := None; req_message := "hello" |}.

Definition req_blank : ChatRequest :=
  {| req_conversation_id := None; req_message := "   " |}.

Definition req_c1 : ChatRequest :=
  {| req_conversation_id := Some "c1";
     req_message := "What is the baggage policy?" |}.

Definition req_c1_blank : ChatRequest :=
  {| req_conversation_id := Some "c1"; req_message := EmptyString |}.

(** A primary result that hands off from triage to the FAQ agent. *)
Definition res_handoff : RunResult :=
  {| final_output := EmptyString;
     new_items := [HandoffOutputItem simple_triage_agent simple_faq_agent];
     to_input_list :=
       [user_entry "hello";
        <["type" := "function_call"]> (<["name" := "transfer_to_faq_agent"]> ∅)] |}.

(** The result of the follow-up run of the FAQ agent. *)
Definition res_followup : RunResult :=
  {| final_output := "You may bring one bag.";
     new_items := [MessageOutputItem simple_faq_agent "You may bring one bag."];
     to_input_list :=
       [user_entry "hello"; assistant_entry "You may bring one bag."] |}.

(** A primary result in which the FAQ agent hands back to triage. *)
Definition res_bounce : RunResult :=
  {| final_output := "How else can I help?";
     new_items := [HandoffOutputItem simple_triage_agent simple_faq_agent;
                   HandoffOutputItem simple_faq_agent simple_triage_agent;
                   MessageOutputItem simple_triage_agent "How else can I help?"];
     to_input_list :=
       [user_entry "hello"; assistant_entry "How else can I help?"] |}.

(** A plain answer. *)
Definition res_answer : RunResult :=
  {| final_output := "You may bring one bag.";
     new_items := [ToolCallItem simple_triage_agent (Some "faq_lookup_tool")
                                (Some "{}");
                   ToolCallOutputItem simple_triage_agent "one bag";
                   MessageOutputItem simple_triage_agent "You may bring one bag."];
     to_input_list :=
       [user_entry "What is the baggage policy?";
        assistant_entry "You may bring one bag."] |}.

Definition handoff_ext : External :=
  scripted [Returns res_handoff None; Returns res_followup None].

Definition bounce_ext : External :=
  scripted [Returns res_bounce None; Returns res_followup None].

Definition failing_ext : External := scripted [].

(** The runner answers and a tool records a confirmation number. *)
Definition answering_ext : External :=
  scripted [Returns res_answer
              (Some (<["confirmation_number" := Some "ABC123"]>
                       (sample_context (Some "12345678"))))].

(** ** Statements shared by the two endpoints *)

(** A blank first message is answered without a turn: the response is
    empty, a new state object is saved under the new id, and neither the
    rate limiter, the runner nor the cache is touched. *)
Definition short_circuited (ext : External) (w : World)
    (out : ChatResponse * World) : Prop :=
  let l := fresh (dom (heap w)) in
  conversation_id out.1 = uuid4_hex ext (draws w) /\
  current_agent out.1 = "Triage Agent" /\
  messages out.1 = [] /\ events out.1 = [] /\
  context out.1 = create_initial_context ext (S (draws w)) /\
  heap w !! l = None /\
  conversations out.2 !! conversation_id out.1 = Some l /\
  heap out.2 !! l
    = Some {| st_input_items := [];
              st_context := create_initial_context ext (S (draws w));
              st_current_agent := "Triage Agent" |} /\
  trace out.2 = trace w ++ [EvSave (conversation_id out.1)] /\
  runs out.2 = runs w /\
  last_request out.2 = last_request w /\
  response_cache out.2 = response_cache w.

(** The turn on state object [l] goes through the rate limiter and calls
    the runner on the transcript with the user message appended. *)
Definition normal_path (l : loc) (message : string) (w : World)
    (out : ChatResponse * World) : Prop :=
  runs w < runs out.2 /\
  exists tr, trace out.2 = trace w ++ tr /\
             hd_error (List.filter is_wait tr) = Some EvRateWait /\
             hd_error (List.filter is_run tr)
               = Some (EvRun (primary_agent w l)
                             (InList (primary_input w l message))
                             (Some (st_context (deref w l)))).

(** What the exception handler of an endpoint leaves behind: one apology
    message from the agent of the turn and no event; the apology appended,
    after the user message, to the transcript of the state object of the
    turn, whose current agent is untouched and whose context is as the
    runner left it; one rate-limiter wait, one call of the runner, and
    nothing after it. *)
Definition fallback_turn (ext : External) (req : ChatRequest) (w : World)
    (out : ChatResponse * World) : Prop :=
  let ws := start_world ext req w in
  let l := start_state ext req w in
  let m := req_message req in
  messages out.1 = [{| msg_content := api_fallback_message;
                       msg_agent := name (primary_agent ws l) |}] /\
  events out.1 = [] /\
  conversation_id out.1 = start_id ext req w /\
  current_agent out.1 = name (primary_agent ws l) /\
  context out.1 = primary_context ext ws l m /\
  (outcome_ctx (request_outcome ext req w) = None ->
   context out.1 = st_context (deref ws l)) /\
  deref out.2 l
    = {| st_input_items := st_input_items (deref ws l)
           ++ [user_entry m; assistant_entry api_fallback_message];
         st_context := primary_context ext ws l m;
         st_current_agent := st_current_agent (deref ws l) |} /\
  exists tr, trace out.2 = trace w ++ tr /\
             map step_of tr
               = StepWait :: map step_of (rate_sleep w) ++ [StepAttempt].

Definition is_handoff (item : RunItem) : bool :=
  match item with HandoffOutputItem _ _ => true | _ => false end.

Definition is_attempt (s : Step) : bool :=
  match s with StepAttempt => true | _ => false end.

(** The cache key as the code computes it: the digest of the JSON object
    that holds [str] of the input as given, [str] of the context as given
    (or null), the agent name and the model of the wrapper. *)
Definition raw_fingerprint (ext : External) (self : OptimizedAgent)
    (input_data : InputData) (context : option AgentContext) : string :=
  MD5.hexdigest
    (key_string (Some (str_input ext input_data)) (str_context ext <$> context)
                (name (oa_agent self)) (oa_model self)).

(** The cache key the specification describes: the same digest over the
    trimmed input and the allow-listed context. *)
Definition trimmed_fingerprint (ext : External) (self : OptimizedAgent)
    (input_data : InputData) (context : option AgentContext) : string :=
  MD5.hexdigest
    (key_string (Some (str_input ext (_optimize_input input_data)))
                (str_context ext <$> _optimize_context ext context)
                (name (oa_agent self)) (oa_model self)).

(** Two inputs of 4001 characters that differ in the last one. *)
Definition long_input (last : string) : InputData :=
  InStr (Py.repeat_string "a" 4000 ++ last).

(** A transcript of eleven entries whose last entry is 4001 characters
    long. *)
Definition long_transcript : list Entry :=
  repeat (user_entry "hi") 10 ++ [user_entry (Py.repeat_string "a" 4001)].

Definition triage_caller : OptimizedAgent :=
  create_optimized_agent simple_triage_agent true.

Definition answer_once : External := scripted [Returns res_answer None].

Definition baggage_question : InputData := InStr "What is the baggage policy?".

(** The world after a first, successful call of the caller. *)
Definition world_after_call : World :=
  (run_with_optimization answer_once triage_caller baggage_question None
                         MAX_RETRIES world0).2.

(** ** Notions for further properties of the code *)

(** The names under which [_get_agent_by_name] knows an agent. *)
Definition registered_names : list string :=
  ["Triage Agent"; "FAQ Agent"; "Trip Management Agent"].

(** The messages one produced item adds to the response in api.py. *)
Definition item_messages (item : RunItem) : list MessageResponse :=
  match item with
  | MessageOutputItem a t => [{| msg_content := t; msg_agent := name a |}]
  | ToolCallItem a (Some tool) _ =>
      if String.eqb tool "display_seat_map"
      then [{| msg_content := "DISPLAY_SEAT_MAP"; msg_agent := name a |}]
      else []
  | _ => []
  end.

(** The types of the events one produced item adds in the primary loop of
    api.py. *)
Definition item_event_types (item : RunItem) : list string :=
  match item with
  | MessageOutputItem _ _ => ["message"]
  | HandoffOutputItem s t =>
      "handoff" :: match find_handoff s t with
                   | Some (HHandoff _ (Some _)) => ["tool_call"]
                   | _ => []
                   end
  | ToolCallItem _ _ _ => ["tool_call"]
  | ToolCallOutputItem _ _ => ["tool_output"]
  | OtherItem => []
  end.

(** The steps of a caller whose first [failures] attempts fail and whose
    next attempt succeeds. *)
Definition retry_schedule (failures : nat) : list Step :=
  flat_map (fun attempt => [StepAttempt; StepSleep (backoff attempt)])
           (seq 0 failures)
  ++ [StepAttempt].

Definition is_hex (c : ascii) : bool :=
  existsb (Ascii.eqb c) (list_ascii_of_string "0123456789abcdef").

(** The runner fails twice and then answers. *)
Definition flaky_ext : External :=
  scripted [Raises "rate limit" None; Raises "rate limit" None;
            Returns res_answer None].

(** A world whose cache holds an entry that is 301 seconds old. *)
Definition world_stale : World :=
  set_response_cache
    (<["other" := {| ce_response := res_followup; ce_timestamp := 1699999990 |}]>
       (<["key" := {| ce_response := res_answer; ce_timestamp := 1699999699 |}]> ∅))
    world0.

Definition sample_history : list HistoryMessage :=
  [{| hm_role := "user"; hm_content := "hi"; hm_agent := None;
      hm_timestamp := 1 |};
   {| hm_role := "assistant"; hm_content := "Hello, how can I help?";
      hm_agent := Some "Triage Agent"; hm_timestamp := 2 |}].

Definition recent_history : list HistoryMessage :=
  [{| hm_role := "user"; hm_content := "What is the baggage policy?";
      hm_agent := None; hm_timestamp := 3 |};
   {| hm_role := "tool"; hm_content := "one bag"; hm_agent := None;
      hm_timestamp := 4 |};
   {| hm_role := "assistant"; hm_content := "You may bring one bag.";
      hm_agent := Some "FAQ Agent"; hm_timestamp := 5 |}].

(** The messages the follow-up run of a turn adds to the response: those of
    the items of its result, none when there is no handoff or when the
    follow-up run raises. *)
Definition followup_messages (ext : External) (w : World) (l : loc)
    (m : string) (result : RunResult) : list MessageResponse :=
  match last_handoff_target (new_items result) with
  | None => []
  | Some t =>
      match followup_outcome ext w l m t with
      | Returns followup_result _ =>
          flat_map item_messages (new_items followup_result)
      | Raises _ _ => []
      end
  end.
(** ** Basic facts about the monad and the primitives *)

Lemma bind_run {A B} (m : M A) (f : A -> M B) (w : World) :
  (m ≫= f) w = f (m w).1 (m w).2.
Proof. unfold mbind, M_bind. destruct (m w); reflexivity. Qed.

Ltac mrun :=
  repeat (rewrite bind_run; cbn [fst snd]);
  unfold gets, modify, log, mret, M_ret; cbn [fst snd].

Lemma rate_limiter_wait_trace w :
  trace (rate_limiter_wait w).2 = trace w ++ EvRateWait :: rate_sleep w.
Proof.
  unfold rate_limiter_wait, rate_sleep. mrun. cbn.
  destruct (Qlt_bool _ _); unfold asyncio_sleep; mrun; cbn.
  - rewrite <- app_assoc. reflexivity.
  - reflexivity.
Qed.

Lemma rate_limiter_wait_frame w :
  let w' := (rate_limiter_wait w).2 in
  heap w' = heap w /\ conversations w' = conversations w /\
  runs w' = runs w /\ draws w' = draws w /\
  response_cache w' = response_cache w /\
  conversation_history w' = conversation_history w.
Proof.
  unfold rate_limiter_wait. mrun. cbn.
  destruct (Qlt_bool _ _); unfold asyncio_sleep; mrun; cbn; auto 10.
Qed.

Lemma deref_heap w w' l : heap w' = heap w -> deref w' l = deref w l.
Proof. unfold deref. intros ->. reflexivity. Qed.

Lemma deref_insert w h l st :
  heap w = <[l := st]> h -> deref w l = st.
Proof. unfold deref. intros ->. rewrite lookup_insert_eq. reflexivity. Qed.

Lemma deref_set_trace t w l : deref (set_trace t w) l = deref w l.
Proof. reflexivity. Qed.
Lemma deref_set_runs n w l : deref (set_runs n w) l = deref w l.
Proof. reflexivity. Qed.
Lemma deref_set_draws n w l : deref (set_draws n w) l = deref w l.
Proof. reflexivity. Qed.
Lemma deref_set_conversations c w l : deref (set_conversations c w) l = deref w l.
Proof. reflexivity. Qed.
Lemma deref_set_conversation_history h w l :
  deref (set_conversation_history h w) l = deref w l.
Proof. reflexivity. Qed.
Lemma deref_set_heap_insert h st w l : deref (set_heap (<[l := st]> h) w) l = st.
Proof. unfold deref. cbn. rewrite lookup_insert_eq. reflexivity. Qed.

Create Rewrite HintDb world.
#[local] Hint Rewrite deref_set_trace deref_set_runs deref_set_draws
  deref_set_conversations deref_set_conversation_history
  deref_set_heap_insert : world.

Lemma rate_sleep_clocks w w' :
  loop_time w' = loop_time w -> last_request w' = last_request w ->
  rate_sleep w' = rate_sleep w.
Proof. unfold rate_sleep. intros -> ->. reflexivity. Qed.

Section TurnFacts.
Variable ext : External.

Lemma before_run_facts l m w :
  let w' := before_run l m w in
  heap w' = <[l := set_input_items (st_input_items (deref w l) ++ [user_entry m])
                                    (deref w l)]> (heap w) /\
  conversations w' = conversations w /\
  runs w' = runs w /\ draws w' = draws w /\
  response_cache w' = response_cache w /\
  trace w' = trace w ++ EvRateWait :: rate_sleep w.
Proof.
  unfold before_run.
  set (w1 := (context_manager_add_message _ _ _ _).2).
  destruct (rate_limiter_wait_frame w1) as (Hh & Hc & Hr & Hd & Hrc & _).
  cbn zeta. rewrite Hh, Hc, Hr, Hd, Hrc, rate_limiter_wait_trace.
  rewrite (rate_sleep_clocks w1 w) by reflexivity.
  repeat split; reflexivity.
Qed.

Lemma primary_run l m w :
  (run_on_state ext (primary_agent w l) (primary_input w l m) l
                (before_run l m w)).1 = primary_outcome ext w l m.
Proof.
  destruct (before_run_facts l m w) as (Hh & _ & Hr & _).
  unfold run_on_state, run, read. mrun. cbn.
  unfold primary_outcome. rewrite Hr, (deref_insert _ _ _ _ Hh). reflexivity.
Qed.

Lemma after_primary_facts l m w :
  let w' := after_primary ext l m w in
  heap w' = <[l := {| st_input_items := st_input_items (deref w l) ++ [user_entry m];
                      st_context := primary_context ext w l m;
                      st_current_agent := st_current_agent (deref w l) |}]>
              (heap w) /\
  conversations w' = conversations w /\
  runs w' = S (runs w) /\ draws w' = draws w /\
  response_cache w' = response_cache w /\
  trace w' = trace w ++ EvRateWait :: rate_sleep w
               ++ [EvRun (primary_agent w l) (InList (primary_input w l m))
                         (Some (st_context (deref w l)))].
Proof.
  destruct (before_run_facts l m w) as (Hh & Hc & Hr & Hd & Hrc & Ht).
  pose proof (deref_insert _ _ _ _ Hh) as Hs.
  unfold after_primary, run_on_state, run, read, update. mrun. cbn.
  autorewrite with world.
  rewrite Hc, Hr, Hd, Hrc, Ht, Hh, !Hs, insert_insert_eq.
  repeat split; try reflexivity.
  rewrite <- app_assoc. reflexivity.
Qed.

Lemma append_deref l e w :
  deref (append_input_item l e w).2 l
  = set_input_items (st_input_items (deref w l) ++ [e]) (deref w l).
Proof.
  unfold append_input_item, update, modify. cbn [snd].
  apply deref_set_heap_insert.
Qed.

(** [turn] from the primary invocation on. *)
Lemma turn_unfold cid l m w :
  turn ext cid l m w =
  let r := run_on_state ext (primary_agent w l) (primary_input w l m) l
                        (before_run l m w) in
  (match r.1 with
   | Raises _ _ =>
       append_input_item l (assistant_entry api_fallback_message);;
       st ← read l;
       mret (fallback_response cid (primary_agent w l) (st_context st))
   | Returns result _ =>
       context_manager_add_message "assistant" (final_output result)
                                   (Some (name (primary_agent w l)));;
       v ← for_each (process_item ext) (new_items result) (initial_locals w l);
       v ← followup ext l v;
       finish ext cid l (st_context (deref w l)) result v
   end) r.2.
Proof.
  unfold turn.
  rewrite bind_run. cbn [fst snd read gets].
  rewrite bind_run. rewrite bind_run. cbn [fst snd read gets].
  rewrite bind_run. rewrite bind_run. rewrite bind_run.
  rewrite append_deref. cbn [st_input_items st_context set_input_items].
  reflexivity.
Qed.

Lemma turn_raises cid l m w e c :
  primary_outcome ext w l m = Raises e c ->
  let out := turn ext cid l m w in
  out.1 = fallback_response cid (primary_agent w l) (primary_context ext w l m) /\
  heap out.2 =
    <[l := {| st_input_items := st_input_items (deref w l)
                ++ [user_entry m; assistant_entry api_fallback_message];
              st_context := primary_context ext w l m;
              st_current_agent := st_current_agent (deref w l) |}]> (heap w) /\
  conversations out.2 = conversations w /\
  runs out.2 = S (runs w) /\ draws out.2 = draws w /\
  response_cache out.2 = response_cache w /\
  trace out.2 = trace w ++ EvRateWait :: rate_sleep w
                  ++ [EvRun (primary_agent w l) (InList (primary_input w l m))
                            (Some (st_context (deref w l)))].
Proof.
  intros Ho.
  destruct (after_primary_facts l m w) as (Hh & Hc & Hr & Hd & Hrc & Ht).
  pose proof (deref_insert _ _ _ _ Hh) as Hs.
  rewrite turn_unfold. cbn zeta. rewrite primary_run, Ho.
  change (run_on_state ext (primary_agent w l) (primary_input w l m) l
                       (before_run l m w)).2
    with (after_primary ext l m w).
  set (w1 := after_primary ext l m w) in *. clearbody w1.
  unfold append_input_item, update, read. mrun. cbn.
  autorewrite with world. rewrite Hc, Hr, Hd, Hrc, Ht, Hh, Hs.
  rewrite insert_insert_eq. cbn. rewrite <- app_assoc.
  repeat split; reflexivity.
Qed.

(** *** The item loops: only identifiers are drawn *)

Lemma draws_only_refl w : draws_only w w.
Proof. destruct w; reflexivity. Qed.

Lemma draws_only_trans w1 w2 w3 :
  draws_only w1 w2 -> draws_only w2 w3 -> draws_only w1 w3.
Proof. unfold draws_only. intros H12 H23. rewrite H23, H12. reflexivity. Qed.

Lemma draws_only_set n w : draws_only w (set_draws n w).
Proof. reflexivity. Qed.

Lemma new_event_run type agent content metadata w :
  new_event ext type agent content metadata w =
  ({| ev_id := uuid4_hex ext (draws w); ev_type := type; ev_agent := agent;
      ev_content := content; ev_metadata := metadata; ev_timestamp := None |},
   set_draws (S (draws w)) w).
Proof. reflexivity. Qed.

Lemma appends_events_refl v : appends_events v v.
Proof. exists []. rewrite app_nil_r. split; reflexivity. Qed.

Lemma appends_events_trans v1 v2 v3 :
  appends_events v1 v2 -> appends_events v2 v3 -> appends_events v1 v3.
Proof.
  intros (es1 & H1 & N1) (es2 & H2 & N2). exists (es1 ++ es2).
  rewrite H2, H1, <- app_assoc, existsb_app, N1, N2. split; reflexivity.
Qed.

Ltac appended :=
  first [ apply appends_events_refl
        | eexists; split;
          [cbn; rewrite <- ?app_assoc; reflexivity | reflexivity] ].

Lemma process_item_spec v item w :
  let out := process_item ext v item w in
  draws_only w out.2 /\ appends_events v out.1 /\
  l_current_agent out.1 =
    match item with HandoffOutputItem _ t => t | _ => l_current_agent v end /\
  l_handed_off out.1 =
    match item with HandoffOutputItem _ _ => true | _ => l_handed_off v end.
Proof.
  destruct item as [a t|src tgt|a tn ra|a o|]; cbn zeta.
  - unfold process_item, on_message. rewrite bind_run, new_event_run.
    repeat split. appended.
  - unfold process_item, on_handoff_item. rewrite bind_run, new_event_run.
    cbn [fst snd]. rewrite bind_run.
    destruct (find_handoff src tgt) as [[?|?|? [cb|]]|];
      rewrite ?bind_run, ?new_event_run; repeat split; appended.
  - unfold process_item, on_tool_call. rewrite bind_run, new_event_run.
    cbn [fst snd mret M_ret]. unfold seat_map_message.
    destruct (decide (tn = Some "display_seat_map")); repeat split; appended.
  - unfold process_item, on_tool_output. rewrite bind_run, new_event_run.
    repeat split. appended.
  - repeat split; [apply draws_only_refl | appended].
Qed.

Lemma process_items_spec items : forall v w,
  let out := for_each (process_item ext) items v w in
  draws_only w out.2 /\ appends_events v out.1 /\
  l_current_agent out.1 =
    default (l_current_agent v) (last_handoff_target items) /\
  l_handed_off out.1 =
    match last_handoff_target items with
    | Some _ => true
    | None => l_handed_off v
    end.
Proof.
  induction items as [|item items IH]; intros v w; cbn zeta.
  - repeat split; [apply draws_only_refl | apply appends_events_refl].
  - cbn [for_each]. rewrite bind_run.
    destruct (process_item_spec v item w) as (Hd & He & Ha & Hh).
    destruct (IH (process_item ext v item w).1 (process_item ext v item w).2)
      as (Hd' & He' & Ha' & Hh').
    split; [eapply draws_only_trans; eassumption|].
    split; [eapply appends_events_trans; eassumption|].
    rewrite Ha', Hh', Ha, Hh. cbn [last_handoff_target].
    destruct (last_handoff_target items); [split; reflexivity|].
    destruct item; split; reflexivity.
Qed.

Lemma process_followup_item_spec v item w :
  let out := process_followup_item ext v item w in
  draws_only w out.2 /\ appends_events v out.1 /\
  l_current_agent out.1 = l_current_agent v /\
  l_handed_off out.1 = l_handed_off v.
Proof.
  destruct item as [a t|src tgt|a tn ra|a o|]; cbn zeta.
  - unfold process_followup_item, on_message. rewrite bind_run, new_event_run.
    repeat split. appended.
  - repeat split; [apply draws_only_refl | appended].
  - unfold process_followup_item, on_tool_call.
    rewrite bind_run, new_event_run.
    cbn [fst snd mret M_ret]. unfold seat_map_message.
    destruct (decide (tn = Some "display_seat_map")); repeat split; appended.
  - unfold process_followup_item, on_tool_output.
    rewrite bind_run, new_event_run.
    repeat split. appended.
  - repeat split; [apply draws_only_refl | appended].
Qed.

Lemma process_followup_items_spec items : forall v w,
  let out := for_each (process_followup_item ext) items v w in
  draws_only w out.2 /\ appends_events v out.1 /\
  l_current_agent out.1 = l_current_agent v /\
  l_handed_off out.1 = l_handed_off v.
Proof.
  induction items as [|item items IH]; intros v w; cbn zeta.
  - repeat split; [apply draws_only_refl | apply appends_events_refl].
  - cbn [for_each]. rewrite bind_run.
    destruct (process_followup_item_spec v item w) as (Hd & He & Ha & Hh).
    destruct (IH (process_followup_item ext v item w).1
                 (process_followup_item ext v item w).2)
      as (Hd' & He' & Ha' & Hh').
    split; [eapply draws_only_trans; eassumption|].
    split; [eapply appends_events_trans; eassumption|].
    rewrite Ha', Hh', Ha, Hh. split; reflexivity.
Qed.

Lemma draws_only_fields w w' :
  draws_only w w' ->
  heap w' = heap w /\ conversations w' = conversations w /\
  runs w' = runs w /\ trace w' = trace w /\
  response_cache w' = response_cache w /\
  last_request w' = last_request w.
Proof. intros ->. repeat split; reflexivity. Qed.

Lemma run_on_state_run agent input l w :
  run_on_state ext agent input l w =
  let ctx := st_context (deref w l) in
  let o := Runner_run ext (runs w) agent (InList input) (Some ctx) in
  (o, set_heap (<[l := set_context (default ctx (outcome_ctx o)) (deref w l)]>
                  (heap w))
        (set_trace (trace w ++ [EvRun agent (InList input) (Some ctx)])
           (set_runs (S (runs w)) w))).
Proof. reflexivity. Qed.

(** *** The follow-up run *)

Lemma followup_not_handed l v w :
  l_handed_off v = false -> followup ext l v w = (v, w).
Proof. unfold followup. intros ->. reflexivity. Qed.

Lemma followup_handed l v w :
  l_handed_off v = true ->
  let ctx := st_context (deref w l) in
  let input := InList (st_input_items (deref w l)) in
  let o := Runner_run ext (runs w) (l_current_agent v) input (Some ctx) in
  let out := followup ext l v w in
  appends_events v out.1 /\
  l_current_agent out.1 = l_current_agent v /\
  heap out.2 = <[l := set_context (default ctx (outcome_ctx o)) (deref w l)]>
                 (heap w) /\
  conversations out.2 = conversations w /\
  runs out.2 = S (runs w) /\
  response_cache out.2 = response_cache w /\
  trace out.2 = trace w ++ EvRateWait :: rate_sleep w
                  ++ [EvRun (l_current_agent v) input (Some ctx)].
Proof.
  intros Hh. cbn zeta. unfold followup. rewrite Hh.
  rewrite bind_run. cbn [fst snd]. rewrite bind_run. cbn [fst snd read gets].
  rewrite bind_run, run_on_state_run. cbn [fst snd].
  destruct (rate_limiter_wait_frame w) as (Hp & Hc & Hr & Hd & Hrc & _).
  pose proof (rate_limiter_wait_trace w) as Ht.
  pose proof (deref_heap _ _ l Hp) as Hs.
  set (w1 := (rate_limiter_wait w).2) in *.
  rewrite Hs, Hr.
  destruct (Runner_run ext (runs w) (l_current_agent v) _ _) as [fr c|e c].
  - match goal with |- context [for_each _ _ _ ?w2] =>
      destruct (process_followup_items_spec (new_items fr) v w2)
        as (Hdo & He & Ha & _);
      destruct (draws_only_fields _ _ Hdo) as (Fh & Fc & Fr & Ft & Frc & _)
    end.
    split; [exact He|]. split; [exact Ha|].
    rewrite Fh, Fc, Fr, Ft, Frc. cbn.
    rewrite Hp, Hc, Hrc, Ht, <- app_assoc.
    repeat split; reflexivity.
  - cbn. rewrite Hp, Hc, Hrc, Ht, <- app_assoc.
    repeat split. apply appends_events_refl.
Qed.

(** *** The context diff and the persist step *)

Lemma finish_spec cid l old result v w :
  let out := finish ext cid l old result v w in
  let new := st_context (deref w l) in
  out.1 = {| conversation_id := cid;
             current_agent := name (l_current_agent v);
             messages := l_messages v;
             events := l_events v
               ++ context_update_events old new (name (l_current_agent v))
                                        (uuid4_hex ext (draws w));
             context := new;
             agents := _build_agents_list |} /\
  heap out.2 = <[l := {| st_input_items := to_input_list result;
                         st_context := new;
                         st_current_agent := name (l_current_agent v) |}]>
                 (heap w) /\
  conversations out.2 = <[cid := l]> (conversations w) /\
  runs out.2 = runs w /\
  response_cache out.2 = response_cache w /\
  trace out.2 = trace w ++ [EvSave cid].
Proof.
  cbn zeta. unfold finish, context_update_events.
  rewrite bind_run. cbn [fst snd read gets]. rewrite bind_run.
  destruct (decide (context_changes old (st_context (deref w l)) = ∅)).
  - unfold update, conversation_store_save. mrun. cbn.
    autorewrite with world. cbn. rewrite insert_insert_eq, app_nil_r.
    repeat split; reflexivity.
  - unfold update, conversation_store_save. mrun.
    rewrite !new_event_run. cbn.
    autorewrite with world. cbn. rewrite insert_insert_eq.
    repeat split; reflexivity.
Qed.

(** *** The successful branch of a turn *)

Lemma turn_returns cid l m w result c :
  primary_outcome ext w l m = Returns result c ->
  turn ext cid l m w =
  let p := for_each (process_item ext) (new_items result)
                    (initial_locals w l) (after_bookkeeping ext l m result w) in
  let f := followup ext l p.1 p.2 in
  finish ext cid l (st_context (deref w l)) result f.1 f.2.
Proof.
  intros Ho. rewrite turn_unfold. cbn zeta. rewrite primary_run, Ho.
  rewrite !bind_run. reflexivity.
Qed.

Lemma context_manager_add_message_run role content agent w :
  context_manager_add_message role content agent w =
  (tt, set_conversation_history
         (let h := conversation_history w
                   ++ [{| hm_role := role; hm_content := content;
                          hm_agent := agent; hm_timestamp := loop_time w |}] in
          if MAX_CONVERSATION_HISTORY <? length h
          then Py.last_slice MAX_CONVERSATION_HISTORY h else h) w).
Proof. reflexivity. Qed.

Lemma after_bookkeeping_facts l m result w :
  let w' := after_bookkeeping ext l m result w in
  heap w' = heap (after_primary ext l m w) /\
  conversations w' = conversations w /\
  runs w' = S (runs w) /\
  response_cache w' = response_cache w /\
  trace w' = trace (after_primary ext l m w).
Proof.
  destruct (after_primary_facts l m w) as (Hh & Hc & Hr & Hd & Hrc & Ht).
  unfold after_bookkeeping. rewrite context_manager_add_message_run.
  cbn [snd]. revert Hc Hr Hrc. generalize (after_primary ext l m w) as w1.
  intros w1 Hc Hr Hrc. cbn zeta.
  change (conversations (set_conversation_history ?h w1))
    with (conversations w1).
  change (runs (set_conversation_history ?h w1)) with (runs w1).
  change (response_cache (set_conversation_history ?h w1))
    with (response_cache w1).
  rewrite Hc, Hr, Hrc. repeat split; reflexivity.
Qed.

Lemma filter_run_rate_sleep w : List.filter is_run (rate_sleep w) = [].
Proof. unfold rate_sleep. destruct (Qlt_bool _ _); reflexivity. Qed.

Lemma filter_save_rate_sleep w : List.filter is_save (rate_sleep w) = [].
Proof. unfold rate_sleep. destruct (Qlt_bool _ _); reflexivity. Qed.

Lemma filter_wait_rate_sleep w : List.filter is_wait (rate_sleep w) = [].
Proof. unfold rate_sleep. destruct (Qlt_bool _ _); reflexivity. Qed.

Lemma turn_success cid l m w result c :
  primary_outcome ext w l m = Returns result c ->
  let out := turn ext cid l m w in
  conversation_id out.1 = cid /\
  current_agent out.1 = name (final_agent w l result) /\
  context out.1 = final_context ext w l m result /\
  (exists es id,
      events out.1 = es ++ context_update_events (st_context (deref w l))
                              (final_context ext w l m result)
                              (name (final_agent w l result)) id /\
      existsb is_context_update es = false) /\
  conversations out.2 = <[cid := l]> (conversations w) /\
  heap out.2 = <[l := {| st_input_items := to_input_list result;
                         st_context := final_context ext w l m result;
                         st_current_agent := name (final_agent w l result) |}]>
                 (heap w) /\
  runs out.2 = runs w + length (turn_runs ext w l m result) /\
  response_cache out.2 = response_cache w /\
  (exists tr, trace out.2 = trace w ++ tr /\
              List.filter is_run tr = turn_runs ext w l m result /\
              List.filter is_wait tr = map (fun _ => EvRateWait)
                                           (turn_runs ext w l m result) /\
              List.filter is_save tr = [EvSave cid]).
Proof.
  intros Ho. cbn zeta. rewrite (turn_returns _ _ _ _ _ _ Ho). cbn zeta.
  destruct (after_primary_facts l m w) as (Hh & Hc & Hr & Hd & Hrc & Ht).
  destruct (after_bookkeeping_facts l m result w) as (Bh & Bc & Br & Brc & Bt).
  destruct (process_items_spec (new_items result) (initial_locals w l)
              (after_bookkeeping ext l m result w)) as (Pd & Pe & Pa & Ph).
  destruct (draws_only_fields _ _ Pd) as (Fh & Fc & Fr & Ft & Frc & _).
  set (p := for_each (process_item ext) (new_items result)
              (initial_locals w l) (after_bookkeeping ext l m result w)) in *.
  rewrite Bh, Hh in Fh. rewrite Bc in Fc. rewrite Br in Fr.
  rewrite Bt, Ht in Ft. rewrite Brc in Frc.
  pose proof (deref_insert _ _ _ _ Fh) as Fs.
  unfold final_agent, final_context, turn_runs.
  cbn [initial_locals l_current_agent l_handed_off l_events] in Pa, Ph, Pe.
  destruct Pe as (es1 & Pe & Pn). cbn in Pe.
  destruct (last_handoff_target (new_items result)) as [t|] eqn:Hl;
    cbn [default from_option id] in Pa |- *.
  - destruct (followup_handed l p.1 p.2 Ph)
      as ((es2 & Qe & Qn) & Qa & Qh & Qc & Qr & Qrc & Qt).
    rewrite Fs, Fr, Pa in Qh. rewrite Fs, Pa in Qt.
    cbn [st_context st_input_items] in Qh, Qt.
    fold (followup_input w l m) in Qh, Qt.
    fold (primary_context ext w l m) in Qh, Qt.
    fold (followup_outcome ext w l m t) in Qh.
    rewrite Fh, insert_insert_eq in Qh. rewrite Fc in Qc. rewrite Fr in Qr.
    rewrite Frc in Qrc. rewrite Ft in Qt.
    set (f := followup ext l p.1 p.2) in *.
    destruct (finish_spec cid l (st_context (deref w l)) result f.1 f.2)
      as (R1 & R2 & R3 & R4 & R5 & R6).
    rewrite (deref_insert _ _ _ _ Qh) in R1, R2.
    cbn [set_context st_context] in R1, R2.
    rewrite Qa, Pa in R1, R2. rewrite Qe, Pe in R1.
    rewrite Qh, insert_insert_eq in R2. rewrite Qc in R3.
    rewrite Qr in R4. rewrite Qrc in R5. rewrite Qt in R6.
    rewrite R1, R2, R3, R4, R5, R6. cbn.
    repeat split; try reflexivity.
    + exists (es1 ++ es2), (uuid4_hex ext (draws f.2)).
      rewrite existsb_app, Pn, Qn. split; reflexivity.
    + lia.
    + eexists. split; [rewrite <- !app_assoc; reflexivity|].
      repeat split; cbn;
        rewrite ?List.filter_app, ?filter_run_rate_sleep,
                ?filter_save_rate_sleep, ?filter_wait_rate_sleep; cbn;
        rewrite ?List.filter_app, ?filter_run_rate_sleep,
                ?filter_save_rate_sleep, ?filter_wait_rate_sleep;
        reflexivity.
  - rewrite (followup_not_handed l p.1 p.2 Ph). cbn [fst snd].
    destruct (finish_spec cid l (st_context (deref w l)) result p.1 p.2)
      as (R1 & R2 & R3 & R4 & R5 & R6).
    rewrite Fs in R1, R2. cbn [st_context] in R1, R2.
    rewrite Pa in R1, R2. rewrite Pe in R1.
    rewrite Fh, insert_insert_eq in R2. rewrite Fc in R3.
    rewrite Fr in R4. rewrite Frc in R5. rewrite Ft in R6.
    rewrite R1, R2, R3, R4, R5, R6. cbn.
    repeat split; try reflexivity.
    + exists es1, (uuid4_hex ext (draws p.2)). split; [reflexivity|exact Pn].
    + lia.
    + eexists. split; [rewrite <- !app_assoc; reflexivity|].
      repeat split; cbn;
        rewrite ?List.filter_app, ?filter_run_rate_sleep,
                ?filter_save_rate_sleep, ?filter_wait_rate_sleep;
        reflexivity.
Qed.

(** *** Entering a turn *)

Lemma lookup_conversation_world req w : (lookup_conversation req w).2 = w.
Proof.
  unfold lookup_conversation. destruct (req_conversation_id req); [|reflexivity].
  destruct (decide _); reflexivity.
Qed.

Lemma lookup_conversation_new req w :
  is_new req w = true <-> (lookup_conversation req w).1 = None.
Proof.
  unfold is_new, lookup_conversation.
  destruct (req_conversation_id req) as [cid|]; [|split; reflexivity].
  destruct (decide (cid = EmptyString)) as [->|Hne].
  - split; reflexivity.
  - rewrite bool_decide_eq_false_2 by assumption. cbn [orb].
    rewrite bind_run. cbn. rewrite bool_decide_eq_true.
    destruct (conversations w !! cid); cbn; split; congruence.
Qed.

Lemma lookup_conversation_existing req w cid l :
  (lookup_conversation req w).1 = Some (cid, l) ->
  req_conversation_id req = Some cid /\ conversations w !! cid = Some l.
Proof.
  unfold lookup_conversation.
  destruct (req_conversation_id req) as [cid'|]; [|discriminate].
  destruct (decide (cid' = EmptyString)); [discriminate|].
  rewrite bind_run. cbn.
  destruct (conversations w !! cid') eqn:E; cbn; [|discriminate].
  intros [= -> ->]. split; [reflexivity|assumption].
Qed.

Lemma chat_endpoint_short req w :
  is_new req w = true -> Py.strip (req_message req) = EmptyString ->
  let l := fresh (dom (heap w)) in
  chat_endpoint ext req w =
  ({| conversation_id := uuid4_hex ext (draws w);
      current_agent := name simple_triage_agent;
      messages := []; events := [];
      context := create_initial_context ext (S (draws w));
      agents := _build_agents_list |},
   set_conversations (<[uuid4_hex ext (draws w) := l]> (conversations w))
     (set_trace (trace w ++ [EvSave (uuid4_hex ext (draws w))])
        (set_heap (<[l := fresh_state ext w]> (heap w))
           (set_draws (S (S (draws w))) w)))).
Proof.
  intros Hn Hb. apply lookup_conversation_new in Hn.
  pose proof (lookup_conversation_world req w) as Hw.
  unfold chat_endpoint. rewrite bind_run, Hn, Hw.
  mrun. rewrite decide_True by assumption. reflexivity.
Qed.

Lemma chat_endpoint_turn req w :
  is_new req w = false \/ Py.strip (req_message req) <> EmptyString ->
  chat_endpoint ext req w =
  turn ext (turn_start ext req w).1.1 (turn_start ext req w).1.2
       (req_message req) (turn_start ext req w).2.
Proof.
  intros H. pose proof (lookup_conversation_world req w) as Hw.
  pose proof (lookup_conversation_new req w) as Hn.
  unfold chat_endpoint, turn_start. rewrite bind_run, Hw.
  destruct (lookup_conversation req w).1 as [[cid l]|].
  - reflexivity.
  - destruct H as [H|H]; [rewrite (proj2 Hn) in H; [discriminate|reflexivity]|].
    mrun. rewrite decide_False by assumption. reflexivity.
Qed.
End TurnFacts.

(** ** Blank messages *)

Lemma lstrip_empty s : Py.lstrip s = EmptyString <-> is_blank s = true.
Proof.
  unfold is_blank. induction s as [|c s IH]; cbn.
  - split; reflexivity.
  - destruct (Py.is_space c); cbn; [exact IH|]. split; discriminate.
Qed.

Lemma is_blank_lstrip s : is_blank (Py.lstrip s) = is_blank s.
Proof.
  unfold is_blank. induction s as [|c s IH]; cbn; [reflexivity|].
  destruct (Py.is_space c) eqn:E; cbn; [exact IH|]. rewrite E. reflexivity.
Qed.

Lemma is_blank_rev s : is_blank (Py.rev_string s) = is_blank s.
Proof.
  unfold is_blank, Py.rev_string. rewrite list_ascii_of_string_of_list_ascii.
  apply eq_true_iff_eq. rewrite !forallb_forall.
  split; intros H x Hx; apply H; [apply -> in_rev|apply <- in_rev]; exact Hx.
Qed.

Lemma rev_string_empty s : Py.rev_string s = EmptyString <-> s = EmptyString.
Proof.
  unfold Py.rev_string. split.
  - intros H. apply (f_equal list_ascii_of_string) in H.
    rewrite list_ascii_of_string_of_list_ascii in H. cbn in H.
    destruct s as [|c s]; [reflexivity|]. cbn in H.
    destruct (rev (list_ascii_of_string s)); discriminate.
  - intros ->. reflexivity.
Qed.

Lemma strip_blank s : Py.strip s = EmptyString <-> is_blank s = true.
Proof.
  unfold Py.strip, Py.rstrip.
  rewrite rev_string_empty, lstrip_empty, is_blank_rev, is_blank_lstrip.
  reflexivity.
Qed.

(** ** The caching, retrying caller *)

Lemma Qlt_bool_iff x y : Qlt_bool x y = true <-> (x < y)%Q.
Proof.
  unfold Qlt_bool. rewrite negb_true_iff, <- not_true_iff_false, Qle_bool_iff.
  split; [apply Qnot_le_lt | apply Qlt_not_le].
Qed.

Section CallerFacts.
Variable ext : External.

Lemma get_cached_hit key w entry :
  response_cache w !! key = Some entry ->
  (wall_time w - ce_timestamp entry < CACHE_TTL)%Q ->
  get_cached_response key w = (Some (ce_response entry), w).
Proof.
  intros He Ht. apply Qlt_bool_iff in Ht.
  unfold get_cached_response. cbn [CACHE_RESPONSES negb].
  rewrite bind_run. cbn [fst snd gets]. rewrite He, bind_run.
  cbn [fst snd gets]. rewrite Ht. reflexivity.
Qed.

Lemma get_cached_some key w r :
  (get_cached_response key w).1 = Some r ->
  exists entry, response_cache w !! key = Some entry /\
                ce_response entry = r /\
                (wall_time w - ce_timestamp entry < CACHE_TTL)%Q /\
                (get_cached_response key w).2 = w.
Proof.
  unfold get_cached_response. cbn [CACHE_RESPONSES negb].
  rewrite bind_run. cbn [fst snd gets].
  destruct (response_cache w !! key) as [entry|]; [|discriminate].
  rewrite bind_run. cbn [fst snd gets].
  destruct (Qlt_bool _ _) eqn:E; [|rewrite bind_run; discriminate].
  cbn. intros [= <-]. exists entry. apply Qlt_bool_iff in E. auto.
Qed.

(** A lookup changes nothing but, possibly, the cache. *)
Lemma get_cached_frame key w :
  let w' := (get_cached_response key w).2 in
  trace w' = trace w /\ runs w' = runs w /\
  last_request w' = last_request w /\ loop_time w' = loop_time w /\
  wall_time w' = wall_time w /\
  ((get_cached_response key w).1 = None -> response_cache w' !! key = None).
Proof.
  unfold get_cached_response. cbn [CACHE_RESPONSES negb].
  rewrite bind_run. cbn [fst snd gets].
  destruct (response_cache w !! key) as [entry|] eqn:He; [|cbn; auto 10].
  rewrite bind_run. cbn [fst snd gets].
  destruct (Qlt_bool _ _); [cbn; repeat split; discriminate|].
  rewrite bind_run. cbn. repeat split. intros _. apply lookup_delete_eq.
Qed.

Lemma run_run agent input ctx w :
  run ext agent input ctx w =
  (Runner_run ext (runs w) agent input ctx,
   set_trace (trace w ++ [EvRun agent input ctx]) (set_runs (S (runs w)) w)).
Proof. reflexivity. Qed.

Lemma asyncio_sleep_run d w :
  asyncio_sleep d w =
  (tt, set_trace (trace w ++ [EvSleep d])
         (set_clocks (fun t => t + d)%Q w)).
Proof. reflexivity. Qed.

Lemma attempts_all_fail self key input oinput max_retries :
  always_fails ext ->
  forall len k ctx last w,
    k + len = max_retries ->
    let out := attempts ext self key input oinput max_retries (seq k len)
                        ctx last w in
    out.1 = FallbackResponse fallback_message /\
    runs out.2 = runs w + len /\
    response_cache out.2 = response_cache w /\
    last_request out.2 = last_request w /\
    exists tr, trace out.2 = trace w ++ tr /\
               map step_of tr = failing_schedule max_retries (seq k len).
Proof.
  intros Hf. induction len as [|len IH]; intros k ctx last w Hk; cbn zeta.
  - cbn. repeat split; [lia|]. exists []. rewrite app_nil_r. split; reflexivity.
  - cbn [seq attempts]. rewrite bind_run, run_run. cbn [fst snd].
    destruct (Hf (runs w) (oa_agent self) oinput ctx) as (e & c & ->).
    unfold failing_schedule. cbn [flat_map].
    destruct (k <? max_retries - 1) eqn:E.
    + rewrite bind_run, asyncio_sleep_run. cbn [fst snd].
      match goal with |- context [attempts _ _ _ _ _ _ _ ?c' ?l' ?w'] =>
        destruct (IH (S k) c' l' w' ltac:(lia)) as (R1 & R2 & R3 & R4 & tr & R5 & R6)
      end.
      rewrite R1, R2, R3, R4, R5. cbn. repeat split; [lia|].
      eexists. split; [rewrite <- !app_assoc; reflexivity|].
      cbn. rewrite R6. reflexivity.
    + apply Nat.ltb_ge in E. assert (len = 0) as -> by lia.
      cbn. repeat split; [lia|]. eexists. split; reflexivity.
Qed.

Lemma attempts_returns self key input oinput max_retries :
  forall range ctx last w r,
    (attempts ext self key input oinput max_retries range ctx last w).1
      = RunResultObj r ->
    let w' := (attempts ext self key input oinput max_retries range ctx
                        last w).2 in
    response_cache w' !! key
      = Some {| ce_response := r; ce_timestamp := wall_time w' |}.
Proof.
  induction range as [|attempt range IH]; intros ctx last w r; cbn zeta.
  - cbn. discriminate.
  - cbn [attempts]. rewrite bind_run, run_run. cbn [fst snd].
    destruct (Runner_run ext (runs w) (oa_agent self) oinput ctx) as [res c|e c].
    + unfold cache_response. cbn [CACHE_RESPONSES negb]. mrun. cbn.
      intros [= <-]. apply lookup_insert_eq.
    + destruct (attempt <? max_retries - 1).
      * rewrite bind_run, asyncio_sleep_run. cbn [fst snd]. apply IH.
      * cbn. discriminate.
Qed.
End CallerFacts.

(** ** The simplified endpoint *)

Section SimpleFacts.
Variable ext : External.

Lemma simple_new_event_run type agent content metadata w :
  SimpleApi.new_event ext type agent content metadata w =
  ({| ev_id := uuid4_hex ext (draws w); ev_type := type; ev_agent := agent;
      ev_content := content; ev_metadata := metadata;
      ev_timestamp := Some (wall_time w * 1000)%Q |},
   set_draws (S (draws w)) w).
Proof. reflexivity. Qed.

Lemma simple_process_item_draws v item w :
  draws_only w (SimpleApi.process_item ext v item w).2.
Proof.
  destruct item; cbn [SimpleApi.process_item];
    rewrite ?bind_run, ?simple_new_event_run;
    first [apply draws_only_refl | reflexivity].
Qed.

Lemma simple_process_items_draws items : forall v w,
  draws_only w (for_each (SimpleApi.process_item ext) items v w).2.
Proof.
  induction items as [|item items IH]; intros v w.
  - apply draws_only_refl.
  - cbn [for_each]. rewrite bind_run.
    eapply draws_only_trans; [apply simple_process_item_draws | apply IH].
Qed.

Lemma simple_finish_spec cid l old result v w :
  let out := SimpleApi.finish ext cid l old result v w in
  conversation_id out.1 = cid /\
  heap out.2 = <[l := {| st_input_items := to_input_list result;
                         st_context := st_context (deref w l);
                         st_current_agent := current_agent out.1 |}]>
                 (heap w) /\
  conversations out.2 = <[cid := l]> (conversations w) /\
  runs out.2 = runs w /\
  response_cache out.2 = response_cache w /\
  trace out.2 = trace w ++ [EvSave cid].
Proof.
  cbn zeta. unfold SimpleApi.finish.
  rewrite bind_run. cbn [fst snd read gets]. rewrite bind_run.
  destruct (decide (context_changes old (st_context (deref w l)) = ∅)).
  - unfold update, conversation_store_save. mrun. cbn.
    autorewrite with world. cbn. rewrite insert_insert_eq.
    repeat split; reflexivity.
  - unfold update, conversation_store_save. mrun.
    rewrite !simple_new_event_run. cbn.
    autorewrite with world. cbn. rewrite insert_insert_eq.
    repeat split; reflexivity.
Qed.

(** [SimpleApi.turn] from the primary invocation on. *)
Lemma simple_turn_unfold cid l m w :
  SimpleApi.turn ext cid l m w =
  let r := run_on_state ext (primary_agent w l) (primary_input w l m) l
                        (before_run l m w) in
  (match r.1 with
   | Raises _ _ =>
       append_input_item l (assistant_entry api_fallback_message);;
       st ← read l;
       mret (fallback_response cid (primary_agent w l) (st_context st))
   | Returns result _ =>
       context_manager_add_message "assistant" (final_output result)
                                   (Some (name (primary_agent w l)));;
       v ← for_each (SimpleApi.process_item ext) (new_items result)
                    (initial_locals w l);
       SimpleApi.finish ext cid l (st_context (deref w l)) result v
   end) r.2.
Proof.
  unfold SimpleApi.turn.
  rewrite bind_run. cbn [fst snd read gets].
  rewrite bind_run. rewrite bind_run. cbn [fst snd read gets].
  rewrite bind_run. rewrite bind_run. rewrite bind_run.
  rewrite append_deref. cbn [st_input_items st_context set_input_items].
  reflexivity.
Qed.

Lemma simple_turn_raises cid l m w e c :
  primary_outcome ext w l m = Raises e c ->
  let out := SimpleApi.turn ext cid l m w in
  out.1 = fallback_response cid (primary_agent w l) (primary_context ext w l m) /\
  heap out.2 =
    <[l := {| st_input_items := st_input_items (deref w l)
                ++ [user_entry m; assistant_entry api_fallback_message];
              st_context := primary_context ext w l m;
              st_current_agent := st_current_agent (deref w l) |}]> (heap w) /\
  conversations out.2 = conversations w /\
  runs out.2 = S (runs w) /\ draws out.2 = draws w /\
  response_cache out.2 = response_cache w /\
  trace out.2 = trace w ++ EvRateWait :: rate_sleep w
                  ++ [EvRun (primary_agent w l) (InList (primary_input w l m))
                            (Some (st_context (deref w l)))].
Proof.
  intros Ho.
  destruct (after_primary_facts ext l m w) as (Hh & Hc & Hr & Hd & Hrc & Ht).
  pose proof (deref_insert _ _ _ _ Hh) as Hs.
  rewrite simple_turn_unfold. cbn zeta. rewrite primary_run, Ho.
  change (run_on_state ext (primary_agent w l) (primary_input w l m) l
                       (before_run l m w)).2
    with (after_primary ext l m w).
  set (w1 := after_primary ext l m w) in *. clearbody w1.
  unfold append_input_item, update, read. mrun. cbn.
  autorewrite with world. rewrite Hc, Hr, Hd, Hrc, Ht, Hh, Hs.
  rewrite insert_insert_eq. cbn. rewrite <- app_assoc.
  repeat split; reflexivity.
Qed.

Lemma simple_turn_returns cid l m w result c :
  primary_outcome ext w l m = Returns result c ->
  let out := SimpleApi.turn ext cid l m w in
  conversation_id out.1 = cid /\
  stored_transcript out.2 cid = Some (to_input_list result) /\
  runs out.2 = S (runs w) /\
  response_cache out.2 = response_cache w /\
  trace out.2 = trace w ++ EvRateWait :: rate_sleep w
                  ++ [EvRun (primary_agent w l) (InList (primary_input w l m))
                            (Some (st_context (deref w l)));
                      EvSave cid].
Proof.
  intros Ho. cbn zeta.
  destruct (after_primary_facts ext l m w) as (Hh & Hc & Hr & Hd & Hrc & Ht).
  rewrite simple_turn_unfold. cbn zeta. rewrite primary_run, Ho.
  change (run_on_state ext (primary_agent w l) (primary_input w l m) l
                       (before_run l m w)).2
    with (after_primary ext l m w).
  rewrite !bind_run.
  fold (after_bookkeeping ext l m result w).
  destruct (after_bookkeeping_facts ext l m result w)
    as (Bh & Bc & Br & Brc & Bt).
  match goal with |- context [for_each ?b ?i ?v ?w0] =>
    pose proof (simple_process_items_draws i v w0) as Pd;
    set (p := for_each b i v w0) in *
  end.
  destruct (draws_only_fields _ _ Pd) as (Fh & Fc & Fr & Ft & Frc & _).
  destruct (simple_finish_spec cid l (st_context (deref w l)) result p.1 p.2)
    as (R1 & R2 & R3 & R4 & R5 & R6).
  unfold stored_transcript.
  rewrite R1, R3, R4, R5, R6, lookup_insert_eq. cbn [fmap option_fmap option_map].
  rewrite (deref_insert _ _ _ _ R2), Fr, Br, Frc, Brc, Ft, Bt, Ht.
  rewrite <- app_assoc. cbn [app]. rewrite <- app_assoc.
  repeat split; reflexivity.
Qed.

Lemma simple_chat_endpoint_short req w :
  is_new req w = true -> Py.strip (req_message req) = EmptyString ->
  let l := fresh (dom (heap w)) in
  SimpleApi.chat_endpoint ext req w =
  ({| conversation_id := uuid4_hex ext (draws w);
      current_agent := name simple_triage_agent;
      messages := []; events := [];
      context := create_initial_context ext (S (draws w));
      agents := _build_agents_list |},
   set_conversations (<[uuid4_hex ext (draws w) := l]> (conversations w))
     (set_trace (trace w ++ [EvSave (uuid4_hex ext (draws w))])
        (set_heap (<[l := fresh_state ext w]> (heap w))
           (set_draws (S (S (draws w))) w)))).
Proof.
  intros Hn Hb. apply lookup_conversation_new in Hn.
  pose proof (lookup_conversation_world req w) as Hw.
  unfold SimpleApi.chat_endpoint. rewrite bind_run, Hn, Hw.
  mrun. rewrite decide_True by assumption. reflexivity.
Qed.

Lemma simple_chat_endpoint_turn req w :
  is_new req w = false \/ Py.strip (req_message req) <> EmptyString ->
  SimpleApi.chat_endpoint ext req w =
  SimpleApi.turn ext (turn_start ext req w).1.1 (turn_start ext req w).1.2
                 (req_message req) (turn_start ext req w).2.
Proof.
  intros H. pose proof (lookup_conversation_world req w) as Hw.
  pose proof (lookup_conversation_new req w) as Hn.
  unfold SimpleApi.chat_endpoint, turn_start. rewrite bind_run, Hw.
  destruct (lookup_conversation req w).1 as [[cid l]|].
  - reflexivity.
  - destruct H as [H|H]; [rewrite (proj2 Hn) in H; [discriminate|reflexivity]|].
    mrun. rewrite decide_False by assumption. reflexivity.
Qed.
End SimpleFacts.

(** ** Results *)

Section Claims.
Variable ext : External.

Lemma runs_turn_strip req w :
  runs_turn req w ->
  is_new req w = false \/ Py.strip (req_message req) <> EmptyString.
Proof.
  intros [H|H]; [left; exact H|right].
  rewrite strip_blank, H. discriminate.
Qed.

Lemma turn_start_frame req w :
  let ws := start_world ext req w in
  trace ws = trace w /\ runs ws = runs w /\
  conversations ws = conversations w /\
  response_cache ws = response_cache w /\
  last_request ws = last_request w /\ loop_time ws = loop_time w.
Proof.
  unfold start_world, turn_start.
  destruct (lookup_conversation req w).1 as [[cid l]|]; cbn; auto 10.
Qed.

Lemma turn_start_existing req w :
  is_new req w = false ->
  exists cid l,
    req_conversation_id req = Some cid /\ conversations w !! cid = Some l /\
    turn_start ext req w = (cid, l, w).
Proof.
  intros H. unfold turn_start.
  destruct (lookup_conversation req w).1 as [[cid l]|] eqn:E.
  - destruct (lookup_conversation_existing _ _ _ _ E) as (H1 & H2).
    exists cid, l. auto.
  - apply lookup_conversation_new in E. congruence.
Qed.

Lemma turn_start_new req w :
  is_new req w = true ->
  turn_start ext req w =
  (uuid4_hex ext (draws w), fresh (dom (heap w)),
   set_heap (<[fresh (dom (heap w)) := fresh_state ext w]> (heap w))
            (set_draws (S (S (draws w))) w)).
Proof.
  intros H. apply lookup_conversation_new in H.
  unfold turn_start. rewrite H. reflexivity.
Qed.

Lemma short_circuit_holds req w out :
  out = (chat_endpoint ext req w) \/ out = (SimpleApi.chat_endpoint ext req w) ->
  is_new req w = true -> is_blank (req_message req) = true ->
  short_circuited ext w out.
Proof.
  intros Ho Hn Hb. apply strip_blank in Hb.
  assert (out =
    ({| conversation_id := uuid4_hex ext (draws w);
        current_agent := name simple_triage_agent;
        messages := []; events := [];
        context := create_initial_context ext (S (draws w));
        agents := _build_agents_list |},
     set_conversations
       (<[uuid4_hex ext (draws w) := fresh (dom (heap w))]> (conversations w))
       (set_trace (trace w ++ [EvSave (uuid4_hex ext (draws w))])
          (set_heap (<[fresh (dom (heap w)) := fresh_state ext w]> (heap w))
             (set_draws (S (S (draws w))) w))))) as ->.
  { destruct Ho as [-> | ->];
      [apply chat_endpoint_short | apply simple_chat_endpoint_short];
      assumption. }
  unfold short_circuited. cbn.
  rewrite !lookup_insert_eq. repeat split.
  apply not_elem_of_dom, is_fresh.
Qed.

Lemma normal_path_of_trace l m w (out : ChatResponse * World) tl :
  runs w < runs out.2 ->
  trace out.2 = trace w ++ EvRateWait :: rate_sleep w
                  ++ EvRun (primary_agent w l) (InList (primary_input w l m))
                           (Some (st_context (deref w l))) :: tl ->
  normal_path l m w out.
Proof.
  intros Hr Ht. split; [exact Hr|]. eexists. split; [exact Ht|].
  cbn. rewrite List.filter_app, filter_run_rate_sleep. split; reflexivity.
Qed.

Lemma turn_normal_path cid l m w :
  normal_path l m w (turn ext cid l m w).
Proof.
  destruct (primary_outcome ext w l m) as [result c|e c] eqn:Ho.
  - destruct (turn_success ext cid l m w result c Ho)
      as (_ & _ & _ & _ & _ & _ & Hr & _ & tr & Ht & Hf & Hw & _).
    split; [rewrite Hr; cbn; lia|].
    exists tr. rewrite Hf, Hw. repeat split. exact Ht.
  - destruct (turn_raises ext cid l m w e c Ho) as (_ & _ & _ & Hr & _ & _ & Ht).
    eapply normal_path_of_trace; [rewrite Hr; lia | exact Ht].
Qed.

Lemma simple_turn_normal_path cid l m w :
  normal_path l m w (SimpleApi.turn ext cid l m w).
Proof.
  destruct (primary_outcome ext w l m) as [result c|e c] eqn:Ho.
  - destruct (simple_turn_returns ext cid l m w result c Ho)
      as (_ & _ & Hr & _ & Ht).
    eapply normal_path_of_trace; [rewrite Hr; lia | exact Ht].
  - destruct (simple_turn_raises ext cid l m w e c Ho)
      as (_ & _ & _ & Hr & _ & _ & Ht).
    eapply normal_path_of_trace; [rewrite Hr; lia | exact Ht].
Qed.

(** C7. A request without a conversation id, or with an unknown one,
    whose message is empty or whitespace is short-circuited by both
    endpoints: a new state object with an empty transcript, the initial
    context and the triage agent is saved under a newly drawn id, the
    response carries that id, no messages, no events and the triage agent,
    and there is no rate-limiter wait and no call of the runner, so the
    last-grant timestamp and the cache are as before. On an existing
    conversation every message, blank or not, goes through the normal
    path: a rate-limiter wait and a call of the runner on the transcript
    with the message appended. *)
Theorem C7_blank_start_short_circuits req w :
  (is_new req w = true -> is_blank (req_message req) = true ->
   short_circuited ext w (chat_endpoint ext req w) /\
   short_circuited ext w (SimpleApi.chat_endpoint ext req w)) /\
  (is_new req w = false ->
   exists cid l,
     req_conversation_id req = Some cid /\ conversations w !! cid = Some l /\
     normal_path l (req_message req) w (chat_endpoint ext req w) /\
     normal_path l (req_message req) w (SimpleApi.chat_endpoint ext req w)).
Proof.
  split.
  - intros Hn Hb. split; apply (short_circuit_holds req w); auto.
  - intros Hn. destruct (turn_start_existing req w Hn) as (cid & l & Hc & Hl & Hs).
    exists cid, l. split; [exact Hc|]. split; [exact Hl|].
    rewrite chat_endpoint_turn, simple_chat_endpoint_turn by (left; exact Hn).
    rewrite Hs. cbn [fst snd].
    split; [apply turn_normal_path | apply simple_turn_normal_path].
Qed.

Lemma fallback_turn_holds req w e c (out : ChatResponse * World) :
  request_outcome ext req w = Raises e c ->
  (let ws := start_world ext req w in
   let l := start_state ext req w in
   let m := req_message req in
   out.1 = fallback_response (start_id ext req w) (primary_agent ws l)
                             (primary_context ext ws l m) /\
   heap out.2 =
     <[l := {| st_input_items := st_input_items (deref ws l)
                 ++ [user_entry m; assistant_entry api_fallback_message];
               st_context := primary_context ext ws l m;
               st_current_agent := st_current_agent (deref ws l) |}]> (heap ws) /\
   trace out.2 = trace ws ++ EvRateWait :: rate_sleep ws
                   ++ [EvRun (primary_agent ws l) (InList (primary_input ws l m))
                             (Some (st_context (deref ws l)))]) ->
  fallback_turn ext req w out.
Proof.
  intros Ho (H1 & H2 & H3).
  destruct (turn_start_frame req w) as (Ft & _ & _ & _ & Fl & Fc).
  unfold fallback_turn. rewrite H1. cbn.
  rewrite (deref_insert _ _ _ _ H2), H3, Ft.
  rewrite (rate_sleep_clocks _ _ Fc Fl).
  repeat split.
  - unfold primary_context. fold (request_outcome ext req w).
    intros ->. reflexivity.
  - eexists. split; [reflexivity|]. cbn. rewrite map_app. reflexivity.
Qed.

(** C2 (as the code has it). When the primary invocation of a turn
    raises, both endpoints append the user message and one assistant
    apology entry to the transcript of the state object of the turn,
    leave its current agent as it was and its context as the runner left
    it (unchanged when the runner did not touch it), and return a response
    with exactly one message, the apology, and no event; the turn makes one
    rate-limiter wait and one call of the runner and does nothing after it
    (no item processing, no follow-up, no context diff, no save). *)
Theorem C2_fallback_appends_apology_without_event req w e c :
  runs_turn req w ->
  request_outcome ext req w = Raises e c ->
  fallback_turn ext req w (chat_endpoint ext req w) /\
  fallback_turn ext req w (SimpleApi.chat_endpoint ext req w).
Proof.
  intros Hr Ho. apply runs_turn_strip in Hr.
  split; apply (fallback_turn_holds req w e c _ Ho).
  - rewrite (chat_endpoint_turn ext req w Hr).
    destruct (turn_raises ext (start_id ext req w) (start_state ext req w)
                (req_message req) (start_world ext req w) e c Ho)
      as (H1 & H2 & _ & _ & _ & _ & H3).
    auto.
  - rewrite (simple_chat_endpoint_turn ext req w Hr).
    destruct (simple_turn_raises ext (start_id ext req w)
                (start_state ext req w) (req_message req)
                (start_world ext req w) e c Ho)
      as (H1 & H2 & _ & _ & _ & _ & H3).
    auto.
Qed.

(** C10. When the turn of a request ends in the exception handler of
    api.py, the store is exactly as before and nothing is saved. If the
    conversation is new, the response carries the newly drawn id, the
    transcript with the user message and the apology sits in a state
    object that no entry of the store refers to, and the store has no
    entry for the returned id unless it had one before. If the
    conversation exists, the store still maps its id to the same state
    object, whose transcript now ends with the user message and the
    apology. *)
Theorem C10_fallback_persists_only_by_aliasing req w e c :
  runs_turn req w ->
  request_outcome ext req w = Raises e c ->
  let out := chat_endpoint ext req w in
  let m := req_message req in
  conversations out.2 = conversations w /\
  List.filter is_save (trace out.2) = List.filter is_save (trace w) /\
  (is_new req w = true ->
   let l := fresh (dom (heap w)) in
   conversation_id out.1 = uuid4_hex ext (draws w) /\
   st_input_items (deref out.2 l)
     = [user_entry m; assistant_entry api_fallback_message] /\
   (store_wf w -> forall cid, conversations out.2 !! cid <> Some l) /\
   (conversations w !! uuid4_hex ext (draws w) = None ->
    stored_transcript out.2 (conversation_id out.1) = None)) /\
  (is_new req w = false ->
   exists cid l,
     req_conversation_id req = Some cid /\
     conversations w !! cid = Some l /\
     conversation_id out.1 = cid /\
     conversations out.2 !! cid = Some l /\
     stored_transcript out.2 cid
       = Some (st_input_items (deref w l)
                 ++ [user_entry m; assistant_entry api_fallback_message])).
Proof.
  intros Hr Ho. cbn zeta. apply runs_turn_strip in Hr.
  rewrite (chat_endpoint_turn ext req w Hr).
  destruct (turn_raises ext (start_id ext req w) (start_state ext req w)
              (req_message req) (start_world ext req w) e c Ho)
    as (H1 & H2 & H3 & _ & _ & _ & H4).
  destruct (turn_start_frame req w) as (Ft & _ & Fc & _).
  fold (start_id ext req w) (start_state ext req w) (start_world ext req w).
  rewrite H3, Fc, H4, Ft.
  split; [reflexivity|]. split.
  { rewrite List.filter_app. cbn.
    rewrite List.filter_app, filter_save_rate_sleep. cbn.
    apply app_nil_r. }
  split.
  - intros Hn. pose proof (turn_start_new req w Hn) as Hs.
    unfold start_id, start_state, start_world in H1, H2, H3 |- *.
    rewrite Hs in H1, H2, H3 |- *. cbn [fst snd] in H1, H2, H3 |- *.
    rewrite H1. cbn [fst conversation_id fallback_response].
    rewrite (deref_insert _ _ _ _ H2).
    autorewrite with world. cbn [st_input_items fresh_state app].
    repeat split.
    + intros Hwf cid Hcid. apply Hwf in Hcid.
      apply elem_of_dom in Hcid. exact (is_fresh _ Hcid).
    + intros Hnone. unfold stored_transcript. rewrite H3. cbn.
      rewrite Hnone. reflexivity.
  - intros Hn. destruct (turn_start_existing req w Hn) as (cid & l & Hc & Hl & Hs).
    unfold start_id, start_state, start_world in H1, H2, H3 |- *.
    rewrite Hs in H1, H2, H3 |- *. cbn [fst snd] in H1, H2, H3 |- *.
    exists cid, l. rewrite H1. cbn [fst conversation_id fallback_response].
    unfold stored_transcript. rewrite H3, Hl. cbn.
    rewrite (deref_insert _ _ _ _ H2). cbn. auto.
Qed.

(** *** The successful branch *)

Lemma last_handoff_target_last items t :
  last_handoff_target items = Some t <->
  exists pre src post,
    items = pre ++ HandoffOutputItem src t :: post /\
    existsb is_handoff post = false.
Proof.
  revert t. induction items as [|item items IH]; intros t; cbn.
  - split; [discriminate|]. intros (pre & src & post & H & _).
    destruct pre; discriminate.
  - destruct (last_handoff_target items) as [t'|] eqn:E.
    + split.
      * intros [= <-]. destruct (proj1 (IH t') eq_refl) as (pre & src & post & -> & Hp).
        exists (item :: pre), src, post. split; [reflexivity|exact Hp].
      * intros (pre & src & post & H & Hp). f_equal.
        destruct pre as [|x pre]; cbn in H; injection H as -> ->.
        -- assert (last_handoff_target post = None) as Hn.
           { clear -Hp. induction post as [|y post IHp]; [reflexivity|].
             cbn in Hp. apply orb_false_iff in Hp as [Hy Hp'].
             cbn. rewrite (IHp Hp'). destruct y; try reflexivity.
             discriminate. }
           congruence.
        -- assert (Some t' = Some t) as Hs by (apply (proj2 (IH t)); eauto).
           congruence.
    + assert (existsb is_handoff items = false) as Hn.
      { clear -E. induction items as [|y items IHi]; [reflexivity|].
        cbn in E. destruct (last_handoff_target items); [discriminate|].
        cbn. rewrite IHi by reflexivity.
        destruct y; try reflexivity. discriminate. }
      split.
      * destruct item; try discriminate. intros [= <-].
        exists [], source_agent, items. split; [reflexivity|exact Hn].
      * intros (pre & src & post & H & Hp).
        destruct pre as [|x pre]; cbn in H; injection H as -> ->;
          [reflexivity|].
        rewrite existsb_app in Hn. cbn in Hn.
        rewrite orb_true_r in Hn. discriminate.
Qed.

Lemma handoff_has_target items src tgt :
  In (HandoffOutputItem src tgt) items ->
  exists t, last_handoff_target items = Some t.
Proof.
  induction items as [|item items IH]; [intros []|].
  intros [->|H]; cbn.
  - destruct (last_handoff_target items); eauto.
  - destruct (IH H) as (t & ->). eauto.
Qed.

Lemma turn_of_request req w :
  runs_turn req w ->
  chat_endpoint ext req w
  = turn ext (start_id ext req w) (start_state ext req w) (req_message req)
         (start_world ext req w).
Proof. intros H. apply chat_endpoint_turn, runs_turn_strip, H. Qed.

(** C1 (as the code has it). After every turn whose primary invocation
    returns, the transcript the store holds for the conversation is the
    canonical transcript ([to_input_list]) of the primary invocation,
    whether or not a follow-up invocation ran and whatever it returned. *)
Theorem C1_persisted_transcript_is_primary_canonical req w result c :
  runs_turn req w ->
  request_outcome ext req w = Returns result c ->
  let out := chat_endpoint ext req w in
  stored_transcript out.2 (conversation_id out.1)
  = Some (to_input_list result).
Proof.
  intros Hr Ho. cbn zeta. rewrite (turn_of_request req w Hr).
  destruct (turn_success ext (start_id ext req w) _ _ _ _ _ Ho)
    as (Hid & _ & _ & _ & Hc & Hh & _).
  unfold stored_transcript. rewrite Hid, Hc, lookup_insert_eq. cbn.
  rewrite (deref_insert _ _ _ _ Hh). reflexivity.
Qed.

(** C6 (as the code has it). When the primary invocation of a turn
    produces a handoff item, the returned and stored current agent is the
    target of the last handoff item, and the turn makes exactly two calls
    of the runner: the primary one and one follow-up against that target,
    on the transcript with the user message appended. *)
Theorem C6_handoff_switches_to_last_target req w result c src tgt :
  runs_turn req w ->
  request_outcome ext req w = Returns result c ->
  In (HandoffOutputItem src tgt) (new_items result) ->
  let out := chat_endpoint ext req w in
  let ws := start_world ext req w in
  let l := start_state ext req w in
  let m := req_message req in
  exists pre last_src last_tgt post,
    new_items result = pre ++ HandoffOutputItem last_src last_tgt :: post /\
    existsb is_handoff post = false /\
    current_agent out.1 = name last_tgt /\
    st_current_agent (deref out.2 l) = name last_tgt /\
    runs out.2 = runs w + 2 /\
    exists tr,
      trace out.2 = trace w ++ tr /\
      List.filter is_run tr
      = [EvRun (primary_agent ws l) (InList (primary_input ws l m))
               (Some (st_context (deref ws l)));
         EvRun last_tgt (InList (followup_input ws l m))
               (Some (primary_context ext ws l m))].
Proof.
  intros Hr Ho Hin. cbn zeta. rewrite (turn_of_request req w Hr).
  destruct (handoff_has_target _ _ _ Hin) as (t & Ht).
  destruct (proj1 (last_handoff_target_last _ _) Ht)
    as (pre & s & post & Hi & Hp).
  destruct (turn_success ext (start_id ext req w) _ _ _ _ _ Ho)
    as (_ & Ha & _ & _ & _ & Hh & Hn & _ & tr & Htr & Hf & _).
  destruct (turn_start_frame req w) as (Ft & Fr & _).
  unfold final_agent, turn_runs in *. rewrite Ht in *. cbn in Ha, Hn, Hf, Hh.
  exists pre, s, t, post. rewrite (deref_insert _ _ _ _ Hh). cbn.
  rewrite Hn, Fr, Htr, Ft. repeat split; try assumption.
  exists tr. split; [reflexivity|exact Hf].
Qed.

Lemma context_changes_lookup (old new : AgentContext) k vn :
  context_changes old new !! k = Some vn <->
  new !! k = Some vn /\ default None (old !! k) <> vn.
Proof. unfold context_changes. apply map_lookup_filter_Some. Qed.

Lemma context_changes_empty (old new : AgentContext) :
  (forall k vn, new !! k = Some vn -> old !! k = Some vn) ->
  context_changes old new = ∅.
Proof.
  intros H. apply map_empty. intros k.
  destruct (context_changes old new !! k) as [v|] eqn:E; [|reflexivity].
  apply context_changes_lookup in E as [E1 E2].
  rewrite (H _ _ E1) in E2. cbn in E2. congruence.
Qed.

(** C8. In every turn that reaches the context diff, for every field
    that the context has both before and after the turn, the changes map
    holds the field, with its new value, if and only if its value changed,
    and does not hold it otherwise. When the map is empty, which is the
    case when no field changed, the response has no context_update event;
    otherwise its last event, and only that one, is a context_update event
    whose metadata is the map and whose agent is the returned current
    agent. *)
Theorem C8_context_diff_is_exact req w result c :
  runs_turn req w ->
  request_outcome ext req w = Returns result c ->
  let out := chat_endpoint ext req w in
  let old := st_context (deref (start_world ext req w) (start_state ext req w)) in
  let new := context out.1 in
  let changes := context_changes old new in
  (forall k vo vn,
      old !! k = Some vo -> new !! k = Some vn ->
      (changes !! k = Some vn <-> vo <> vn) /\
      (changes !! k = None <-> vo = vn)) /\
  ((forall k vn, new !! k = Some vn -> old !! k = Some vn) -> changes = ∅) /\
  (changes = ∅ -> existsb is_context_update (events out.1) = false) /\
  (changes <> ∅ ->
   exists es e,
     events out.1 = es ++ [e] /\
     existsb is_context_update es = false /\
     ev_type e = "context_update" /\
     ev_agent e = current_agent out.1 /\
     ev_metadata e = Some (MetaChanges changes)).
Proof.
  intros Hr Ho. cbn zeta. rewrite (turn_of_request req w Hr).
  destruct (turn_success ext (start_id ext req w) _ _ _ _ _ Ho)
    as (_ & Ha & Hc & (es & id & He & Hn) & _).
  rewrite Hc, Ha, He. unfold context_update_events.
  set (old := st_context _). set (new := final_context _ _ _ _ _).
  split; [|split; [apply context_changes_empty|split]].
  - intros k vo vn Hold Hnew. split.
    + rewrite context_changes_lookup, Hold. cbn. split.
      * intros [_ H]. exact H.
      * intros H. split; [exact Hnew|exact H].
    + destruct (context_changes old new !! k) as [v|] eqn:E.
      * apply context_changes_lookup in E as [E1 E2].
        rewrite Hold in E2. cbn in E2. split; [discriminate|].
        intros ->. congruence.
      * split; [|reflexivity]. intros _.
        destruct (decide (vo = vn)) as [|Hne]; [assumption|].
        assert (context_changes old new !! k = Some vn) as E'
          by (apply context_changes_lookup; rewrite Hold; auto).
        congruence.
  - intros H. rewrite decide_True by exact H. rewrite app_nil_r. exact Hn.
  - intros H. rewrite decide_False by exact H.
    eexists es, _. repeat split. exact Hn.
Qed.

(** *** The caching, retrying caller *)

Lemma failing_schedule_attempts max_retries range :
  length (List.filter is_attempt (failing_schedule max_retries range))
  = length range.
Proof.
  induction range as [|a range IH]; [reflexivity|].
  change (failing_schedule max_retries (a :: range))
    with ((StepAttempt :: if a <? max_retries - 1
                          then [StepSleep (backoff a)] else [])
          ++ failing_schedule max_retries range).
  rewrite List.filter_app, length_app, IH.
  destruct (a <? max_retries - 1); reflexivity.
Qed.

Lemma filter_run_steps tr :
  length (List.filter is_run tr)
  = length (List.filter is_attempt (map step_of tr)).
Proof.
  induction tr as [|e tr IH]; [reflexivity|].
  destruct e; cbn; rewrite ?IH; reflexivity.
Qed.

Lemma filter_wait_steps tr :
  length (List.filter is_wait tr)
  = length (List.filter (fun s => match s with StepWait => true | _ => false end)
                        (map step_of tr)).
Proof.
  induction tr as [|e tr IH]; [reflexivity|].
  destruct e; cbn; rewrite ?IH; reflexivity.
Qed.

Lemma failing_schedule_no_wait max_retries range :
  List.filter (fun s => match s with StepWait => true | _ => false end)
              (failing_schedule max_retries range) = [].
Proof.
  induction range as [|a range IH]; [reflexivity|].
  change (failing_schedule max_retries (a :: range))
    with ((StepAttempt :: if a <? max_retries - 1
                          then [StepSleep (backoff a)] else [])
          ++ failing_schedule max_retries range).
  rewrite List.filter_app, IH.
  destruct (a <? max_retries - 1); reflexivity.
Qed.

Lemma rate_sleep_no_wait_step w :
  List.filter (fun s => match s with StepWait => true | _ => false end)
              (map step_of (rate_sleep w)) = [].
Proof. unfold rate_sleep. destruct (Qlt_bool _ _); reflexivity. Qed.

Lemma rate_sleep_no_attempt_step w :
  List.filter is_attempt (map step_of (rate_sleep w)) = [].
Proof. unfold rate_sleep. destruct (Qlt_bool _ _); reflexivity. Qed.

(** C3 (as the code has it). When the runner fails on every attempt and
    the cache has no live entry for the call, [run_with_optimization]
    waits for the rate limiter once, before the first attempt, makes
    exactly [max_retries] attempts, sleeps [RETRY_DELAY * 2 ** attempt]
    after every failed attempt but the last, and returns, without raising,
    a fallback response whose list of produced items is empty and whose
    canonical transcript is the empty list; nothing is cached. *)
Theorem C3_exhausted_retries_give_fallback self input ctx max_retries w :
  always_fails ext ->
  (get_cached_response (_create_cache_key ext self input ctx) w).1 = None ->
  let out := run_with_optimization ext self input ctx max_retries w in
  out.1 = FallbackResponse fallback_message /\
  response_new_items out.1 = [] /\
  response_to_input_list out.1 = [] /\
  response_cache out.2 !! _create_cache_key ext self input ctx = None /\
  runs out.2 = runs w + max_retries /\
  exists tr,
    trace out.2 = trace w ++ tr /\
    map step_of tr
    = StepWait :: map step_of (rate_sleep w)
        ++ failing_schedule max_retries (seq 0 max_retries) /\
    length (List.filter is_run tr) = max_retries /\
    length (List.filter is_wait tr) = 1.
Proof.
  intros Hf Hm. cbn zeta. unfold run_with_optimization.
  set (key := _create_cache_key ext self input ctx) in *.
  rewrite bind_run, Hm, bind_run. cbn [fst snd].
  destruct (get_cached_frame key w) as (Gt & Gr & Gl & Glt & _ & Gc).
  set (w0 := (get_cached_response key w).2) in *.
  destruct (rate_limiter_wait_frame w0) as (_ & _ & Rr & _ & Rc & _).
  pose proof (rate_limiter_wait_trace w0) as Rt.
  set (w1 := (rate_limiter_wait w0).2) in *.
  destruct (attempts_all_fail ext self key input (_optimize_input input)
              max_retries Hf max_retries 0 (_optimize_context ext ctx) None w1
              eq_refl) as (A1 & A2 & A3 & _ & tr & A4 & A5).
  rewrite A1, A2, A3, A4, Rr, Gr, Rc, Rt, Gt, (Gc Hm).
  rewrite (rate_sleep_clocks w w0 Glt Gl).
  repeat split.
  eexists. split; [rewrite <- app_assoc; reflexivity|].
  assert (map step_of ((EvRateWait :: rate_sleep w) ++ tr)
          = StepWait :: map step_of (rate_sleep w)
              ++ failing_schedule max_retries (seq 0 max_retries)) as E
    by (cbn; rewrite map_app, A5; reflexivity).
  split; [exact E|].
  change (StepWait :: map step_of (rate_sleep w)
            ++ failing_schedule max_retries (seq 0 max_retries))
    with ([StepWait] ++ map step_of (rate_sleep w)
            ++ failing_schedule max_retries (seq 0 max_retries)) in E.
  split.
  - rewrite filter_run_steps, E, !List.filter_app, !length_app.
    rewrite failing_schedule_attempts, length_seq, rate_sleep_no_attempt_step.
    reflexivity.
  - rewrite filter_wait_steps, E, !List.filter_app, !length_app.
    rewrite failing_schedule_no_wait, rate_sleep_no_wait_step.
    reflexivity.
Qed.

(** C4 (as the code has it). The cache key of [run_with_optimization] is
    the MD5 digest of the JSON object, with sorted keys, that holds [str]
    of the input as it was given, [str] of the context object as it was
    given (null when there is none), the agent name and the model of the
    wrapper: it is computed before any trimming. On a miss whose first
    attempt succeeds the result is cached under that key, with the time of
    the call, while the runner receives the trimmed input and the
    allow-listed context. *)
Theorem C4_cache_key_is_over_untrimmed_input self input ctx n w r c :
  (get_cached_response (raw_fingerprint ext self input ctx) w).1 = None ->
  Runner_run ext (runs w) (oa_agent self) (_optimize_input input)
             (_optimize_context ext ctx) = Returns r c ->
  0 < n ->
  let out := run_with_optimization ext self input ctx n w in
  _create_cache_key ext self input ctx = raw_fingerprint ext self input ctx /\
  out.1 = RunResultObj r /\
  response_cache out.2 !! raw_fingerprint ext self input ctx
  = Some {| ce_response := r; ce_timestamp := wall_time out.2 |} /\
  exists tr,
    trace out.2
    = trace w ++ tr ++ [EvRun (oa_agent self) (_optimize_input input)
                              (_optimize_context ext ctx)] /\
    List.filter is_run tr = [].
Proof.
  intros Hm Hr Hn. cbn zeta. split; [reflexivity|].
  unfold run_with_optimization.
  change (_create_cache_key ext self input ctx)
    with (raw_fingerprint ext self input ctx).
  set (key := raw_fingerprint ext self input ctx) in *.
  rewrite bind_run, Hm, bind_run. cbn [fst snd].
  destruct (get_cached_frame key w) as (Gt & Gr & Gl & Glt & _ & _).
  set (w0 := (get_cached_response key w).2) in *.
  destruct (rate_limiter_wait_frame w0) as (_ & _ & Rr & _ & _ & _).
  pose proof (rate_limiter_wait_trace w0) as Rt.
  set (w1 := (rate_limiter_wait w0).2) in *.
  destruct n as [|n]; [lia|]. cbn [seq attempts].
  rewrite bind_run, run_run. cbn [fst snd]. rewrite Rr, Gr, Hr.
  unfold cache_response. cbn [CACHE_RESPONSES negb]. mrun. cbn.
  rewrite lookup_insert_eq, Rt, Gt. split; [reflexivity|].
  split; [reflexivity|].
  exists (EvRateWait :: rate_sleep w0). split.
  - rewrite <- app_assoc. reflexivity.
  - cbn. apply filter_run_rate_sleep.
Qed.

(** C5. When a call of [run_with_optimization] returns a result, the
    cache holds that result under the key of the call (stamped, when the
    call was a miss, with the time of its return), and every later call
    with the same agent, input and context that finds this entry less than
    [CACHE_TTL] after its timestamp returns the same result and leaves the
    world exactly as it found it: no rate-limiter wait, no call of the
    runner, the same last-grant timestamp. *)
Theorem C5_cache_hit_returns_cached_result self input ctx n w r w1 :
  run_with_optimization ext self input ctx n w = (RunResultObj r, w1) ->
  exists entry,
    response_cache w1 !! _create_cache_key ext self input ctx = Some entry /\
    ce_response entry = r /\
    ((get_cached_response (_create_cache_key ext self input ctx) w).1 = None ->
     ce_timestamp entry = wall_time w1) /\
    forall n2 w2,
      response_cache w2 !! _create_cache_key ext self input ctx = Some entry ->
      (wall_time w2 - ce_timestamp entry < CACHE_TTL)%Q ->
      let out := run_with_optimization ext self input ctx n2 w2 in
      out = (RunResultObj r, w2) /\
      trace out.2 = trace w2 /\ runs out.2 = runs w2 /\
      last_request out.2 = last_request w2.
Proof.
  intros H.
  assert (forall entry n2 w2,
    ce_response entry = r ->
    response_cache w2 !! _create_cache_key ext self input ctx = Some entry ->
    (wall_time w2 - ce_timestamp entry < CACHE_TTL)%Q ->
    let out := run_with_optimization ext self input ctx n2 w2 in
    out = (RunResultObj r, w2) /\
    trace out.2 = trace w2 /\ runs out.2 = runs w2 /\
    last_request out.2 = last_request w2) as Hit.
  { intros entry n2 w2 <- He Ht. cbn zeta. unfold run_with_optimization.
    rewrite bind_run, (get_cached_hit _ _ _ He Ht). cbn. auto. }
  unfold run_with_optimization in H. rewrite bind_run in H.
  set (key := _create_cache_key ext self input ctx) in *.
  destruct (get_cached_response key w).1 as [r'|] eqn:E.
  - destruct (get_cached_some key w r' E) as (entry & He & Hr & Ht & Hw).
    rewrite Hw in H. cbn in H. injection H as <- <-.
    exists entry. split; [exact He|]. split; [exact Hr|].
    split; [discriminate|]. intros n2 w2. apply Hit. exact Hr.
  - rewrite bind_run in H. cbn [fst snd] in H.
    match type of H with ?a = _ =>
      assert (a.1 = RunResultObj r) as H1 by (rewrite H; reflexivity);
      assert (a.2 = w1) as H2 by (rewrite H; reflexivity)
    end.
    pose proof (attempts_returns ext _ _ _ _ _ _ _ _ _ _ H1) as Hc.
    cbn zeta in Hc. rewrite H2 in Hc.
    eexists. split; [exact Hc|]. split; [reflexivity|].
    split; [reflexivity|]. intros n2 w2. apply Hit. reflexivity.
Qed.

(** C9 (the trimming that the code does perform). A transcript longer
    than [MAX_CONVERSATION_HISTORY] is cut to its first entry followed by
    its last [MAX_CONVERSATION_HISTORY - 1] entries, all of them as they
    were; a transcript that is not longer keeps its entries, each with a
    text longer than [MAX_CONTEXT_LENGTH] cut to that many characters and
    three dots. *)
Lemma optimize_input_list l :
  _optimize_input (InList l)
  = if MAX_CONVERSATION_HISTORY <? length l
    then InList (firstn 1 l ++ Py.last_slice (MAX_CONVERSATION_HISTORY - 1) l)
    else InList (map optimize_item l).
Proof. reflexivity. Qed.
End Claims.

(** ** The results on sample data *)

Lemma failing_ext_always_fails : always_fails failing_ext.
Proof.
  intros n agent input ctx. exists "connection error", None.
  destruct n; reflexivity.
Qed.

(** C1, sample turn: a new conversation whose primary run hands off to the
    FAQ agent; the stored transcript is the one of the primary run. *)
Lemma C1_witness :
  runs_turn req_hello world0 /\
  request_outcome handoff_ext req_hello world0 = Returns res_handoff None /\
  stored_transcript (chat_endpoint handoff_ext req_hello world0).2
    (conversation_id (chat_endpoint handoff_ext req_hello world0).1)
  = Some (to_input_list res_handoff).
Proof.
  assert (runs_turn req_hello world0) as H1 by (right; reflexivity).
  assert (request_outcome handoff_ext req_hello world0
          = Returns res_handoff None) as H2 by (vm_compute; reflexivity).
  split; [exact H1|]. split; [exact H2|].
  exact (C1_persisted_transcript_is_primary_canonical
           handoff_ext req_hello world0 res_handoff None H1 H2).
Defined.

(** C1 as stated fails: the follow-up run after the handoff succeeds, and
    the stored transcript is not its canonical transcript. *)
Lemma C1_counterexample :
  let out := chat_endpoint handoff_ext req_hello world0 in
  let ws := start_world handoff_ext req_hello world0 in
  let l := start_state handoff_ext req_hello world0 in
  request_outcome handoff_ext req_hello world0 = Returns res_handoff None /\
  last_handoff_target (new_items res_handoff) = Some simple_faq_agent /\
  followup_outcome handoff_ext ws l "hello" simple_faq_agent
  = Returns res_followup None /\
  length (List.filter is_run (trace out.2)) = 2 /\
  messages out.1 = [{| msg_content := "You may bring one bag.";
                       msg_agent := "FAQ Agent" |}] /\
  stored_transcript out.2 (conversation_id out.1)
  <> Some (to_input_list res_followup).
Proof.
  cbn zeta. repeat split; try (vm_compute; reflexivity).
  apply (bool_decide_eq_false_1 _). vm_compute. reflexivity.
Qed.

(** C2, sample turn: a new conversation whose primary run raises. *)
Lemma C2_witness :
  runs_turn req_hello world0 /\
  request_outcome failing_ext req_hello world0
  = Raises "connection error" None /\
  fallback_turn failing_ext req_hello world0
                (chat_endpoint failing_ext req_hello world0) /\
  fallback_turn failing_ext req_hello world0
                (SimpleApi.chat_endpoint failing_ext req_hello world0).
Proof.
  assert (runs_turn req_hello world0) as H1 by (right; reflexivity).
  assert (request_outcome failing_ext req_hello world0
          = Raises "connection error" None) as H2 by (vm_compute; reflexivity).
  split; [exact H1|]. split; [exact H2|].
  exact (C2_fallback_appends_apology_without_event
           failing_ext req_hello world0 "connection error" None H1 H2).
Defined.

(** C2 as stated fails: the response of the handler has one message but no
    event, and on a new conversation nothing is stored under the returned
    id. *)
Lemma C2_counterexample :
  let out := chat_endpoint failing_ext req_hello world0 in
  request_outcome failing_ext req_hello world0
  = Raises "connection error" None /\
  length (messages out.1) = 1 /\
  length (events out.1) = 0 /\
  List.filter is_save (trace out.2) = [] /\
  conversations out.2 !! conversation_id out.1 = None.
Proof. cbn zeta. repeat split; vm_compute; reflexivity. Qed.

(** C3, sample call: three failing attempts with the default
    [MAX_RETRIES]. *)
Lemma C3_witness :
  let out := run_with_optimization failing_ext triage_caller
               (InList [user_entry "hello"]) None MAX_RETRIES world0 in
  out.1 = FallbackResponse fallback_message /\
  response_new_items out.1 = [] /\
  response_to_input_list out.1 = [] /\
  response_cache out.2
    !! _create_cache_key failing_ext triage_caller
         (InList [user_entry "hello"]) None = None /\
  runs out.2 = runs world0 + MAX_RETRIES /\
  exists tr,
    trace out.2 = trace world0 ++ tr /\
    map step_of tr
    = StepWait :: map step_of (rate_sleep world0)
        ++ failing_schedule MAX_RETRIES (seq 0 MAX_RETRIES) /\
    length (List.filter is_run tr) = MAX_RETRIES /\
    length (List.filter is_wait tr) = 1.
Proof.
  apply (C3_exhausted_retries_give_fallback failing_ext triage_caller
           (InList [user_entry "hello"]) None MAX_RETRIES world0).
  - exact failing_ext_always_fails.
  - vm_compute. reflexivity.
Defined.

(** The schedule of a caller that fails three times: two backoff sleeps,
    of 2 and 4 seconds. *)
Lemma failing_schedule_default :
  failing_schedule MAX_RETRIES (seq 0 MAX_RETRIES)
  = [StepAttempt; StepSleep (2 * 1); StepAttempt; StepSleep (2 * 2);
     StepAttempt].
Proof. reflexivity. Qed.

(** C3 as stated fails: the three attempts are preceded by one
    rate-limiter wait in all, and the canonical transcript of the fallback
    is empty, not the input transcript. *)
Lemma C3_counterexample :
  let input := [user_entry "hello"] in
  let out := run_with_optimization failing_ext triage_caller (InList input)
               None MAX_RETRIES world0 in
  always_fails failing_ext /\
  length (List.filter is_run (trace out.2)) = 3 /\
  length (List.filter is_wait (trace out.2)) = 1 /\
  response_to_input_list out.1 = [] /\
  response_to_input_list out.1 <> input.
Proof.
  cbn zeta. split; [exact failing_ext_always_fails|].
  repeat split; try (vm_compute; reflexivity).
  apply (bool_decide_eq_false_1 _). vm_compute. reflexivity.
Qed.

(** C4, sample call: an input of 4001 characters is cached under the
    digest of the input as given, while the runner gets the trimmed one. *)
Lemma C4_witness :
  let ext := scripted [Returns res_answer None] in
  let out := run_with_optimization ext triage_caller (long_input "b") None
               MAX_RETRIES world0 in
  _create_cache_key ext triage_caller (long_input "b") None
  = raw_fingerprint ext triage_caller (long_input "b") None /\
  out.1 = RunResultObj res_answer /\
  response_cache out.2 !! raw_fingerprint ext triage_caller (long_input "b") None
  = Some {| ce_response := res_answer; ce_timestamp := wall_time out.2 |} /\
  exists tr,
    trace out.2
    = trace world0 ++ tr
        ++ [EvRun (oa_agent triage_caller) (_optimize_input (long_input "b"))
                  (_optimize_context ext None)] /\
    List.filter is_run tr = [].
Proof.
  apply (C4_cache_key_is_over_untrimmed_input
           (scripted [Returns res_answer None]) triage_caller (long_input "b")
           None MAX_RETRIES world0 res_answer None).
  - vm_compute. reflexivity.
  - vm_compute. reflexivity.
  - unfold MAX_RETRIES. lia.
Defined.

(** C4 as stated fails: two inputs with the same trimmed form have
    different keys, and the key is not the digest over the trimmed input. *)
Lemma C4_counterexample :
  _optimize_input (long_input "b") = _optimize_input (long_input "c") /\
  _create_cache_key failing_ext triage_caller (long_input "b") None
  <> _create_cache_key failing_ext triage_caller (long_input "c") None /\
  _create_cache_key failing_ext triage_caller (long_input "b") None
  <> trimmed_fingerprint failing_ext triage_caller (long_input "b") None.
Proof.
  split; [vm_compute; reflexivity|].
  split; apply (bool_decide_eq_false_1 _); vm_compute; reflexivity.
Qed.

(** C5, sample calls: a first call that reaches the runner, and later
    calls that find its entry. *)
Lemma C5_witness :
  exists entry,
    response_cache world_after_call
      !! _create_cache_key answer_once triage_caller baggage_question None
    = Some entry /\
    ce_response entry = res_answer /\
    ((get_cached_response
        (_create_cache_key answer_once triage_caller baggage_question None)
        world0).1 = None ->
     ce_timestamp entry = wall_time world_after_call) /\
    forall n2 w2,
      response_cache w2
        !! _create_cache_key answer_once triage_caller baggage_question None
      = Some entry ->
      (wall_time w2 - ce_timestamp entry < CACHE_TTL)%Q ->
      let out := run_with_optimization answer_once triage_caller
                   baggage_question None n2 w2 in
      out = (RunResultObj res_answer, w2) /\
      trace out.2 = trace w2 /\ runs out.2 = runs w2 /\
      last_request out.2 = last_request w2.
Proof.
  apply (C5_cache_hit_returns_cached_result answer_once triage_caller
           baggage_question None MAX_RETRIES world0 res_answer world_after_call).
  vm_compute. reflexivity.
Defined.

(** C6, sample turn: the handoff to the FAQ agent. *)
Lemma C6_witness :
  let out := chat_endpoint handoff_ext req_hello world0 in
  let ws := start_world handoff_ext req_hello world0 in
  let l := start_state handoff_ext req_hello world0 in
  let m := req_message req_hello in
  exists pre last_src last_tgt post,
    new_items res_handoff = pre ++ HandoffOutputItem last_src last_tgt :: post /\
    existsb is_handoff post = false /\
    current_agent out.1 = name last_tgt /\
    st_current_agent (deref out.2 l) = name last_tgt /\
    runs out.2 = runs world0 + 2 /\
    exists tr,
      trace out.2 = trace world0 ++ tr /\
      List.filter is_run tr
      = [EvRun (primary_agent ws l) (InList (primary_input ws l m))
               (Some (st_context (deref ws l)));
         EvRun last_tgt (InList (followup_input ws l m))
               (Some (primary_context handoff_ext ws l m))].
Proof.
  apply (C6_handoff_switches_to_last_target handoff_ext req_hello world0
           res_handoff None simple_triage_agent simple_faq_agent).
  - right. reflexivity.
  - vm_compute. reflexivity.
  - left. reflexivity.
Defined.

(** C6 as stated fails: the primary run hands off to the FAQ agent and
    back, and the returned current agent is the agent the turn started
    with. *)
Lemma C6_counterexample :
  let out := chat_endpoint bounce_ext req_hello world0 in
  let ws := start_world bounce_ext req_hello world0 in
  let l := start_state bounce_ext req_hello world0 in
  request_outcome bounce_ext req_hello world0 = Returns res_bounce None /\
  In (HandoffOutputItem simple_faq_agent simple_triage_agent)
     (new_items res_bounce) /\
  name (primary_agent ws l) = "Triage Agent" /\
  current_agent out.1 = "Triage Agent" /\
  length (List.filter is_run (trace out.2)) = 2.
Proof.
  cbn zeta. repeat split; try (vm_compute; reflexivity).
  right. left. reflexivity.
Qed.

(** C8, sample turn: on conversation ["c1"] a tool records a confirmation
    number. *)
Lemma C8_witness :
  let out := chat_endpoint answering_ext req_c1 world1 in
  let old := st_context (deref (start_world answering_ext req_c1 world1)
                               (start_state answering_ext req_c1 world1)) in
  let new := context out.1 in
  let changes := context_changes old new in
  (forall k vo vn,
      old !! k = Some vo -> new !! k = Some vn ->
      (changes !! k = Some vn <-> vo <> vn) /\
      (changes !! k = None <-> vo = vn)) /\
  ((forall k vn, new !! k = Some vn -> old !! k = Some vn) -> changes = ∅) /\
  (changes = ∅ -> existsb is_context_update (events out.1) = false) /\
  (changes <> ∅ ->
   exists es e,
     events out.1 = es ++ [e] /\
     existsb is_context_update es = false /\
     ev_type e = "context_update" /\
     ev_agent e = current_agent out.1 /\
     ev_metadata e = Some (MetaChanges changes)).
Proof.
  apply (C8_context_diff_is_exact answering_ext req_c1 world1 res_answer
           (Some (<["confirmation_number" := Some "ABC123"]>
                    (sample_context (Some "12345678"))))).
  - left. reflexivity.
  - vm_compute. reflexivity.
Defined.

(** The changes map of the sample turn holds the one field that changed. *)
Lemma C8_sample_changes :
  let out := chat_endpoint answering_ext req_c1 world1 in
  context_changes (sample_context (Some "12345678")) (context out.1)
  = <["confirmation_number" := Some "ABC123"]> ∅ /\
  map ev_type (events out.1)
  = ["tool_call"; "tool_output"; "message"; "context_update"].
Proof. cbn zeta. split; vm_compute; reflexivity. Qed.

(** C9, failing input: a transcript of eleven entries, the last one 4001
    characters long, is cut to ten entries and the long entry is passed on
    whole, while the same entry in a short transcript is cut to
    [MAX_CONTEXT_LENGTH] characters and three dots. *)
Theorem C9_long_history_is_not_truncated :
  let long := user_entry (Py.repeat_string "a" 4001) in
  _optimize_input (InList long_transcript)
  = InList (repeat (user_entry "hi") 9 ++ [long]) /\
  (exists c, long !! "content" = Some c /\ String.length c = 4001 /\
             MAX_CONTEXT_LENGTH < String.length c) /\
  _optimize_input (InList [long])
  = InList [user_entry (Py.repeat_string "a" 4000 ++ "...")].
Proof.
  cbn zeta. split; [vm_compute; reflexivity|]. split.
  - eexists. split; [vm_compute; reflexivity|].
    split; [vm_compute; reflexivity|].
    apply Nat.ltb_lt. vm_compute. reflexivity.
  - vm_compute. reflexivity.
Qed.

(** C10, sample turns: a failing turn on a new conversation and one on the
    stored conversation ["c1"]. *)
Lemma C10_witness :
  (let req := req_hello in
   let w := world0 in
   let out := chat_endpoint failing_ext req w in
   let m := req_message req in
   conversations out.2 = conversations w /\
   List.filter is_save (trace out.2) = List.filter is_save (trace w) /\
   (is_new req w = true ->
    let l := fresh (dom (heap w)) in
    conversation_id out.1 = uuid4_hex failing_ext (draws w) /\
    st_input_items (deref out.2 l)
    = [user_entry m; assistant_entry api_fallback_message] /\
    (store_wf w -> forall cid, conversations out.2 !! cid <> Some l) /\
    (conversations w !! uuid4_hex failing_ext (draws w) = None ->
     stored_transcript out.2 (conversation_id out.1) = None)) /\
   (is_new req w = false ->
    exists cid l,
      req_conversation_id req = Some cid /\
      conversations w !! cid = Some l /\
      conversation_id out.1 = cid /\
      conversations out.2 !! cid = Some l /\
      stored_transcript out.2 cid
      = Some (st_input_items (deref w l)
                ++ [user_entry m; assistant_entry api_fallback_message]))) /\
  (let req := req_c1 in
   let w := world1 in
   let out := chat_endpoint failing_ext req w in
   let m := req_message req in
   conversations out.2 = conversations w /\
   List.filter is_save (trace out.2) = List.filter is_save (trace w) /\
   (is_new req w = true ->
    let l := fresh (dom (heap w)) in
    conversation_id out.1 = uuid4_hex failing_ext (draws w) /\
    st_input_items (deref out.2 l)
    = [user_entry m; assistant_entry api_fallback_message] /\
    (store_wf w -> forall cid, conversations out.2 !! cid <> Some l) /\
    (conversations w !! uuid4_hex failing_ext (draws w) = None ->
     stored_transcript out.2 (conversation_id out.1) = None)) /\
   (is_new req w = false ->
    exists cid l,
      req_conversation_id req = Some cid /\
      conversations w !! cid = Some l /\
      conversation_id out.1 = cid /\
      conversations out.2 !! cid = Some l /\
      stored_transcript out.2 cid
      = Some (st_input_items (deref w l)
                ++ [user_entry m; assistant_entry api_fallback_message]))).
Proof.
  split.
  - apply (C10_fallback_persists_only_by_aliasing failing_ext req_hello world0
             "connection error" None).
    + right. reflexivity.
    + vm_compute. reflexivity.
  - apply (C10_fallback_persists_only_by_aliasing failing_ext req_c1 world1
             "connection error" None).
    + left. reflexivity.
    + vm_compute. reflexivity.
Defined.

(** The two sample turns of C10, evaluated: nothing is stored for the new
    conversation, and the stored transcript of ["c1"] has grown by the user
    message and the apology. *)
Lemma C10_sample_turns :
  stored_transcript (chat_endpoint failing_ext req_hello world0).2
    (conversation_id (chat_endpoint failing_ext req_hello world0).1) = None /\
  stored_transcript (chat_endpoint failing_ext req_c1 world1).2 "c1"
  = Some [user_entry "hi"; assistant_entry "Hello, how can I help?";
          user_entry "What is the baggage policy?";
          assistant_entry api_fallback_message].
Proof. split; vm_compute; reflexivity. Qed.

(** C7, sample requests: a blank first message, and a blank message on the
    stored conversation ["c1"]. *)
Lemma C7_sample_requests :
  short_circuited failing_ext world0 (chat_endpoint failing_ext req_blank world0) /\
  is_new req_c1_blank world1 = false /\
  runs (chat_endpoint answering_ext req_c1_blank world1).2 = 1.
Proof.
  split; [|split; vm_compute; reflexivity].
  apply (short_circuit_holds failing_ext req_blank world0); auto.
Qed.

(** ** Further properties: config.py *)

Lemma Qlt_bool_false x y : Qlt_bool x y = false <-> (y <= x)%Q.
Proof.
  unfold Qlt_bool. rewrite negb_false_iff. apply Qle_bool_iff.
Qed.




(** X3. What [cache_response] stores is what [get_cached_response] gives
    back: a lookup of the key right after caching returns the cached
    response and changes nothing, and lookups of other keys see the cache
    as it was. *)
Theorem cached_response_is_found key response w :
  let w1 := (cache_response key response w).2 in
  get_cached_response key w1 = (Some response, w1) /\
  forall key', key' <> key ->
               response_cache w1 !! key' = response_cache w !! key'.
Proof.
  cbn zeta. unfold cache_response. cbn [CACHE_RESPONSES negb]. mrun.
  split.
  - eapply (get_cached_hit key _ {| ce_response := response;
                                    ce_timestamp := wall_time w |}).
    + cbn. apply lookup_insert_eq.
    + cbn. unfold CACHE_TTL. lra.
  - intros key' Hne. cbn. apply lookup_insert_ne. congruence.
Qed.

(** X4. An entry that is [CACHE_TTL] old or older is not returned: the
    lookup answers [None] and removes that entry from the cache, leaving
    every other entry in place. *)
Theorem expired_entry_is_evicted key entry w :
  response_cache w !! key = Some entry ->
  (CACHE_TTL <= wall_time w - ce_timestamp entry)%Q ->
  let out := get_cached_response key w in
  out.1 = None /\
  response_cache out.2 = delete key (response_cache w) /\
  response_cache out.2 !! key = None /\
  forall key', key' <> key ->
               response_cache out.2 !! key' = response_cache w !! key'.
Proof.
  intros He Ht. apply Qlt_bool_false in Ht. cbn zeta.
  unfold get_cached_response. cbn [CACHE_RESPONSES negb].
  rewrite bind_run. cbn [fst snd gets]. rewrite He, bind_run.
  cbn [fst snd gets]. rewrite Ht, bind_run. cbn.
  repeat split.
  - apply lookup_delete_eq.
  - intros key' Hne. apply lookup_delete_ne. congruence.
Qed.

Lemma expired_entry_is_evicted_witness :
  response_cache world_stale !! "key"
  = Some {| ce_response := res_answer; ce_timestamp := 1699999699 |} /\
  (get_cached_response "key" world_stale).1 = None /\
  response_cache (get_cached_response "key" world_stale).2
  = delete "key" (response_cache world_stale) /\
  response_cache (get_cached_response "key" world_stale).2 !! "key" = None /\
  forall key', key' <> "key" ->
               response_cache (get_cached_response "key" world_stale).2 !! key'
               = response_cache world_stale !! key'.
Proof.
  assert (response_cache world_stale !! "key"
          = Some {| ce_response := res_answer; ce_timestamp := 1699999699 |})
    as H1 by (vm_compute; reflexivity).
  split; [exact H1|].
  apply (expired_entry_is_evicted "key" _ world_stale H1).
  vm_compute. discriminate.
Defined.

(** ** Further properties: optimized_agents.py *)

Section CallerExtras.
Variable ext : External.




Lemma attempts_until_success self key input oinput max_retries r :
  forall failures k ctx last w,
    k + failures < max_retries ->
    (forall i c, i < failures ->
       exists e c', Runner_run ext (runs w + i) (oa_agent self) oinput c
                    = Raises e c') ->
    (forall c, exists c', Runner_run ext (runs w + failures) (oa_agent self)
                                     oinput c = Returns r c') ->
    let out := attempts ext self key input oinput max_retries
                        (seq k (max_retries - k)) ctx last w in
    out.1 = RunResultObj r /\
    runs out.2 = runs w + S failures /\
    response_cache out.2 !! key
    = Some {| ce_response := r; ce_timestamp := wall_time out.2 |} /\
    exists tr,
      trace out.2 = trace w ++ tr /\
      map step_of tr
      = flat_map (fun a => [StepAttempt; StepSleep (backoff a)]) (seq k failures)
          ++ [StepAttempt].
Proof.
  induction failures as [|failures IH]; intros k ctx last w Hk Hf Hs; cbn zeta.
  - destruct (max_retries - k) as [|len] eqn:El; [lia|].
    cbn [seq attempts]. rewrite bind_run, run_run. cbn [fst snd].
    destruct (Hs ctx) as (c' & Hr). rewrite Nat.add_0_r in Hr. rewrite Hr.
    unfold cache_response. cbn [CACHE_RESPONSES negb]. mrun. cbn.
    rewrite lookup_insert_eq. repeat split; [lia|].
    eexists. split; reflexivity.
  - destruct (max_retries - k) as [|len] eqn:El; [lia|].
    cbn [seq attempts]. rewrite bind_run, run_run. cbn [fst snd].
    destruct (Hf 0 ctx ltac:(lia)) as (e & c' & Hr).
    rewrite Nat.add_0_r in Hr. rewrite Hr.
    assert ((k <? max_retries - 1) = true) as -> by (apply Nat.ltb_lt; lia).
    rewrite bind_run, asyncio_sleep_run. cbn [fst snd].
    assert (len = max_retries - S k) as -> by lia.
    match goal with |- context [attempts _ _ _ _ _ _ _ ?c1 ?l1 ?w1] =>
      pose proof (IH (S k) c1 l1 w1) as IH';
      change (runs w1) with (S (runs w)) in IH';
      change (trace w1)
        with ((trace w ++ [EvRun (oa_agent self) oinput ctx])
                ++ [EvSleep (RETRY_DELAY * inject_Z (2 ^ Z.of_nat k))]) in IH'
    end.
    destruct IH' as (R1 & R2 & R3 & tr & R4 & R5).
    + lia.
    + intros i c Hi.
      replace (S (runs w) + i) with (runs w + S i) by lia. apply Hf. lia.
    + intros c.
      replace (S (runs w) + failures) with (runs w + S failures) by lia.
      apply Hs.
    + rewrite R1, R2, R3, R4. repeat split; [lia|].
      eexists. split; [rewrite <- !app_assoc; reflexivity|].
      cbn. rewrite R5. reflexivity.
Qed.

(** X6. When the first [failures] attempts of a call fail and the next one
    succeeds, with [failures < max_retries], [run_with_optimization] returns
    the result of that attempt and caches it; it has waited for the rate
    limiter once and made [failures + 1] calls of the runner, with a backoff
    sleep of [RETRY_DELAY * 2 ** attempt] after each failed attempt. *)
Theorem caller_retries_until_success self input ctx max_retries w failures r :
  (get_cached_response (_create_cache_key ext self input ctx) w).1 = None ->
  failures < max_retries ->
  (forall i c, i < failures ->
     exists e c', Runner_run ext (runs w + i) (oa_agent self)
                             (_optimize_input input) c = Raises e c') ->
  (forall c, exists c', Runner_run ext (runs w + failures) (oa_agent self)
                                   (_optimize_input input) c = Returns r c') ->
  let out := run_with_optimization ext self input ctx max_retries w in
  out.1 = RunResultObj r /\
  runs out.2 = runs w + S failures /\
  response_cache out.2 !! _create_cache_key ext self input ctx
  = Some {| ce_response := r; ce_timestamp := wall_time out.2 |} /\
  exists tr,
    trace out.2 = trace w ++ tr /\
    map step_of tr
    = StepWait :: map step_of (rate_sleep w) ++ retry_schedule failures.
Proof.
  intros Hm Hlt Hf Hs. cbn zeta. unfold run_with_optimization.
  set (key := _create_cache_key ext self input ctx) in *.
  rewrite bind_run, Hm, bind_run. cbn [fst snd].
  destruct (get_cached_frame key w) as (Gt & Gr & Gl & Glt & _ & _).
  set (w0 := (get_cached_response key w).2) in *.
  destruct (rate_limiter_wait_frame w0) as (_ & _ & Rr & _ & _ & _).
  pose proof (rate_limiter_wait_trace w0) as Rt.
  set (w1 := (rate_limiter_wait w0).2) in *.
  assert (runs w1 = runs w) as Hr by congruence.
  replace (seq 0 max_retries) with (seq 0 (max_retries - 0))
    by (rewrite Nat.sub_0_r; reflexivity).
  destruct (attempts_until_success self key input (_optimize_input input)
              max_retries r failures 0 (_optimize_context ext ctx) None w1)
    as (A1 & A2 & A3 & tr & A4 & A5).
  - lia.
  - intros i c Hi. rewrite Hr. apply Hf, Hi.
  - intros c. rewrite Hr. apply Hs.
  - rewrite A1, A2, A3, A4, Hr, Rt, Gt.
    rewrite (rate_sleep_clocks w w0 Glt Gl). repeat split.
    eexists. split; [rewrite <- app_assoc; reflexivity|].
    cbn. rewrite map_app, A5. reflexivity.
Qed.
End CallerExtras.

Lemma caller_retries_until_success_witness :
  let out := run_with_optimization flaky_ext triage_caller baggage_question
               None MAX_RETRIES world0 in
  out.1 = RunResultObj res_answer /\
  runs out.2 = runs world0 + 3 /\
  response_cache out.2
    !! _create_cache_key flaky_ext triage_caller baggage_question None
  = Some {| ce_response := res_answer; ce_timestamp := wall_time out.2 |} /\
  exists tr,
    trace out.2 = trace world0 ++ tr /\
    map step_of tr
    = StepWait :: map step_of (rate_sleep world0) ++ retry_schedule 2.
Proof.
  apply (caller_retries_until_success flaky_ext triage_caller baggage_question
           None MAX_RETRIES world0 2 res_answer).
  - vm_compute. reflexivity.
  - unfold MAX_RETRIES. lia.
  - intros i c Hi. exists "rate limit", None.
    destruct i as [|[|i]]; [reflexivity|reflexivity|lia].
  - intros c. exists None. reflexivity.
Defined.

Lemma last_slice_length {A} k (l : list A) :
  0 < k -> length (Py.last_slice k l) = Nat.min k (length l).
Proof.
  intros Hk. unfold Py.last_slice. destruct k as [|k]; [lia|].
  rewrite length_skipn. lia.
Qed.

Lemma last_slice_suffix {A} k (l : list A) :
  exists dropped, l = dropped ++ Py.last_slice k l.
Proof.
  unfold Py.last_slice. destruct k as [|k].
  - exists []. reflexivity.
  - exists (firstn (length l - S k) l). symmetry. apply firstn_skipn.
Qed.

Lemma last_slice_app {A} k (h r : list A) :
  length r = k -> 0 < k -> Py.last_slice k (h ++ r) = r.
Proof.
  intros Hr Hk. unfold Py.last_slice. destruct k as [|k]; [lia|].
  rewrite length_app, Hr.
  replace (length h + S k - S k) with (length h + 0) by lia.
  rewrite skipn_app, Nat.add_0_r, skipn_all.
  replace (length h - length h) with 0 by lia. reflexivity.
Qed.

(** X7. The rolling history of the context manager never holds more than
    [MAX_CONVERSATION_HISTORY] messages: after [add_message] the history is
    the old one followed by the new message, with the oldest messages
    dropped when there are too many, and the new message is its last. *)
Theorem context_manager_history_is_bounded role content agent w :
  let w' := (context_manager_add_message role content agent w).2 in
  let message := {| hm_role := role; hm_content := content;
                    hm_agent := agent; hm_timestamp := loop_time w |} in
  length (conversation_history w') <= MAX_CONVERSATION_HISTORY /\
  length (conversation_history w')
  = Nat.min (S (length (conversation_history w))) MAX_CONVERSATION_HISTORY /\
  (exists dropped,
      conversation_history w ++ [message]
      = dropped ++ conversation_history w') /\
  List.last (conversation_history w') message = message /\
  exists earlier, conversation_history w' = earlier ++ [message].
Proof.
  cbn zeta. rewrite context_manager_add_message_run. cbn [snd].
  set (message := {| hm_role := role |}).
  set (h := conversation_history w ++ [message]).
  change (conversation_history (set_conversation_history ?x w)) with x.
  cbn zeta. fold h.
  assert (length h = S (length (conversation_history w))) as Hl
    by (unfold h; rewrite length_app; cbn; lia).
  assert (exists earlier,
             (if MAX_CONVERSATION_HISTORY <? length h
              then Py.last_slice MAX_CONVERSATION_HISTORY h else h)
             = earlier ++ [message]) as (earlier & He).
  { destruct (MAX_CONVERSATION_HISTORY <? length h) eqn:E.
    - apply Nat.ltb_lt in E. unfold Py.last_slice, MAX_CONVERSATION_HISTORY in *.
      cbn [Nat.sub]. unfold h at 2.
      rewrite skipn_app.
      replace (length h - 10 - length (conversation_history w)) with 0 by lia.
      eexists. reflexivity.
    - eexists. reflexivity. }
  destruct (MAX_CONVERSATION_HISTORY <? length h) eqn:E.
  - apply Nat.ltb_lt in E.
    rewrite last_slice_length by (unfold MAX_CONVERSATION_HISTORY; lia).
    repeat split; try lia.
    + apply last_slice_suffix.
    + rewrite He. apply last_last.
    + eauto.
  - apply Nat.ltb_ge in E. repeat split; try lia.
    + exists []. reflexivity.
    + apply last_last.
    + eauto.
Qed.

(** X8. The summary of a history of three messages or more depends on its
    last three messages only; the summary of the empty history, and so the
    one after [clear_history], is the text for a new conversation. *)
Theorem summary_reads_the_last_three_messages history recent w :
  length recent = 3 ->
  summary_of (history ++ recent) = summary_of recent /\
  (context_manager_get_summary (context_manager_clear_history w).2).1
  = "New conversation".
Proof.
  intros Hr. split; [|reflexivity].
  unfold summary_of. rewrite last_slice_app by (assumption || lia).
  assert (Py.last_slice 3 recent = recent) as ->
    by (apply (last_slice_app 3 [] recent); assumption || lia).
  destruct recent as [|m recent]; [discriminate|].
  destruct (history ++ m :: recent) eqn:E; [|reflexivity].
  destruct history; discriminate.
Qed.

Lemma summary_reads_the_last_three_messages_witness :
  length recent_history = 3 /\
  summary_of (sample_history ++ recent_history)
  = "User: What is the baggage policy?... | Assistant: You may bring one bag...." /\
  summary_of (sample_history ++ recent_history) = summary_of recent_history.
Proof.
  split; [reflexivity|]. split; [reflexivity|].
  exact (proj1 (summary_reads_the_last_three_messages
                  sample_history recent_history world0 eq_refl)).
Defined.

(** *** Trimming *)

Lemma string_length_append s1 s2 :
  String.length (s1 ++ s2) = String.length s1 + String.length s2.
Proof.
  induction s1 as [|c s1 IH]; [reflexivity|].
  change (S (String.length (s1 ++ s2)) = S (String.length s1) + String.length s2).
  rewrite IH. reflexivity.
Qed.

Lemma string_length_prefix n s :
  String.length (Py.prefix n s) = Nat.min n (String.length s).
Proof.
  unfold Py.prefix. revert s. induction n as [|n IH]; intros s.
  - destruct s; reflexivity.
  - destruct s as [|c s]; [reflexivity|]. cbn. rewrite IH. reflexivity.
Qed.

Lemma truncate_length content :
  MAX_CONTEXT_LENGTH < String.length content ->
  String.length (truncate content) = MAX_CONTEXT_LENGTH + 3.
Proof.
  intros H. unfold truncate.
  rewrite string_length_append, string_length_prefix.
  change (String.length "...") with 3. lia.
Qed.

Lemma optimize_item_content item c :
  optimize_item item !! "content" = Some c ->
  String.length c <= MAX_CONTEXT_LENGTH + 3.
Proof.
  unfold optimize_item.
  destruct (item !! "content") as [content|] eqn:E.
  - destruct (MAX_CONTEXT_LENGTH <? String.length content) eqn:L.
    + rewrite lookup_insert_eq. intros [= <-].
      rewrite truncate_length by (apply Nat.ltb_lt; exact L). lia.
    + rewrite E. intros [= <-]. apply Nat.ltb_ge in L. lia.
  - rewrite E. discriminate.
Qed.

Lemma optimize_item_other item k :
  k <> "content" -> optimize_item item !! k = item !! k.
Proof.
  intros Hk. unfold optimize_item.
  destruct (item !! "content") as [content|]; [|reflexivity].
  destruct (MAX_CONTEXT_LENGTH <? String.length content); [|reflexivity].
  apply lookup_insert_ne. congruence.
Qed.

(** X9. What [_optimize_input] returns is bounded in size: a string has at
    most [MAX_CONTEXT_LENGTH + 3] characters and is the input itself when
    that has at most [MAX_CONTEXT_LENGTH]; a transcript has at most
    [MAX_CONVERSATION_HISTORY] entries, starts with the first entry of the
    input when it was cut, and has as many entries as the input
    otherwise. *)
Theorem optimize_input_is_bounded input :
  match input, _optimize_input input with
  | InStr s, InStr s' =>
      String.length s' <= MAX_CONTEXT_LENGTH + 3 /\
      (String.length s <= MAX_CONTEXT_LENGTH -> s' = s)
  | InList l, InList l' =>
      length l' <= MAX_CONVERSATION_HISTORY /\
      (MAX_CONVERSATION_HISTORY < length l ->
       length l' = MAX_CONVERSATION_HISTORY /\
       head l' = head l /\
       exists dropped, l = dropped ++ tail l') /\
      (length l <= MAX_CONVERSATION_HISTORY -> length l' = length l)
  | _, _ => False
  end.
Proof.
  destruct input as [s|l]; cbn [_optimize_input].
  - destruct (MAX_CONTEXT_LENGTH <? String.length s) eqn:E.
    + apply Nat.ltb_lt in E. rewrite truncate_length by exact E.
      split; [lia|]. intros H. lia.
    + apply Nat.ltb_ge in E. split; [lia|reflexivity].
  - destruct (MAX_CONVERSATION_HISTORY <? length l) eqn:E.
    + apply Nat.ltb_lt in E.
      assert (length (firstn 1 l ++ Py.last_slice (MAX_CONVERSATION_HISTORY - 1) l)
              = MAX_CONVERSATION_HISTORY) as Hl.
      { rewrite length_app, length_firstn, last_slice_length
          by (unfold MAX_CONVERSATION_HISTORY; lia).
        unfold MAX_CONVERSATION_HISTORY in *. lia. }
      rewrite Hl. split; [lia|]. split; [|lia]. intros _.
      split; [reflexivity|].
      destruct l as [|x l]; [cbn in E; lia|]. cbn [firstn app head tail].
      split; [reflexivity|]. apply last_slice_suffix.
    + apply Nat.ltb_ge in E. rewrite length_map.
      split; [lia|]. split; [lia|]. reflexivity.
Qed.

(** X10. On a transcript of at most [MAX_CONVERSATION_HISTORY] entries
    [_optimize_input] works entry by entry and in order: the text of every
    entry of the result has at most [MAX_CONTEXT_LENGTH + 3] characters, a
    text of at most [MAX_CONTEXT_LENGTH] characters is kept as it is, and so
    is every other key of an entry (its role, for one). *)
Theorem short_transcript_is_truncated_entrywise l :
  length l <= MAX_CONVERSATION_HISTORY ->
  exists l',
    _optimize_input (InList l) = InList l' /\
    length l' = length l /\
    forall i item item',
      l !! i = Some item -> l' !! i = Some item' ->
      (forall c, item' !! "content" = Some c ->
                 String.length c <= MAX_CONTEXT_LENGTH + 3) /\
      (forall c, item !! "content" = Some c ->
                 String.length c <= MAX_CONTEXT_LENGTH -> item' = item) /\
      (forall c, item !! "content" = Some c ->
                 MAX_CONTEXT_LENGTH < String.length c ->
                 item' !! "content"
                 = Some (Py.prefix MAX_CONTEXT_LENGTH c ++ "...")%string) /\
      (forall k, k <> "content" -> item' !! k = item !! k).
Proof.
  intros H. exists (map optimize_item l). cbn [_optimize_input].
  assert ((MAX_CONVERSATION_HISTORY <? length l) = false) as ->
    by (apply Nat.ltb_ge; exact H).
  split; [reflexivity|]. split; [apply length_map|].
  intros i item item' Hi Hi'.
  rewrite list_lookup_fmap, Hi in Hi'. cbn in Hi'. injection Hi' as <-.
  repeat split.
  - apply optimize_item_content.
  - intros c Hc Hlen. unfold optimize_item. rewrite Hc.
    assert ((MAX_CONTEXT_LENGTH <? String.length c) = false) as ->
      by (apply Nat.ltb_ge; exact Hlen).
    reflexivity.
  - intros c Hc Hlen. unfold optimize_item. rewrite Hc.
    assert ((MAX_CONTEXT_LENGTH <? String.length c) = true) as ->
      by (apply Nat.ltb_lt; exact Hlen).
    apply lookup_insert_eq.
  - intros k Hk. apply optimize_item_other, Hk.
Qed.

Lemma short_transcript_is_truncated_entrywise_witness :
  exists l',
    _optimize_input (InList [user_entry (Py.repeat_string "a" 4001);
                             assistant_entry "ok"]) = InList l' /\
    l' = [user_entry (Py.repeat_string "a" 4000 ++ "...");
          assistant_entry "ok"].
Proof.
  destruct (short_transcript_is_truncated_entrywise
              [user_entry (Py.repeat_string "a" 4001); assistant_entry "ok"])
    as (l' & H1 & _).
  - unfold MAX_CONVERSATION_HISTORY. cbn. lia.
  - exists l'. split; [exact H1|].
    assert (InList l' = InList [user_entry (Py.repeat_string "a" 4000 ++ "...");
                                assistant_entry "ok"]) as E
      by (rewrite <- H1; vm_compute; reflexivity).
    injection E as ->. reflexivity.
Defined.

Section ContextExtras.
Variable ext : External.

(** X11. The context the runner is given by [run_with_optimization] has
    the caller's values in the four essential fields only: an essential
    field the caller's context holds keeps its value, and every other field
    reads as the default of the context class, whatever the caller had put
    there. Without a context there is none to optimize. *)
Theorem optimized_context_keeps_essential_fields_only c k :
  _optimize_context ext None = None /\
  exists c',
    _optimize_context ext (Some c) = Some c' /\
    (k ∈ essential_fields -> is_Some (c !! k) -> c' !! k = c !! k) /\
    (k ∉ essential_fields -> c' !! k = context_defaults ext !! k) /\
    (c !! k = None -> c' !! k = context_defaults ext !! k).
Proof.
  split; [reflexivity|]. eexists. split; [reflexivity|].
  repeat split.
  - intros Hk [v Hv]. rewrite Hv. apply lookup_union_Some_l.
    apply map_lookup_filter_Some. split; [exact Hv|exact Hk].
  - intros Hk. rewrite lookup_union_r; [reflexivity|].
    apply map_lookup_filter_None. right. intros v _ Hin. exact (Hk Hin).
  - intros Hn. rewrite lookup_union_r; [reflexivity|].
    apply map_lookup_filter_None. left. exact Hn.
Qed.
End ContextExtras.

(** ** Further properties: api.py and simple_api.py *)

Lemma get_agent_by_name_registered n :
  name (_get_agent_by_name n) ∈ registered_names.
Proof.
  unfold _get_agent_by_name, agents_by_name, registered_names.
  rewrite !lookup_insert, lookup_empty.
  cbn [name simple_trip_agent simple_faq_agent simple_triage_agent].
  rewrite !elem_of_cons.
  destruct (decide ("Trip Management Agent" = n)); [cbn; auto 6|].
  destruct (decide ("FAQ Agent" = n)); [cbn; auto 6|].
  destruct (decide ("Triage Agent" = n)); cbn; auto 6.
Qed.

(** X12. [_get_agent_by_name] always resolves to a registered agent: a
    registered name gives the agent of that name, any other name gives the
    triage agent. *)
Theorem get_agent_by_name_resolves n :
  name (_get_agent_by_name n) ∈ registered_names /\
  (n ∈ registered_names -> name (_get_agent_by_name n) = n) /\
  (n ∉ registered_names -> _get_agent_by_name n = simple_triage_agent).
Proof.
  unfold _get_agent_by_name, agents_by_name, registered_names.
  rewrite !lookup_insert, lookup_empty.
  cbn [name simple_trip_agent simple_faq_agent simple_triage_agent].
  rewrite !elem_of_cons, elem_of_nil.
  destruct (decide ("Trip Management Agent" = n)) as [<-|H1].
  { cbn. split; [auto 6|]. split; [reflexivity|].
    intros H. exfalso. apply H. auto 6. }
  destruct (decide ("FAQ Agent" = n)) as [<-|H2].
  { cbn. split; [auto 6|]. split; [reflexivity|].
    intros H. exfalso. apply H. auto 6. }
  destruct (decide ("Triage Agent" = n)) as [<-|H3].
  { cbn. split; [auto 6|]. split; reflexivity. }
  cbn. split; [auto 6|]. split; [|reflexivity].
  intros [->|[->|[->|H]]]; try congruence. inversion H.
Qed.

Section ApiExtras.
Variable ext : External.

Lemma process_item_stream v item w :
  let out := process_item ext v item w in
  l_messages out.1 = l_messages v ++ item_messages item /\
  exists es,
    l_events out.1 = l_events v ++ es /\
    map ev_type es = item_event_types item /\
    map ev_agent es
    = match item with
      | MessageOutputItem a _ | ToolCallItem a _ _ | ToolCallOutputItem a _ =>
          [name a]
      | HandoffOutputItem s t => name s :: map (fun _ => name t) (tail es)
      | OtherItem => []
      end /\
    map ev_id es = map (uuid4_hex ext) (seq (draws w) (length es)) /\
    draws out.2 = draws w + length es.
Proof.
  destruct item as [a t|src tgt|a tn ra|a o|]; cbn zeta.
  - unfold process_item, on_message. rewrite bind_run, new_event_run.
    split; [reflexivity|]. eexists. split; [reflexivity|].
    cbn. repeat split. lia.
  - unfold process_item, on_handoff_item, item_event_types.
    rewrite bind_run, new_event_run. cbn [fst snd]. rewrite bind_run.
    destruct (find_handoff src tgt) as [[?|?|? [cb|]]|];
      rewrite ?bind_run, ?new_event_run;
      (split; [cbn; rewrite app_nil_r; reflexivity|]);
      eexists;
      (split; [cbn; rewrite <- ?app_assoc; reflexivity|]);
      cbn; repeat split; lia.
  - unfold process_item, on_tool_call. rewrite bind_run, new_event_run.
    cbn [fst snd mret M_ret]. unfold seat_map_message, item_messages.
    destruct tn as [tn|].
    + destruct (String.eqb_spec tn "display_seat_map") as [->|Hne].
      * rewrite decide_True by reflexivity.
        split; [reflexivity|]. eexists. split; [reflexivity|].
        cbn. repeat split. lia.
      * rewrite decide_False by congruence.
        split; [cbn; rewrite app_nil_r; reflexivity|].
        eexists. split; [reflexivity|]. cbn. repeat split. lia.
    + rewrite decide_False by discriminate.
      split; [cbn; rewrite app_nil_r; reflexivity|].
      eexists. split; [reflexivity|]. cbn. repeat split. lia.
  - unfold process_item, on_tool_output. rewrite bind_run, new_event_run.
    split; [cbn; rewrite app_nil_r; reflexivity|].
    eexists. split; [reflexivity|]. cbn. repeat split. lia.
  - split; [cbn; rewrite app_nil_r; reflexivity|].
    exists []. cbn. rewrite app_nil_r. repeat split. lia.
Qed.

Lemma process_items_messages items : forall v w,
  l_messages (for_each (process_item ext) items v w).1
  = l_messages v ++ flat_map item_messages items.
Proof.
  induction items as [|item items IH]; intros v w.
  - cbn. rewrite app_nil_r. reflexivity.
  - cbn [for_each flat_map]. rewrite bind_run, IH.
    destruct (process_item_stream v item w) as (-> & _).
    rewrite <- app_assoc. reflexivity.
Qed.

(** X13. The loop over the produced items is a function of the items: the
    messages it adds are those of the message items and a
    ["DISPLAY_SEAT_MAP"] marker for each call of the seat-map tool, in
    order; the events it adds have the types of the items, in order, with a
    tool_call event after a handoff that has a callback; each event draws
    one identifier, the identifiers are consecutive draws, and so they are
    pairwise distinct when the generator never repeats itself. *)
Theorem item_loop_builds_the_event_stream items : forall v w,
  let out := for_each (process_item ext) items v w in
  l_messages out.1 = l_messages v ++ flat_map item_messages items /\
  exists es,
    l_events out.1 = l_events v ++ es /\
    map ev_type es = flat_map item_event_types items /\
    map ev_id es = map (uuid4_hex ext) (seq (draws w) (length es)) /\
    draws out.2 = draws w + length es /\
    ((forall a b, uuid4_hex ext a = uuid4_hex ext b -> a = b) ->
     List.NoDup (map ev_id es)).
Proof.
  induction items as [|item items IH]; intros v w; cbn zeta.
  - cbn. rewrite app_nil_r. split; [reflexivity|]. exists [].
    rewrite app_nil_r. cbn. repeat split; [lia|]. intros _. constructor.
  - cbn [for_each flat_map]. rewrite bind_run.
    destruct (process_item_stream v item w)
      as (Hm & es1 & He & Ht & _ & Hi & Hd).
    destruct (IH (process_item ext v item w).1 (process_item ext v item w).2)
      as (Hm' & es2 & He' & Ht' & Hi' & Hd' & _).
    rewrite Hm', Hm, <- app_assoc. split; [reflexivity|].
    exists (es1 ++ es2). rewrite He', He, <- app_assoc.
    assert (map ev_id (es1 ++ es2)
            = map (uuid4_hex ext) (seq (draws w) (length (es1 ++ es2)))) as Hids.
    { rewrite map_app, Hi, Hi', Hd, length_app, seq_app, map_app.
      reflexivity. }
    repeat split.
    + rewrite map_app, Ht, Ht'. reflexivity.
    + exact Hids.
    + rewrite Hd', Hd, length_app. lia.
    + intros Hinj. rewrite Hids. apply Finite.Injective_map_NoDup.
      * exact Hinj.
      * apply seq_NoDup.
Qed.

Lemma process_followup_item_messages v item w :
  l_messages (process_followup_item ext v item w).1
  = l_messages v ++ item_messages item.
Proof.
  destruct item as [a t|src tgt|a tn ra|a o|];
    cbn [process_followup_item item_messages].
  - unfold on_message. rewrite bind_run, new_event_run. reflexivity.
  - cbn. rewrite app_nil_r. reflexivity.
  - unfold on_tool_call. rewrite bind_run, new_event_run.
    cbn [fst snd mret M_ret]. unfold seat_map_message.
    destruct tn as [tn|].
    + destruct (String.eqb_spec tn "display_seat_map") as [->|Hne].
      * rewrite decide_True by reflexivity. reflexivity.
      * rewrite decide_False by congruence. cbn. rewrite app_nil_r. reflexivity.
    + rewrite decide_False by discriminate. cbn. rewrite app_nil_r. reflexivity.
  - unfold on_tool_output. rewrite bind_run, new_event_run. cbn.
    rewrite app_nil_r. reflexivity.
  - cbn. rewrite app_nil_r. reflexivity.
Qed.

Lemma process_followup_items_messages items : forall v w,
  l_messages (for_each (process_followup_item ext) items v w).1
  = l_messages v ++ flat_map item_messages items.
Proof.
  induction items as [|item items IH]; intros v w.
  - cbn. rewrite app_nil_r. reflexivity.
  - cbn [for_each flat_map]. rewrite bind_run, IH,
      process_followup_item_messages, <- app_assoc. reflexivity.
Qed.

End ApiExtras.

Section TurnExtras.
Variable ext : External.

Lemma followup_run_messages l v w :
  l_handed_off v = true ->
  l_messages (followup ext l v w).1
  = l_messages v
      ++ match Runner_run ext (runs w) (l_current_agent v)
                          (InList (st_input_items (deref w l)))
                          (Some (st_context (deref w l))) with
         | Returns followup_result _ =>
             flat_map item_messages (new_items followup_result)
         | Raises _ _ => []
         end.
Proof.
  intros Hh. unfold followup. rewrite Hh.
  rewrite bind_run. cbn [fst snd]. rewrite bind_run. cbn [fst snd read gets].
  rewrite bind_run, run_on_state_run. cbn [fst snd].
  destruct (rate_limiter_wait_frame w) as (Hp & _ & Hr & _).
  rewrite (deref_heap _ _ l Hp), Hr.
  destruct (Runner_run ext (runs w) (l_current_agent v) _ _) as [fr c|e c].
  - apply process_followup_items_messages.
  - cbn. rewrite app_nil_r. reflexivity.
Qed.

(** The local variables and the world after the loop over the items of the
    primary result. *)
Lemma after_items_facts l m w result :
  let p := for_each (process_item ext) (new_items result)
             (initial_locals w l) (after_bookkeeping ext l m result w) in
  l_messages p.1 = flat_map item_messages (new_items result) /\
  l_current_agent p.1 = final_agent w l result /\
  l_handed_off p.1
  = match last_handoff_target (new_items result) with
    | Some _ => true
    | None => false
    end /\
  runs p.2 = S (runs w) /\
  deref p.2 l = {| st_input_items := st_input_items (deref w l) ++ [user_entry m];
                   st_context := primary_context ext w l m;
                   st_current_agent := st_current_agent (deref w l) |}.
Proof.
  cbn zeta.
  destruct (after_primary_facts ext l m w) as (Hh & _ & _ & _ & _ & _).
  destruct (after_bookkeeping_facts ext l m result w) as (Bh & _ & Br & _ & _).
  destruct (process_items_spec ext (new_items result) (initial_locals w l)
              (after_bookkeeping ext l m result w)) as (Pd & _ & Pa & Ph).
  pose proof (process_items_messages ext (new_items result)
                (initial_locals w l) (after_bookkeeping ext l m result w))
    as Pm.
  destruct (draws_only_fields _ _ Pd) as (Fh & _ & Fr & _).
  rewrite Bh, Hh in Fh. rewrite Br in Fr.
  split; [exact Pm|]. split; [exact Pa|]. split; [exact Ph|].
  split; [exact Fr|]. exact (deref_insert _ _ _ _ Fh).
Qed.

(** X14. The messages of a turn whose primary invocation returns are
    those of the items of the primary result followed, after a handoff, by
    those of the items of the follow-up result; a follow-up run that raises
    contributes none and does not fail the turn, which still switches to
    the handoff target and stores the transcript of the primary run. *)
Theorem turn_messages_come_from_both_runs req w result c :
  runs_turn req w ->
  request_outcome ext req w = Returns result c ->
  let out := chat_endpoint ext req w in
  let ws := start_world ext req w in
  let l := start_state ext req w in
  let m := req_message req in
  messages out.1
  = flat_map item_messages (new_items result)
      ++ followup_messages ext ws l m result /\
  (forall t e c',
      last_handoff_target (new_items result) = Some t ->
      followup_outcome ext ws l m t = Raises e c' ->
      messages out.1 = flat_map item_messages (new_items result) /\
      current_agent out.1 = name t /\
      stored_transcript out.2 (conversation_id out.1)
      = Some (to_input_list result)).
Proof.
  intros Hr Ho. cbn zeta.
  assert (messages (chat_endpoint ext req w).1
          = flat_map item_messages (new_items result)
              ++ followup_messages ext (start_world ext req w)
                   (start_state ext req w) (req_message req) result) as Hm.
  { rewrite (turn_of_request ext req w Hr).
    rewrite (turn_returns ext _ _ _ _ _ _ Ho). cbn zeta.
    set (ws := start_world ext req w). set (l := start_state ext req w).
    set (m := req_message req).
    destruct (after_items_facts l m ws result) as (Pm & Pa & Ph & Pr & Pd).
    set (p := for_each _ _ _ _) in *.
    match goal with |- messages (finish _ ?cid _ ?old _ ?v ?w').1 = _ =>
      destruct (finish_spec ext cid l old result v w') as (R1 & _)
    end.
    rewrite R1. cbn [messages]. unfold followup_messages, final_agent in *.
    destruct (last_handoff_target (new_items result)) as [t|] eqn:Hl.
    - rewrite (followup_run_messages l p.1 p.2 Ph), Pm, Pr, Pa, Pd. cbn.
      reflexivity.
    - rewrite (followup_not_handed ext l p.1 p.2 Ph). cbn [fst].
      rewrite Pm, app_nil_r. reflexivity. }
  split; [exact Hm|]. intros t e c' Hl Hf.
  rewrite Hm. unfold followup_messages. rewrite Hl, Hf, app_nil_r.
  split; [reflexivity|].
  rewrite (turn_of_request ext req w Hr).
  destruct (turn_success ext (start_id ext req w) _ _ _ _ _ Ho)
    as (Hid & Ha & _ & _ & Hc & Hh & _).
  split.
  - rewrite Ha. unfold final_agent. rewrite Hl. reflexivity.
  - unfold stored_transcript. rewrite Hid, Hc, lookup_insert_eq. cbn.
    rewrite (deref_insert _ _ _ _ Hh). reflexivity.
Qed.
End TurnExtras.

Lemma turn_messages_come_from_both_runs_witness :
  runs_turn req_hello world0 /\
  request_outcome handoff_ext req_hello world0 = Returns res_handoff None /\
  messages (chat_endpoint handoff_ext req_hello world0).1
  = flat_map item_messages (new_items res_handoff)
      ++ followup_messages handoff_ext (start_world handoff_ext req_hello world0)
           (start_state handoff_ext req_hello world0) (req_message req_hello)
           res_handoff.
Proof.
  assert (runs_turn req_hello world0) as H1 by (right; reflexivity).
  assert (request_outcome handoff_ext req_hello world0
          = Returns res_handoff None) as H2 by (vm_compute; reflexivity).
  split; [exact H1|]. split; [exact H2|].
  exact (proj1 (turn_messages_come_from_both_runs
                  handoff_ext req_hello world0 res_handoff None H1 H2)).
Defined.

Section ContinuationExtras.
Variable ext : External.

Lemma limit_history_bounded items :
  length (limit_history items) <= MAX_CONVERSATION_HISTORY /\
  exists dropped, items = dropped ++ limit_history items.
Proof.
  unfold limit_history.
  destruct (MAX_CONVERSATION_HISTORY <? length items) eqn:E.
  - split; [|apply last_slice_suffix].
    rewrite last_slice_length by (unfold MAX_CONVERSATION_HISTORY; lia). lia.
  - apply Nat.ltb_ge in E. split; [exact E|]. exists []. reflexivity.
Qed.

Lemma limit_history_last items entry :
  exists earlier, limit_history (items ++ [entry]) = earlier ++ [entry].
Proof.
  unfold limit_history.
  destruct (MAX_CONVERSATION_HISTORY <? length (items ++ [entry])) eqn:E.
  - apply Nat.ltb_lt in E. rewrite length_app in E. cbn in E.
    unfold Py.last_slice, MAX_CONVERSATION_HISTORY in *.
    rewrite skipn_app, length_app. cbn [length].
    replace (length items + 1 - 10 - length items) with 0 by lia.
    eexists. reflexivity.
  - eexists. reflexivity.
Qed.

(** X15. The runner is called in every turn, and what the primary call
    receives is bounded and current: the agent is a registered one, and the
    input is the end of the transcript with the user message appended, at
    most [MAX_CONVERSATION_HISTORY] entries of it, the last of which is the
    message of the request. *)
Theorem primary_run_sees_recent_history cid l m w :
  exists tr agent input ctx,
    trace (turn ext cid l m w).2 = trace w ++ tr /\
    hd_error (List.filter is_run tr) = Some (EvRun agent (InList input) ctx) /\
    name agent ∈ registered_names /\
    length input <= MAX_CONVERSATION_HISTORY /\
    (exists earlier, input = earlier ++ [user_entry m]) /\
    (exists dropped,
        st_input_items (deref w l) ++ [user_entry m] = dropped ++ input) /\
    ctx = Some (st_context (deref w l)).
Proof.
  destruct (turn_normal_path ext cid l m w) as (_ & tr & Ht & _ & Hr).
  exists tr, (primary_agent w l), (primary_input w l m),
         (Some (st_context (deref w l))).
  split; [exact Ht|]. split; [exact Hr|].
  split; [apply get_agent_by_name_registered|].
  unfold primary_input.
  destruct (limit_history_bounded (st_input_items (deref w l) ++ [user_entry m]))
    as (Hl & Hd).
  split; [exact Hl|]. split; [apply limit_history_last|].
  split; [exact Hd|reflexivity].
Qed.

(** X16. A successful turn can be continued: a request that carries the
    returned conversation id is not treated as new, it works on the state
    object the turn saved, with the agent the turn returned (when that one
    is registered, the triage agent otherwise) and the context it returned,
    and its primary run receives the canonical transcript of the turn with
    the new message appended, cut to the most recent
    [MAX_CONVERSATION_HISTORY] entries. *)
Theorem successful_turn_is_continued req w result c message :
  runs_turn req w ->
  request_outcome ext req w = Returns result c ->
  conversation_id (chat_endpoint ext req w).1 <> EmptyString ->
  let out := chat_endpoint ext req w in
  let next := {| req_conversation_id := Some (conversation_id out.1);
                 req_message := message |} in
  is_new next out.2 = false /\
  turn_start ext next out.2
  = (conversation_id out.1, start_state ext req w, out.2) /\
  primary_agent out.2 (start_state ext next out.2)
  = _get_agent_by_name (current_agent out.1) /\
  st_context (deref out.2 (start_state ext next out.2)) = context out.1 /\
  primary_input out.2 (start_state ext next out.2) message
  = limit_history (to_input_list result ++ [user_entry message]).
Proof.
  intros Hr Ho. cbn zeta. rewrite (turn_of_request ext req w Hr).
  destruct (turn_success ext (start_id ext req w) _ _ _ _ _ Ho)
    as (Hid & Ha & Hx & _ & Hc & Hh & _).
  set (out := turn ext _ _ _ _) in *. intros Hne.
  set (next := {| req_conversation_id := Some (conversation_id out.1) |}).
  assert (conversations out.2 !! conversation_id out.1
          = Some (start_state ext req w)) as Hl
    by (rewrite Hid, Hc; apply lookup_insert_eq).
  assert ((lookup_conversation next out.2).1
          = Some (conversation_id out.1, start_state ext req w)) as Hlk.
  { unfold lookup_conversation, next. cbn [req_conversation_id].
    rewrite decide_False by exact Hne.
    rewrite bind_run. unfold conversation_store_get. cbn. rewrite Hl.
    reflexivity. }
  assert (turn_start ext next out.2
          = (conversation_id out.1, start_state ext req w, out.2)) as Hs
    by (unfold turn_start; rewrite Hlk; reflexivity).
  split.
  { destruct (is_new next out.2) eqn:E; [|reflexivity].
    apply lookup_conversation_new in E. congruence. }
  split; [exact Hs|].
  assert (start_state ext next out.2 = start_state ext req w) as Hss
    by (unfold start_state at 1; rewrite Hs; reflexivity).
  rewrite Hss.
  unfold primary_agent, primary_input.
  rewrite (deref_insert _ _ _ _ Hh), Ha, Hx. cbn. auto.
Qed.
End ContinuationExtras.

Lemma successful_turn_is_continued_witness :
  let out := chat_endpoint answering_ext req_c1 world1 in
  let next := {| req_conversation_id := Some (conversation_id out.1);
                 req_message := "Thanks" |} in
  is_new next out.2 = false /\
  turn_start answering_ext next out.2
  = (conversation_id out.1, start_state answering_ext req_c1 world1, out.2) /\
  primary_agent out.2 (start_state answering_ext next out.2)
  = _get_agent_by_name (current_agent out.1) /\
  st_context (deref out.2 (start_state answering_ext next out.2))
  = context out.1 /\
  primary_input out.2 (start_state answering_ext next out.2) "Thanks"
  = limit_history (to_input_list res_answer ++ [user_entry "Thanks"]).
Proof.
  apply (successful_turn_is_continued answering_ext req_c1 world1 res_answer
           (Some (<["confirmation_number" := Some "ABC123"]>
                    (sample_context (Some "12345678")))) "Thanks").
  - left. reflexivity.
  - vm_compute. reflexivity.
  - vm_compute. discriminate.
Defined.

(** *** The format of the cache key *)

Lemma hex_digit_is_hex n : n < 16 -> is_hex (Py.hex_digit n) = true.
Proof.
  intros H. do 16 (destruct n as [|n]; [reflexivity|]). lia.
Qed.

Lemma hex_of_bytes_format bs :
  Forall (fun b => (0 <= b < 256)%Z) bs ->
  String.length (MD5.hex_of_bytes bs) = 2 * length bs /\
  forallb is_hex (list_ascii_of_string (MD5.hex_of_bytes bs)) = true.
Proof.
  induction 1 as [|b bs Hb _ [IH1 IH2]]; [split; reflexivity|].
  assert (Z.to_nat b < 256) as Hn by lia.
  change (MD5.hex_of_bytes (b :: bs))
    with (String (Py.hex_digit (Z.to_nat b / 16))
            (String (Py.hex_digit (Z.to_nat b mod 16)) (MD5.hex_of_bytes bs))).
  cbn [String.length list_ascii_of_string forallb].
  rewrite IH1, IH2, !hex_digit_is_hex.
  - split; [cbn [length]; lia|reflexivity].
  - apply Nat.mod_upper_bound. lia.
  - apply Nat.Div0.div_lt_upper_bound. lia.
Qed.

Lemma bytes_of_word_range w :
  Forall (fun b => (0 <= b < 256)%Z) (MD5.bytes_of_word w).
Proof.
  unfold MD5.bytes_of_word.
  repeat constructor;
    change 255%Z with (Z.ones 8); rewrite Z.land_ones by lia;
    apply Z.mod_pos_bound; lia.
Qed.

(** X17. Every cache key of [run_with_optimization] is a string of 32
    lower-case hexadecimal digits, whatever the input, the context and the
    agent are. *)
Theorem cache_key_is_32_hex_digits ext self input ctx :
  let key := _create_cache_key ext self input ctx in
  String.length key = 32 /\
  forallb is_hex (list_ascii_of_string key) = true.
Proof.
  cbn zeta. unfold _create_cache_key, MD5.hexdigest.
  set (d := MD5.digest _). clearbody d.
  match goal with |- context [MD5.hex_of_bytes ?bs] =>
    destruct (hex_of_bytes_format bs) as (H1 & H2)
  end.
  - repeat (apply Forall_app; split); apply bytes_of_word_range.
  - rewrite H1, H2. split; reflexivity.
Qed.

Section SimpleExtras.
Variable ext : External.

Lemma simple_process_item_agent v item w :
  l_current_agent (SimpleApi.process_item ext v item w).1
  = match item with HandoffOutputItem _ t => t | _ => l_current_agent v end.
Proof.
  destruct item; cbn [SimpleApi.process_item];
    rewrite ?bind_run, ?simple_new_event_run; reflexivity.
Qed.

Lemma simple_process_items_agent items : forall v w,
  l_current_agent (for_each (SimpleApi.process_item ext) items v w).1
  = default (l_current_agent v) (last_handoff_target items).
Proof.
  induction items as [|item items IH]; intros v w; [reflexivity|].
  cbn [for_each last_handoff_target]. rewrite bind_run, IH,
    simple_process_item_agent.
  destruct (last_handoff_target items); [reflexivity|].
  destruct item; reflexivity.
Qed.

Lemma simple_finish_agent cid l old result v w :
  current_agent (SimpleApi.finish ext cid l old result v w).1
  = name (l_current_agent v).
Proof.
  unfold SimpleApi.finish.
  rewrite bind_run. cbn [fst snd read gets]. rewrite bind_run.
  destruct (decide (context_changes old (st_context (deref w l)) = ∅)).
  - mrun. reflexivity.
  - mrun. rewrite !simple_new_event_run. reflexivity.
Qed.

(** X18. The simplified endpoint never follows up on a handoff: a turn
    whose primary invocation returns makes exactly one call of the runner,
    also when the result holds handoff items; it still returns the target
    of the last handoff item as current agent, and it stores the canonical
    transcript of the primary run. *)
Theorem simple_endpoint_runs_once req w result c :
  runs_turn req w ->
  request_outcome ext req w = Returns result c ->
  let out := SimpleApi.chat_endpoint ext req w in
  let ws := start_world ext req w in
  let l := start_state ext req w in
  current_agent out.1 = name (final_agent ws l result) /\
  runs out.2 = S (runs w) /\
  stored_transcript out.2 (conversation_id out.1)
  = Some (to_input_list result) /\
  exists tr,
    trace out.2 = trace w ++ tr /\
    List.filter is_run tr
    = [EvRun (primary_agent ws l) (InList (primary_input ws l (req_message req)))
             (Some (st_context (deref ws l)))] /\
    List.filter is_wait tr = [EvRateWait].
Proof.
  intros Hr Ho. cbn zeta.
  rewrite (simple_chat_endpoint_turn ext req w (runs_turn_strip req w Hr)).
  fold (start_id ext req w) (start_state ext req w) (start_world ext req w).
  destruct (simple_turn_returns ext (start_id ext req w) _ _ _ _ _ Ho)
    as (Hid & Hst & Hru & _ & Htr).
  destruct (turn_start_frame ext req w) as (Ft & Fr & _).
  split.
  - rewrite simple_turn_unfold. cbn zeta. rewrite primary_run.
    unfold request_outcome in Ho. rewrite Ho.
    rewrite !bind_run, simple_finish_agent, simple_process_items_agent.
    reflexivity.
  - rewrite Hid, Hst, Hru, Htr, Fr, Ft. repeat split.
    eexists. split; [reflexivity|].
    cbn. rewrite !List.filter_app, filter_run_rate_sleep,
      filter_wait_rate_sleep. split; reflexivity.
Qed.
End SimpleExtras.

Lemma simple_endpoint_runs_once_witness :
  let out := SimpleApi.chat_endpoint handoff_ext req_hello world0 in
  current_agent out.1 = "FAQ Agent" /\ runs out.2 = 1.
Proof.
  destruct (simple_endpoint_runs_once handoff_ext req_hello world0
              res_handoff None) as (H1 & H2 & _).
  - right. reflexivity.
  - vm_compute. reflexivity.
  - split; [exact H1|exact H2].
Defined.
